(** * Consent manager of td-js-sdk (lib/plugins/consent-manager.js)

    A shallow embedding of the consent-manager plugin and the properties its
    specification states about it.

    JavaScript values are modelled as a small tagged union.  An object is the
    list of its own enumerable properties in enumeration order (creation
    order): writing an existing key replaces the value in place, writing a new
    key appends it.  A proper object has no repeated key; [for (k in o)] with
    [o[k]] in its body is read as a traversal of the entries.  Properties
    inherited from prototypes, array indices of strings, functions and object
    identity are outside the model: an object handed to the plugin is taken by
    value.  Where a statement turns on a key being new to an object, it asks
    for a key that no object inherits ([inherited]) and, where the place of
    the new key matters, for one that is not written in digits only
    ([plain_key]); a context is named by a string.  Property access on [undefined] or [null], and assignment to a
    property of anything that is not an object (the file is an ES module, hence
    strict), throw a TypeError. *)

From Stdlib Require Import String Ascii List ZArith Bool Lia DecimalString.
Import ListNotations.
Local Open Scope string_scope.
Local Open Scope Z_scope.
Set Warnings "-register-all".

(** ** Values *)

Inductive value : Type :=
| JUndefined
| JNull
| JBool (b : bool)
| JNum (n : Z)
| JNaN
| JStr (s : string)
| JObj (props : list (string * value)).

Definition props := list (string * value).

Inductive exn : Type :=
| TypeError.

(** Completion of an expression that may throw. *)
Inductive completion (A : Type) : Type :=
| Normal (a : A)
| Throw (e : exn).

Arguments Normal {A} a.
Arguments Throw {A} e.

Definition bind {A B : Type} (c : completion A) (k : A -> completion B) : completion B :=
  match c with
  | Normal a => k a
  | Throw e => Throw e
  end.

Notation "x <- c ;; k" := (bind c (fun x => k))
  (at level 61, c at next level, right associativity).

(** ** Own properties *)

Fixpoint lookup (k : string) (ps : props) : option value :=
  match ps with
  | [] => None
  | (k', v) :: rest => if String.eqb k k' then Some v else lookup k rest
  end.

(** [o[k] = v] on an object: in place when the key exists, appended otherwise.
    (JavaScript enumerates the keys written in digits only before the others,
    and [o["__proto__"] = v] writes no property: see [plain_key].) *)
Fixpoint assoc_set (k : string) (v : value) (ps : props) : props :=
  match ps with
  | [] => [(k, v)]
  | (k', v') :: rest =>
      if String.eqb k k' then (k', v) :: rest else (k', v') :: assoc_set k v rest
  end.

(** [ps[k]] for an object known by its properties: its own ones (the members
    every object inherits are listed by [inherited]). *)
Definition prop (ps : props) (k : string) : value :=
  match lookup k ps with
  | Some v => v
  | None => JUndefined
  end.

(** [v[k]] / [v.k] *)
Definition get (v : value) (k : string) : completion value :=
  match v with
  | JUndefined | JNull => Throw TypeError
  | JObj ps => Normal (prop ps k)
  | _ => Normal JUndefined
  end.

(** [v[k] = x] / [v.k = x] *)
Definition put (v : value) (k : string) (x : value) : completion value :=
  match v with
  | JObj ps => Normal (JObj (assoc_set k x ps))
  | _ => Throw TypeError
  end.

(** The keys [for (k in v)] visits together with [v[k]]. *)
Definition entries (v : value) : props :=
  match v with
  | JObj ps => ps
  | _ => []
  end.

Definition keys (ps : props) : list string := map fst ps.

(** No key occurs twice: the list is the property table of one object. *)
Fixpoint proper (ps : props) : bool :=
  match ps with
  | [] => true
  | (k, _) :: rest => negb (existsb (String.eqb k) (keys rest)) && proper rest
  end.

(** ** Operators *)

Definition truthy (v : value) : bool :=
  match v with
  | JUndefined | JNull | JNaN => false
  | JBool b => b
  | JNum n => negb (n =? 0)
  | JStr s => negb (String.eqb s "")
  | JObj _ => true
  end.

(** [a || b] *)
Definition js_or (a b : value) : value := if truthy a then a else b.

(** [v === s] for a string literal [s]. *)
Definition is_str (v : value) (s : string) : bool :=
  match v with
  | JStr s' => String.eqb s' s
  | _ => false
  end.

(** [a === b]; two objects are never the same object here, every use in the
    plugin compares results of fresh calls or a value with a literal. *)
Definition strict_eq (a b : value) : bool :=
  match a, b with
  | JUndefined, JUndefined => true
  | JNull, JNull => true
  | JBool x, JBool y => Bool.eqb x y
  | JNum x, JNum y => x =? y
  | JStr x, JStr y => String.eqb x y
  | _, _ => false
  end.

Definition lower_ascii (c : ascii) : ascii :=
  let n := nat_of_ascii c in
  if (Nat.leb 65 n && Nat.leb n 90)%bool then ascii_of_nat (n + 32) else c.

(** [s.toLowerCase()] on the ASCII range. *)
Fixpoint toLowerCase (s : string) : string :=
  match s with
  | EmptyString => EmptyString
  | String c rest => String (lower_ascii c) (toLowerCase rest)
  end.

(** The property key a value names in [o[v]]: a string names itself, an
    integer its decimal digits (below 1e21, where no exponent is printed). *)
Definition toPropertyKey (v : value) : string :=
  match v with
  | JUndefined => "undefined"
  | JNull => "null"
  | JBool true => "true"
  | JBool false => "false"
  | JNum n => NilZero.string_of_int (Z.to_int n)
  | JNaN => "NaN"
  | JStr s => s
  | JObj _ => "[object Object]"
  end.

(** ** utils/lodash *)

(** Modelled from the spec: utils/lodash (the bundled lodash build) is not among
    the sources.  [_.isEmpty] is lodash's emptiness test, the "empty" of the
    spec's no-op rules: a string is empty when it has no character, an object
    when it has no own enumerable property, every other value is empty. *)
Definition isEmpty (v : value) : bool :=
  match v with
  | JStr s => String.eqb s ""
  | JObj ps => match ps with [] => true | _ => false end
  | _ => true
  end.

Definition isString (v : value) : bool :=
  match v with JStr _ => true | _ => false end.

Definition isNumber (v : value) : bool :=
  match v with JNum _ | JNaN => true | _ => false end.

Definition isObject (v : value) : bool :=
  match v with JObj _ => true | _ => false end.

Definition mem_key (k : string) (ks : list string) : bool :=
  existsb (String.eqb k) ks.

(** Modelled from the spec: utils/lodash is not among the sources.  [_.omit]
    copies an object without the named keys ("excluding the consents
    sub-map"); of [undefined] or [null] it gives the empty object. *)
Definition omit_props (ps : props) (ks : list string) : props :=
  filter (fun kv => negb (mem_key (fst kv) ks)) ps.

Definition omit (v : value) (ks : list string) : props :=
  omit_props (entries v) ks.

(** Modelled from the spec: utils/lodash is not among the sources.  [_.assign]
    is the shallow merge of the spec ("new fields overwrite old"): the own
    properties of each source are written onto the target in order. *)
Definition assign (target source : props) : props :=
  fold_left (fun acc kv => assoc_set (fst kv) (snd kv) acc) source target.

(** ** Collaborators and state *)

Definition GIVEN := "given".
Definition REFUSED := "refused".
Definition NOTGIVEN := "notgiven".
Definition EXPIRED := "expired".

(** A function handed to the plugin; [Noop] is [_.noop]. *)
Inductive callback : Type :=
| Noop
| Callback (name : string).

(** What the plugin reads from its configuration and from the modules it
    imports: utils/misc, dayjs, the tracking client. *)
Record Host : Type := {
  camelCase : string -> value;           (* camelCase(str) of utils/misc *)
  dayjs : value -> option Z;             (* dayjs(v): its valueOf() when isValid() *)
  dayjsFormat : value -> option Z;       (* dayjs(v, dateFormat): its valueOf() when isValid() *)
  formatDate : value -> value;           (* dayjs(v).format(dateFormat) *)
  issuer : value;                        (* consentManager.issuer *)
  track_uuid : value;                    (* this.client.track.uuid *)
  isLocalStorageAccessible : bool;       (* isLocalStorageAccessible() of utils/misc *)
  successConsentCallback : callback;
  failureConsentCallback : callback;
  expiredConsentsCallback : callback
}.

Inductive table : Type :=
| consentTable
| contextTable.

(** What an operation does to the outside, in order. *)
Inductive event : Type :=
| SetItem (payload : value)                    (* localStorage.setItem(storageKey, JSON.stringify(payload)) *)
| AddConsentRecord (t : table) (record : value) (* this.addConsentRecord(t, record, resolve, reject) *)
| CallSuccess (f : callback) (consents : value)
| CallError (f : callback) (err : value)
| CallExpired (f : callback) (consents : list value).

Record state : Type := {
  preferences : value;       (* this.consentManager.preferences *)
  defaultContext : value;    (* this.defaultContext *)
  storage : value            (* JSON.parse(localStorage.getItem(storageKey)) *)
}.

Definition with_preferences (p : value) (st : state) : state :=
  {| preferences := p; defaultContext := defaultContext st; storage := storage st |}.

Definition with_storage (s : value) (st : state) : state :=
  {| preferences := preferences st; defaultContext := defaultContext st; storage := s |}.

(** An operation: the state it leaves, what it did, and how it completed.  The
    state and the events of a call that throws are those reached at the throw. *)
Record outcome (A : Type) : Type := {
  final : state;
  trace : list event;
  result : completion A
}.

Arguments final {A} o.
Arguments trace {A} o.
Arguments result {A} o.

Definition js (A : Type) : Type := state -> outcome A.

Definition ret {A : Type} (a : A) : js A :=
  fun st => {| final := st; trace := []; result := Normal a |}.

Definition seq {A B : Type} (m : js A) (k : A -> js B) : js B :=
  fun st =>
    let o := m st in
    match result o with
    | Normal a =>
        let o' := k a (final o) in
        {| final := final o'; trace := (trace o ++ trace o')%list; result := result o' |}
    | Throw e => {| final := final o; trace := trace o; result := Throw e |}
    end.

Notation "x <~ m ;;; k" := (seq m (fun x => k))
  (at level 61, m at next level, right associativity).

Definition lift {A : Type} (c : completion A) : js A :=
  fun st => {| final := st; trace := []; result := c |}.

Definition emit (evs : list event) : js unit :=
  fun st => {| final := st; trace := evs; result := Normal tt |}.

Definition read : js state :=
  fun st => {| final := st; trace := []; result := Normal st |}.

Definition write (st' : state) : js unit :=
  fun _ => {| final := st'; trace := []; result := Normal tt |}.

(** ** Loops over own properties *)

(** A statement working on local variables of type [A] and on one object:
    the variables and the object as it leaves them, and what it threw. *)
Definition stmt (A : Type) : Type := A -> value -> (A * value) * option exn.

Definition skip {A : Type} : stmt A :=
  fun a v => ((a, v), None).

(** [s1; s2] *)
Definition then_do {A : Type} (s1 s2 : stmt A) : stmt A :=
  fun a v =>
    match s1 a v with
    | (r, None) => s2 (fst r) (snd r)
    | r => r
    end.

(** Evaluate an expression on the object and go on with its value. *)
Definition reading {A X : Type} (c : value -> completion X) (k : X -> stmt A) : stmt A :=
  fun a v =>
    match c v with
    | Normal x => k x a v
    | Throw e => ((a, v), Some e)
    end.

(** [obj.k = x] *)
Definition assign_prop {A : Type} (k : string) (x : value) : stmt A :=
  fun a v =>
    match put v k x with
    | Normal v' => ((a, v'), None)
    | Throw e => ((a, v), Some e)
    end.

(** [container[key] = f(container[key])], seen from the entry. *)
Definition replace_with {A : Type} (f : value -> value) : stmt A :=
  fun a v => ((a, f v), None).

Definition set_var {A : Type} (a' : A) : stmt A :=
  fun _ v => ((a', v), None).

(** [for (k in o) { ... o[k] ... }] where the body changes [o[k]] only: the
    entries after a throw are left as they were. *)
Fixpoint for_in {A : Type} (body : string -> stmt A) (ps : props) (a : A)
  : (A * props) * option exn :=
  match ps with
  | [] => ((a, []), None)
  | (k, v) :: rest =>
      match body k a v with
      | ((a', v'), Some e) => ((a', (k, v') :: rest), Some e)
      | ((a', v'), None) =>
          let r := for_in body rest a' in
          ((fst (fst r), (k, v') :: snd (fst r)), snd r)
      end
  end.

(** [for (k in ctx.consents) body] on the context [ctx]. *)
Definition in_consents {A : Type} (body : string -> stmt A) : stmt A :=
  fun a ctx =>
    match ctx with
    | JUndefined | JNull => ((a, ctx), Some TypeError)
    | JObj ps =>
        match prop ps "consents" with
        | JObj cs =>
            let r := for_in body cs a in
            ((fst (fst r), JObj (assoc_set "consents" (JObj (snd (fst r))) ps)), snd r)
        | _ => ((a, ctx), None)
        end
    | _ => ((a, ctx), None)
    end.

(** [for (contextId in preferences) for (k in preferences[contextId].consents) body] *)
Definition in_all_consents {A : Type} (body : string -> string -> stmt A) : stmt A :=
  fun a prefs =>
    match prefs with
    | JObj ctxs =>
        let r := for_in (fun contextId => in_consents (body contextId)) ctxs a in
        ((fst (fst r), JObj (snd (fst r))), snd r)
    | _ => ((a, prefs), None)
    end.

(** Such a loop run on the preferences; it returns its local variables. *)
Definition update_preferences {A : Type} (loop : stmt A) (a : A) : js A :=
  fun st =>
    let r := loop a (preferences st) in
    {| final := with_preferences (snd (fst r)) st;
       trace := [];
       result := match snd r with
                 | None => Normal (fst (fst r))
                 | Some e => Throw e
                 end |}.

(** The same loops when the body only reads: left fold with an accumulator. *)
Fixpoint foldM {A : Type} (f : A -> string -> value -> completion A) (ps : props) (a : A)
  : completion A :=
  match ps with
  | [] => Normal a
  | (k, v) :: rest => a' <- f a k v ;; foldM f rest a'
  end.

Definition fold_all_consents {A : Type}
  (f : A -> string -> value -> string -> value -> completion A) (prefs : value) (a : A)
  : completion A :=
  foldM (fun acc contextId ctx =>
           consents <- get ctx "consents" ;;
           foldM (fun acc' consentKey consent => f acc' contextId ctx consentKey consent)
                 (entries consents) acc)
        (entries prefs) a.

(** ** The plugin *)

Section Plugin.

Variable h : Host.

Definition _getNormalizedConsent (consentKey : string) (consent : value) : completion value :=
  description <- get consent "description" ;;
  datatype <- get consent "datatype" ;;
  status <- get consent "status" ;;
  expiry_date <- get consent "expiry_date" ;;
  context_id <- get consent "context_id" ;;
  Normal (JObj [ ("description", description);
                 ("datatype", datatype);
                 ("status", status);
                 ("expriry_date", js_or expiry_date JNull);
                 ("issuer", issuer h);
                 ("identifier", track_uuid h);
                 ("purpose", JStr consentKey);
                 ("context_id", context_id) ]).

(** The body of the loops of [_normalizeConsents]: [acc] holds
    [updatedConsents] and [notUdpatedConsents]. *)
Definition index_consent (acc : props * props) (consentKey : string)
  (currentConsent : value) : completion (props * props) :=
  let (updatedConsents, notUdpatedConsents) := acc in
  _updated <- get currentConsent "_updated" ;;
  normalizedConsent <- _getNormalizedConsent consentKey currentConsent ;;
  Normal (if truthy _updated
          then (assoc_set consentKey normalizedConsent updatedConsents, notUdpatedConsents)
          else (updatedConsents, assoc_set consentKey normalizedConsent notUdpatedConsents)).

Definition _normalizeConsents : js value :=
  st <~ read ;;;
  both <~ lift (fold_all_consents (fun acc _ _ => index_consent acc)
                                  (preferences st) ([], [])) ;;;
  let (updatedConsents, notUdpatedConsents) := both in
  ret (if isEmpty (JObj updatedConsents) then JObj notUdpatedConsents
       else JObj updatedConsents).

(** [JSON.parse(JSON.stringify(v))]: properties holding [undefined] are
    dropped, [NaN] is written as [null]. *)
Fixpoint json (v : value) : value :=
  match v with
  | JNaN => JNull
  | JObj ps =>
      JObj ((fix go (l : list (string * value)) : list (string * value) :=
               match l with
               | [] => []
               | (k, JUndefined) :: rest => go rest
               | (k, x) :: rest => (k, json x) :: go rest
               end) ps)
  | _ => v
  end.

(** The object [_stringifyPreferences] hands to [JSON.stringify]; the loops
    work on a deep copy of the preferences. *)
Definition _stringifyPreferences (prefs : value) : completion value :=
  let r := in_all_consents
             (fun _ purpose =>
                reading (fun consent => get consent "expiry_date") (fun expiryDate =>
                then_do (if negb (isEmpty expiryDate)
                         then assign_prop "expiry_date" (formatDate h expiryDate)
                         else skip)
               (then_do (assign_prop "identifier" (track_uuid h))
                        (replace_with (fun consent => JObj (omit consent ["_updated"]))))))
             tt prefs in
  match snd r with
  | None => Normal (snd (fst r))
  | Some e => Throw e
  end.

Definition _isValidStatus (status : value) : bool :=
  if negb (truthy status) || negb (isString status) then false
  else match status with
       | JStr s =>
           let status := toLowerCase s in
           String.eqb status GIVEN || String.eqb status REFUSED
           || String.eqb status NOTGIVEN || String.eqb status EXPIRED
       | _ => false
       end.

(** [dayjs(v).isBefore(dayjs(today))]; an invalid date is before nothing. *)
Definition isBefore (v : value) (today : Z) : bool :=
  match dayjs h v with
  | Some t => t <? today
  | None => false
  end.

(** [today] is the reading of [new Date()]; one reading serves every test of
    one synchronous call. *)
Definition _isExpired (today : Z) (consent : value) : completion bool :=
  status <- get consent "status" ;;
  if is_str status GIVEN then
    expiry_date <- get consent "expiry_date" ;;
    Normal (truthy expiry_date && isBefore expiry_date today)
  else Normal false.

Definition _savePreferences : js unit :=
  st <~ read ;;;
  if negb (isLocalStorageAccessible h) || isEmpty (preferences st) then ret tt
  else
    payload <~ lift (_stringifyPreferences (preferences st)) ;;;
    _ <~ emit [SetItem payload] ;;;
    write (with_storage (json payload) st).

Definition _resetUpdatedStatus : js unit :=
  update_preferences
    (in_all_consents
       (fun _ consentKey =>
          reading (fun currentConsent => get currentConsent "_updated") (fun _updated =>
          if truthy _updated then assign_prop "_updated" (JBool false) else skip)))
    tt.

(** [_getPromise(consent)]: the executor of the promise runs at once and hands
    the record to the transport. *)
Definition _getPromise (consent : value) : event :=
  AddConsentRecord consentTable consent.

(** What [saveConsents] leaves behind when it returns: the promises it waits
    for and the handlers it attached to them. *)
Record pending : Type := {
  promises : list value;     (* the records handed to the transport *)
  hadUpdated : bool;         (* !_.isEmpty(updatedConsents) *)
  onSuccess : callback;
  onError : callback
}.

Definition is_nil {A : Type} (l : list A) : bool :=
  match l with [] => true | _ => false end.

(** The body of the loops of [saveConsents]: [acc] holds [updatedConsents]
    and [notUpdatedConsents]. *)
Definition sort_consent (acc : list value * list value) (consentKey : string)
  (currentConsent : value) : completion (list value * list value) :=
  let (updatedConsents, notUpdatedConsents) := acc in
  normalizedConsent <- _getNormalizedConsent consentKey currentConsent ;;
  _updated <- get currentConsent "_updated" ;;
  Normal (if truthy _updated
          then ((updatedConsents ++ [normalizedConsent])%list, notUpdatedConsents)
          else (updatedConsents, (notUpdatedConsents ++ [normalizedConsent])%list)).

Definition saveConsents (success error : option callback) : js pending :=
  let success := match success with Some f => f | None => successConsentCallback h end in
  let error := match error with Some f => f | None => failureConsentCallback h end in
  _ <~ _savePreferences ;;;
  st <~ read ;;;
  both <~ lift (fold_all_consents (fun acc _ _ => sort_consent acc)
                                  (preferences st) ([], [])) ;;;
  let updatedConsents := fst both in
  let notUpdatedConsents := snd both in
  let sent := if negb (is_nil updatedConsents) then updatedConsents else notUpdatedConsents in
  _ <~ emit (map _getPromise sent) ;;;
  ret {| promises := sent;
         hadUpdated := negb (is_nil updatedConsents);
         onSuccess := success;
         onError := error |}.

(** The handlers of [Promise.all(promises).then(..., ...).finally(...)], run
    when the dispatches have settled: [rejection] is [None] when every promise
    resolved and the reason of the first rejection otherwise.  A throw inside
    the [then] handler rejects the chained promise; the [finally] handler runs
    in either case. *)
Definition settle (p : pending) (rejection : option value) : js unit :=
  fun st =>
    let handled :=
      match rejection with
      | None =>
          (consents <~ _normalizeConsents ;;;
           emit [CallSuccess (onSuccess p) consents]) st
      | Some e =>
          (message <~ lift (get e "message") ;;;
           emit [CallError (onError p)
                   (JObj [("success", JBool false); ("message", message)])]) st
      end in
    let finished :=
      if hadUpdated p then _resetUpdatedStatus (final handled)
      else ret tt (final handled) in
    {| final := final finished;
       trace := (trace handled ++ trace finished)%list;
       result := match result finished with
                 | Throw e => Throw e
                 | Normal _ => result handled
                 end |}.

Fixpoint for_each {A : Type} (f : A -> js unit) (l : list A) : js unit :=
  match l with
  | [] => ret tt
  | a :: rest => _ <~ f a ;;; for_each f rest
  end.

(** [!_.isEmpty(d) && (_.isString(d) || _.isNumber(d) || _.isObject(d))] *)
Definition parsable (expiryDate : value) : bool :=
  negb (isEmpty expiryDate)
  && (isString expiryDate || isNumber expiryDate || isObject expiryDate).

(** One round of the loop of [addConsents]: [fields] is [consents[key]].
    The source installs [this.defaultContext] itself in the preferences; from
    then on the test [!preferences[contextId]] fails and the default context is
    reached through the preferences only, so installing its value loses
    nothing. *)
Definition addConsent (key : string) (fields : props) : js unit :=
  let status := if _isValidStatus (prop fields "status")
                then prop fields "status" else JStr NOTGIVEN in
  let contextId := prop fields "context_id" in
  let expiryDate := js_or (prop fields "expiry_date") (JStr "") in
  contextId <~ (if negb (truthy contextId) then
                  st <~ read ;;;
                  contextId <~ lift (get (defaultContext st) "context_id") ;;;
                  found <~ lift (get (preferences st) (toPropertyKey contextId)) ;;;
                  _ <~ (if negb (truthy found) then
                          prefs <~ lift (put (preferences st) (toPropertyKey contextId)
                                             (defaultContext st)) ;;;
                          write (with_preferences prefs st)
                        else ret tt) ;;;
                  ret contextId
                else ret contextId) ;;;
  st <~ read ;;;
  currentContext <~ lift (get (preferences st) (toPropertyKey contextId)) ;;;
  current <~ lift (if truthy currentContext then
                     consents <- get currentContext "consents" ;;
                     get consents key
                   else Normal currentContext) ;;;
  let expiryDate :=
    if parsable expiryDate then
      match dayjsFormat h expiryDate with
      | Some t => JNum t
      | None => JStr ""
      end
    else JStr "" in
  let augmentedConsent :=
    if negb (isEmpty current) then assign (assign [] (entries current)) fields
    else assign (assign [] fields)
                [ ("key", camelCase h key); ("status", status);
                  ("identifier", track_uuid h); ("context_id", contextId) ] in
  let augmentedConsent := assoc_set "issuer" (issuer h) augmentedConsent in
  let augmentedConsent := assoc_set "expiry_date" expiryDate augmentedConsent in
  context <~ lift (get (preferences st) (toPropertyKey contextId)) ;;;
  consents <~ lift (get context "consents") ;;;
  consents <~ lift (put consents key (JObj augmentedConsent)) ;;;
  context <~ lift (put context "consents" consents) ;;;
  prefs <~ lift (put (preferences st) (toPropertyKey contextId) context) ;;;
  write (with_preferences prefs st).

Definition addConsents (consents : list (string * props)) : js unit :=
  if is_nil consents then ret tt
  else for_each (fun kv => addConsent (fst kv) (snd kv)) consents.

(** The body of the loop of [updateConsent], run for the first [purpose] that
    matches; it works on [currentConsents]. *)
Definition updateMatched (consentPurpose : string) (fields : props) (currentConsents : value)
  : completion value :=
  let status := js_or (prop fields "status") (JStr "") in
  let expiryDate := js_or (prop fields "expiry_date") (JStr "") in
  stored <- get currentConsents consentPurpose ;;
  status <- (if negb (_isValidStatus status) then get stored "status" else Normal status) ;;
  expiryDate <- (if parsable expiryDate then
                   match dayjsFormat h expiryDate with
                   | Some t => Normal (JNum t)
                   | None => get stored "expiry_date"
                   end
                 else get stored "expiry_date") ;;
  let filteredConsent := omit stored ["expiry_date"; "status"] in
  let merged := assign (assign filteredConsent (omit_props fields ["expiry_date"; "status"]))
                       [ ("identifier", track_uuid h); ("status", status);
                         ("expiry_date", expiryDate) ] in
  put currentConsents consentPurpose (JObj (assoc_set "_updated" (JBool true) merged)).

Definition updateConsent (contextId : string) (consent : list (string * props)) : js unit :=
  st <~ read ;;;
  context <~ lift (get (preferences st) contextId) ;;;
  if isEmpty context || is_nil consent then ret tt
  else
    match consent with
    | [] => ret tt
    | (consentPurpose, fields) :: _ =>
        currentConsents <~ lift (get context "consents") ;;;
        if existsb (fun purpose => strict_eq (camelCase h purpose) (camelCase h consentPurpose))
                   (keys (entries currentConsents))
        then
          currentConsents <~ lift (updateMatched consentPurpose fields currentConsents) ;;;
          context <~ lift (put context "consents" currentConsents) ;;;
          prefs <~ lift (put (preferences st) contextId context) ;;;
          write (with_preferences prefs st)
        else ret tt
    end.

Definition updateContext (contextId : string) (values : props) : js unit :=
  st <~ read ;;;
  context <~ lift (get (preferences st) contextId) ;;;
  if isEmpty context || isEmpty (JObj values) then ret tt
  else
    let contextInfo := omit context ["consents"] in
    let contextInfo := assign (assign [] contextInfo) values in
    prefs <~ lift (put (preferences st) contextId
                       (JObj (assign (assign [] (entries context)) contextInfo))) ;;;
    write (with_preferences prefs st).

Definition getConsentExpiryDate (contextId consentPurpose : string) : js value :=
  if String.eqb contextId "" || String.eqb consentPurpose "" then ret JUndefined
  else
    st <~ read ;;;
    context <~ lift (get (preferences st) contextId) ;;;
    consents <~ lift (get context "consents") ;;;
    consent <~ lift (get consents consentPurpose) ;;;
    expiry <~ lift (if truthy consent then get consent "expiry_date" else Normal consent) ;;;
    ret (js_or expiry JNull).

Definition getPreferences (st : state) : completion value :=
  if negb (isLocalStorageAccessible h) then Normal JNull
  else
    let persistedPreferences := js_or (storage st) JNull in
    if truthy persistedPreferences then
      let r := in_all_consents
                 (fun _ purpose =>
                    reading (fun consent => get consent "expiry_date") (fun expiryDate =>
                    then_do (if negb (isEmpty expiryDate)
                             then assign_prop "expiry_date"
                                    (match dayjsFormat h expiryDate with
                                     | Some t => JNum t
                                     | None => JNaN
                                     end)
                             else skip)
                            (assign_prop "identifier" (track_uuid h))))
                 tt persistedPreferences in
      match snd r with
      | None => Normal (snd (fst r))
      | Some e => Throw e
      end
    else Normal persistedPreferences.

(** The body of the inner loop of [getConsents]: [persisted] is
    [persistedConsents[key]]. *)
Definition push_consent (consents : list value) (context : value) (key : string)
  (persisted : value) : completion (list value) :=
  let contextInfo := omit context ["consents"] in
  status <- get persisted "status" ;;
  datatype <- get persisted "datatype" ;;
  description <- get persisted "description" ;;
  expiry_date <- get persisted "expiry_date" ;;
  Normal (consents ++
          [JObj (assign (assign [] contextInfo)
                   [ ("status", status);
                     ("datatype", js_or datatype (JStr ""));
                     ("description", js_or description (JStr ""));
                     ("expiry_date", js_or expiry_date (JStr ""));
                     ("identifier", track_uuid h);
                     ("purpose", JStr key) ])])%list.

Definition getConsents : js (list value) :=
  st <~ read ;;;
  prefs <~ lift (if negb (isEmpty (preferences st)) then Normal (preferences st)
                 else getPreferences st) ;;;
  lift (fold_all_consents (fun consents _ => push_consent consents)
                          (js_or prefs (JObj [])) []).

Fixpoint filterM (f : value -> completion bool) (l : list value) : completion (list value) :=
  match l with
  | [] => Normal []
  | x :: rest =>
      keep <- f x ;;
      kept <- filterM f rest ;;
      Normal (if keep then x :: kept else kept)
  end.

Definition getExpiredConsents (today : Z) : js (list value) :=
  consents <~ getConsents ;;;
  lift (filterM (fun consent =>
                   status <- get consent "status" ;;
                   if is_str status EXPIRED then Normal true else _isExpired today consent)
                consents).

Definition _updateExpiredConsents (today : Z) : js unit :=
  st <~ read ;;;
  shouldSaveConsents <~
    (if negb (isEmpty (preferences st)) then
       update_preferences
         (in_all_consents
            (fun _ purpose =>
               reading (_isExpired today) (fun expired =>
               if expired : bool then
                 then_do (assign_prop "status" (JStr EXPIRED))
                (then_do (assign_prop "_updated" (JBool true))
                         (set_var true))
               else skip)))
         false
     else ret false) ;;;
  if shouldSaveConsents : bool then
    _ <~ saveConsents (Some Noop) (Some Noop) ;;; ret tt
  else ret tt.

(** [configure(options)], once the options are read into the host record:
    [hostname] is [document.location.hostname], [uuid] what [generateUUID()]
    returns. *)
Definition configure (hostname uuid : value) (today : Z) : js unit :=
  st <~ read ;;;
  let st := {| preferences := JUndefined;
               defaultContext :=
                 JObj [ ("brand", hostname); ("domain_name", hostname);
                        ("collection_type", hostname); ("collection_point_id", hostname);
                        ("context_id", uuid); ("consents", JObj []) ];
               storage := storage st |} in
  _ <~ write st ;;;
  loaded <~ lift (getPreferences st) ;;;
  _ <~ write (with_preferences (js_or loaded (JObj [])) st) ;;;
  _ <~ _updateExpiredConsents today ;;;
  expired <~ getExpiredConsents today ;;;
  emit [CallExpired (expiredConsentsCallback h) expired].

(** [addContext(context)]; [uuid] is what [generateUUID()] returns when it
    is called.  A [context_id] that is a function is outside the values of the
    model, so the branch that calls it is never taken here.  The test
    [if (currentContext)] is read on own properties: for an id that names a
    member every object inherits the code finds that member and merges into
    it, which the statements about a new context exclude ([inherited]). *)
Definition addContext (uuid : string) (context : props) : js value :=
  if isEmpty (JObj context) then ret JUndefined
  else
    let contextId :=
      if isString (prop context "context_id") then prop context "context_id"
      else JStr uuid in
    st <~ read ;;;
    currentContext <~ lift (get (preferences st) (toPropertyKey contextId)) ;;;
    let savedContext :=
      if truthy currentContext
      then assign (assign [] (entries currentContext)) context
      else assign (assign [] context)
                  [ ("context_id", contextId); ("consents", JObj []) ] in
    prefs <~ lift (put (preferences st) (toPropertyKey contextId) (JObj savedContext)) ;;;
    _ <~ write (with_preferences prefs st) ;;;
    ret contextId.

(** [_.omit(context, ['consents'])], the record of a context. *)
Definition context_record (entry : string * value) : value :=
  JObj (omit (snd entry) ["consents"]).

Definition getContexts : js (list value) :=
  st <~ read ;;;
  prefs <~ lift (if negb (isEmpty (preferences st)) then Normal (preferences st)
                 else getPreferences st) ;;;
  ret (map context_record (entries (js_or prefs (JObj [])))).

(** What [saveContexts] leaves behind when it returns. *)
Record pendingContexts : Type := {
  contextPromises : list value;   (* the records handed to the transport *)
  thenSuccess : callback;
  catchError : callback
}.

(** [Object.keys(v)] with the values under the keys. *)
Definition own_entries (v : value) : completion props :=
  match v with
  | JUndefined | JNull => Throw TypeError
  | _ => Normal (entries v)
  end.

Definition saveContexts (success error : option callback) : js pendingContexts :=
  let success := match success with Some f => f | None => Noop end in
  let error := match error with Some f => f | None => Noop end in
  _ <~ _savePreferences ;;;
  st <~ read ;;;
  contexts <~ lift (own_entries (preferences st)) ;;;
  let contextList := map context_record contexts in
  _ <~ emit (map (AddConsentRecord contextTable) contextList) ;;;
  ret {| contextPromises := contextList;
         thenSuccess := success;
         catchError := error |}.

(** The handlers of [Promise.all(promises).then(success).catch(error)]:
    [settled] is the array the promises resolved with, or the reason of the
    first rejection. *)
Definition settleContexts (p : pendingContexts) (settled : value + value) : js unit :=
  match settled with
  | inl results => emit [CallSuccess (thenSuccess p) results]
  | inr reason => emit [CallError (catchError p) reason]
  end.

End Plugin.

(** ** Notions the statements use *)

(** The consents of one context, as the loops over [context.consents] see them. *)
Definition consents_of (context : value) : props :=
  match context with
  | JObj ps => entries (prop ps "consents")
  | _ => []
  end.

(** Every consent of every context with its purpose, in the order of the loops. *)
Definition all_consents (prefs : value) : list (string * value) :=
  flat_map (fun entry => consents_of (snd entry)) (entries prefs).

(** A field of a consent record. *)
Definition field (consent : value) (k : string) : value :=
  prop (entries consent) k.

(** The test [currentConsent._updated] of the sync engine. *)
Definition isUpdated (consent : value) : bool :=
  truthy (field consent "_updated").

(** The record [_getNormalizedConsent] builds for an entry. *)
Definition normalized (h : Host) (entry : string * value) : value :=
  let consent := snd entry in
  JObj [ ("description", field consent "description");
         ("datatype", field consent "datatype");
         ("status", field consent "status");
         ("expriry_date", js_or (field consent "expiry_date") JNull);
         ("issuer", issuer h);
         ("identifier", track_uuid h);
         ("purpose", JStr (fst entry));
         ("context_id", field consent "context_id") ].

(** The data model of the store: every context is an object, its consents
    are the properties of an object (not the characters of a string), and
    every consent is an object. *)
Definition well_formed_context (context : value) : bool :=
  isObject context
  && forallb (fun c => isObject (snd c)) (consents_of context)
  && negb (isString (field context "consents")).

Definition well_formed (prefs : value) : bool :=
  forallb (fun entry => well_formed_context (snd entry)) (entries prefs).

(** The records a trace hands to the transport for the consent table. *)
Fixpoint dispatched (evs : list event) : list value :=
  match evs with
  | [] => []
  | AddConsentRecord consentTable record :: rest => record :: dispatched rest
  | _ :: rest => dispatched rest
  end.

Definition changed (c : string * value) : bool := isUpdated (snd c).
Definition unchanged (c : string * value) : bool := negb (isUpdated (snd c)).

(** The events that call a function of the host application. *)
Definition is_call (e : event) : bool :=
  match e with
  | CallSuccess _ _ | CallError _ _ | CallExpired _ _ => true
  | _ => false
  end.

(** The partition a sync round sends: the changed consents when there are
    any, every consent otherwise. *)
Definition delta (h : Host) (prefs : value) : list value :=
  let consents := all_consents prefs in
  if existsb changed consents
  then map (normalized h) (filter changed consents)
  else map (normalized h) consents.

(** The record [r] carries the expiry of [consent] under the key
    [expriry_date] and has no key [expiry_date]. *)
Definition misspelt_expiry (r consent : value) : Prop :=
  lookup "expriry_date" (entries r) = Some (js_or (field consent "expiry_date") JNull)
  /\ lookup "expiry_date" (entries r) = None.

(** Every entry of the map [ps] is the normalized record of a consent in [Q]. *)
Definition normalized_from (h : Host) (Q : string * value -> Prop) (ps : props) : Prop :=
  forall k r, In (k, r) ps -> exists c, Q c /\ r = normalized h c.

(** The record stored for [purpose] in the context [contextId]. *)
Definition stored (st : state) (contextId purpose : string) : value :=
  prop (consents_of (prop (entries (preferences st)) contextId)) purpose.

(** The four states of a consent. *)
Definition enumerated (status : value) : bool :=
  is_str status GIVEN || is_str status REFUSED
  || is_str status NOTGIVEN || is_str status EXPIRED.

(** The context a round of [addConsents] resolves for [fields]: the one they
    name, the default context otherwise. *)
Definition resolved_context (st : state) (fields : props) : value :=
  if truthy (prop fields "context_id") then prop fields "context_id"
  else field (defaultContext st) "context_id".

(** The expiry date [addConsents] stores for [fields]. *)
Definition normalized_expiry (h : Host) (fields : props) : value :=
  let expiryDate := js_or (prop fields "expiry_date") (JStr "") in
  if parsable expiryDate then
    match dayjsFormat h expiryDate with
    | Some t => JNum t
    | None => JStr ""
    end
  else JStr "".

(** The effect of a loop that rewrites every consent by [g]. *)
Definition map_entries (g : value -> value) (ps : props) : props :=
  map (fun c => (fst c, g (snd c))) ps.

Definition on_consents (g : value -> value) (context : value) : value :=
  match context with
  | JObj ps =>
      match prop ps "consents" with
      | JObj cs => JObj (assoc_set "consents" (JObj (map_entries g cs)) ps)
      | _ => context
      end
  | _ => context
  end.

Definition on_all_consents (g : value -> value) (prefs : value) : value :=
  match prefs with
  | JObj ctxs => JObj (map_entries (on_consents g) ctxs)
  | _ => prefs
  end.

(** A consent after [_resetUpdatedStatus]. *)
Definition cleared (consent : value) : value :=
  if isUpdated consent
  then JObj (assoc_set "_updated" (JBool false) (entries consent))
  else consent.

(** The test of [_isExpired] on the fields of a consent: status [given], an
    expiry date, and that date before [today]. *)
Definition lapsed (h : Host) (today : Z) (consent : value) : bool :=
  is_str (field consent "status") GIVEN
  && (truthy (field consent "expiry_date")
      && isBefore h (field consent "expiry_date") today).

(** A consent after the expiry reconciler. *)
Definition reconciled (h : Host) (today : Z) (consent : value) : value :=
  if lapsed h today consent
  then JObj (assoc_set "_updated" (JBool true)
               (assoc_set "status" (JStr EXPIRED) (entries consent)))
  else consent.

(** A consent as [getPreferences] revives it from the storage. *)
Definition revived (h : Host) (consent : value) : value :=
  let expiryDate := field consent "expiry_date" in
  let dated :=
    if negb (isEmpty expiryDate)
    then assoc_set "expiry_date"
           (match dayjsFormat h expiryDate with
            | Some t => JNum t
            | None => JNaN
            end)
           (entries consent)
    else entries consent in
  JObj (assoc_set "identifier" (track_uuid h) dated).

(** The preferences [configure] starts from. *)
Definition loaded_preferences (h : Host) (st : state) : value :=
  if isLocalStorageAccessible h && truthy (storage st)
  then on_all_consents (revived h) (storage st)
  else JObj [].

(** The entry [getConsents] builds for a consent of a context. *)
Definition consent_view (h : Host) (context : value) (c : string * value) : value :=
  JObj (assign (assign [] (omit context ["consents"]))
          [ ("status", field (snd c) "status");
            ("datatype", js_or (field (snd c) "datatype") (JStr ""));
            ("description", js_or (field (snd c) "description") (JStr ""));
            ("expiry_date", js_or (field (snd c) "expiry_date") (JStr ""));
            ("identifier", track_uuid h);
            ("purpose", JStr (fst c)) ]).

Definition all_views (h : Host) (prefs : value) : list value :=
  flat_map (fun entry => map (consent_view h (snd entry)) (consents_of (snd entry)))
           (entries prefs).

(** The filter of [getExpiredConsents]. *)
Definition expired_view (h : Host) (today : Z) (consent : value) : bool :=
  is_str (field consent "status") EXPIRED || lapsed h today consent.

(** Whether the reconciler finds a consent to expire. *)
Definition any_lapsed (h : Host) (today : Z) (prefs : value) : bool :=
  existsb (fun c => lapsed h today (snd c)) (all_consents prefs).

(** The records a trace hands to the transport for the context table. *)
Fixpoint dispatched_contexts (evs : list event) : list value :=
  match evs with
  | [] => []
  | AddConsentRecord contextTable record :: rest => record :: dispatched_contexts rest
  | _ :: rest => dispatched_contexts rest
  end.

(** The payloads a trace writes to the storage. *)
Fixpoint persisted_payloads (evs : list event) : list value :=
  match evs with
  | [] => []
  | SetItem payload :: rest => payload :: persisted_payloads rest
  | _ :: rest => persisted_payloads rest
  end.

(** A consent as [_stringifyPreferences] writes it. *)
Definition persisted (h : Host) (consent : value) : value :=
  let expiryDate := field consent "expiry_date" in
  let dated :=
    if negb (isEmpty expiryDate)
    then assoc_set "expiry_date" (formatDate h expiryDate) (entries consent)
    else entries consent in
  JObj (omit_props (assoc_set "identifier" (track_uuid h) dated) ["_updated"]).

(** The record [addConsents] builds for a purpose that has none yet. *)
Definition new_record (h : Host) (st : state) (key : string) (fields : props) : props :=
  assoc_set "expiry_date" (normalized_expiry h fields)
    (assoc_set "issuer" (issuer h)
       (assign (assign [] fields)
          [ ("key", camelCase h key);
            ("status",
             if _isValidStatus (prop fields "status") then prop fields "status"
             else JStr NOTGIVEN);
            ("identifier", track_uuid h);
            ("context_id", resolved_context st fields) ])).

(** A consent written under [key] in the consents of the context [contextId]. *)
Definition with_consent (contextId key : string) (consent : value) (ctxs ctx cs : props)
  : value :=
  JObj (assoc_set contextId
          (JObj (assoc_set "consents" (JObj (assoc_set key consent cs)) ctx))
          ctxs).

(** The record [updateConsent] writes over the stored record [old]. *)
Definition updated_record (h : Host) (fields old : props) : props :=
  let status := js_or (prop fields "status") (JStr "") in
  let expiryDate := js_or (prop fields "expiry_date") (JStr "") in
  let status := if negb (_isValidStatus status) then prop old "status" else status in
  let expiryDate :=
    if parsable expiryDate then
      match dayjsFormat h expiryDate with
      | Some t => JNum t
      | None => prop old "expiry_date"
      end
    else prop old "expiry_date" in
  assoc_set "_updated" (JBool true)
    (assign (assign (omit_props old ["expiry_date"; "status"])
                    (omit_props fields ["expiry_date"; "status"]))
            [ ("identifier", track_uuid h); ("status", status);
              ("expiry_date", expiryDate) ]).

(** What the two maps of [_normalizeConsents] hold once the loops have seen
    the consents [seen]: [fst acc] is [updatedConsents], [snd acc] is
    [notUdpatedConsents]. *)
Definition reports (h : Host) (seen : list (string * value)) (acc : props * props) : Prop :=
  proper (fst acc) = true
  /\ proper (snd acc) = true
  /\ (forall k r, In (k, r) (fst acc) ->
      exists c, In (k, c) seen /\ isUpdated c = true /\ r = normalized h (k, c))
  /\ (forall k r, In (k, r) (snd acc) ->
      exists c, In (k, c) seen /\ isUpdated c = false /\ r = normalized h (k, c))
  /\ (forall k c, In (k, c) seen -> isUpdated c = true -> lookup k (fst acc) <> None)
  /\ (forall k c, In (k, c) seen -> isUpdated c = false -> lookup k (snd acc) <> None).

(** The names every object inherits from [Object.prototype]: [o[k]] finds
    a function (or the prototype itself) under them although [o] has no such
    property of its own, and [o["__proto__"] = v] writes no property.  The
    lookups of the model see own properties only, so a statement that turns
    on a key being absent asks for a key that is not one of these. *)
Definition inherited (k : string) : bool :=
  mem_key k [ "constructor"; "__proto__"; "hasOwnProperty"; "isPrototypeOf";
              "propertyIsEnumerable"; "toLocaleString"; "toString"; "valueOf";
              "__defineGetter__"; "__defineSetter__"; "__lookupGetter__";
              "__lookupSetter__" ].

Fixpoint all_digits (s : string) : bool :=
  match s with
  | EmptyString => true
  | String c rest =>
      (Nat.leb 48 (nat_of_ascii c) && Nat.leb (nat_of_ascii c) 57) && all_digits rest
  end.

(** A key written in digits only: JavaScript enumerates the array indices
    among the keys of an object first, in numeric order, wherever they were
    created. *)
Definition integer_like (k : string) : bool :=
  negb (String.eqb k "") && all_digits k.

(** A key for which a new property lands where the model puts it: found only
    if the object has it, and enumerated after the properties created before. *)
Definition plain_key (k : string) : bool :=
  negb (inherited k) && negb (integer_like k).

(** The fields of an entry of [addConsents] are addressed to a context the
    round can write to: the context they resolve to is named by a string and
    is an object of the preferences with a consents object, or they name no
    context, the preferences hold nothing under the id of the default context,
    and the default context, which the round then installs, has a consents
    object. *)
Definition addressed (st : state) (fields : props) : bool :=
  let id := resolved_context st fields in
  let context := prop (entries (preferences st)) (toPropertyKey id) in
  isString id
  && isObject (preferences st)
  && ((isObject context && isObject (field context "consents"))
      || (negb (truthy (prop fields "context_id"))
          && negb (truthy context)
          && negb (inherited (toPropertyKey id))
          && isObject (field (defaultContext st) "consents"))).

(** No string occurs twice: the keys of one object. *)
Fixpoint distinct (ks : list string) : bool :=
  match ks with
  | [] => true
  | k :: rest => negb (mem_key k rest) && distinct rest
  end.

(** The record a round of [addConsents] stores under a purpose whose stored
    value is [current]. *)
Definition declared_record (h : Host) (st : state) (key : string) (fields : props)
  (current : value) : props :=
  assoc_set "expiry_date" (normalized_expiry h fields)
    (assoc_set "issuer" (issuer h)
       (if negb (isEmpty current)
        then assign (assign [] (entries current)) fields
        else assign (assign [] fields)
               [ ("key", camelCase h key);
                 ("status",
                  if _isValidStatus (prop fields "status") then prop fields "status"
                  else JStr NOTGIVEN);
                 ("identifier", track_uuid h);
                 ("context_id", resolved_context st fields) ])).

(** ** A concrete host *)

Definition upper_ascii (c : ascii) : ascii :=
  let n := nat_of_ascii c in
  if (Nat.leb 97 n && Nat.leb n 122)%bool then ascii_of_nat (n - 32) else c.

Fixpoint camel (capital : bool) (s : string) : string :=
  match s with
  | EmptyString => EmptyString
  | String c rest =>
      if Ascii.eqb c " "%char then camel true rest
      else String (if capital then upper_ascii c else c) (camel false rest)
  end.

(** Modelled from the spec: utils/misc is not among the sources.  [camelCase]
    is the normalisation behind the "case/format-insensitive purpose match":
    the purpose in lower case, its words joined with a capital at each join. *)
Definition camelCase_model (str : string) : value :=
  if String.eqb str "" then JUndefined else JStr (camel false (toLowerCase str)).

(** A host for examples: timestamps are instants, two dates are known to the
    date format. *)
Definition demo : Host :=
  {| camelCase := camelCase_model;
     dayjs := fun v => match v with JNum n => Some n | _ => None end;
     dayjsFormat := fun v =>
       if is_str v "2000-01-01" then Some 946684800000
       else if is_str v "2099-01-01" then Some 4070908800000
       else None;
     formatDate := fun v =>
       match v with
       | JNum 946684800000 => JStr "2000-01-01"
       | JNum 4070908800000 => JStr "2099-01-01"
       | _ => JStr "Invalid Date"
       end;
     issuer := JStr "treasuredata";
     track_uuid := JStr "client-1";
     isLocalStorageAccessible := true;
     successConsentCallback := Callback "saved";
     failureConsentCallback := Callback "failed";
     expiredConsentsCallback := Callback "expired" |}.

(** The same host on a browser that refuses the storage. *)
Definition offline : Host :=
  {| camelCase := camelCase demo;
     dayjs := dayjs demo;
     dayjsFormat := dayjsFormat demo;
     formatDate := formatDate demo;
     issuer := issuer demo;
     track_uuid := track_uuid demo;
     isLocalStorageAccessible := false;
     successConsentCallback := successConsentCallback demo;
     failureConsentCallback := failureConsentCallback demo;
     expiredConsentsCallback := expiredConsentsCallback demo |}.

(** The state [configure] leaves on a browser with nothing stored. *)
Definition fresh : state :=
  {| preferences := JObj [];
     defaultContext :=
       JObj [ ("brand", JStr "example.com"); ("domain_name", JStr "example.com");
              ("collection_type", JStr "example.com");
              ("collection_point_id", JStr "example.com");
              ("context_id", JStr "ctx-0"); ("consents", JObj []) ];
     storage := JNull |}.

(** Two consents declared in the default context, then one of them edited. *)
Definition declared : state :=
  Eval vm_compute in
    final (addConsents demo
             [ ("marketing", [("status", JStr "given"); ("expiry_date", JStr "2099-01-01")]);
               ("analytics", [("status", JStr "notgiven")]) ]
             fresh).

Definition edited : state :=
  Eval vm_compute in
    final (updateConsent demo "ctx-0" [("analytics", [("status", JStr "refused")])] declared).

(** A consent declared under a capitalised purpose. *)
Definition capitalised : state :=
  Eval vm_compute in
    final (addConsents demo [("Analytics", [("status", JStr "given")])] fresh).

(** A browser that comes back with a consent stored long ago. *)
Definition stale : state :=
  {| preferences := JUndefined;
     defaultContext := JUndefined;
     storage :=
       JObj [ ("ctx-7",
               JObj [ ("brand", JStr "example.com");
                      ("context_id", JStr "ctx-7");
                      ("consents",
                       JObj [ ("marketing",
                               JObj [ ("status", JStr "given");
                                      ("expiry_date", JStr "2000-01-01");
                                      ("context_id", JStr "ctx-7") ]);
                              ("analytics",
                               JObj [ ("status", JStr "given");
                                      ("expiry_date", JStr "2099-01-01");
                                      ("context_id", JStr "ctx-7") ]) ]) ]) ] |}.


(** * Properties *)

(** ** Objects and loops *)

Lemma well_formed_context_parts (context : value) :
  well_formed_context context = true ->
  isObject context = true
  /\ forallb (fun c => isObject (snd c)) (consents_of context) = true.
Proof.
  unfold well_formed_context. intros Hwf.
  apply andb_true_iff in Hwf. destruct Hwf as [Hwf _].
  apply andb_true_iff in Hwf. exact Hwf.
Qed.

Lemma get_object (c : value) (k : string) :
  isObject c = true -> get c k = Normal (field c k).
Proof.
  destruct c; simpl; intros Hc; try discriminate. reflexivity.
Qed.

Lemma isObject_entries (c : value) :
  isObject c = true -> c = JObj (entries c).
Proof.
  destruct c; simpl; intros Hc; try discriminate. reflexivity.
Qed.

Lemma lookup_assoc_set (k k' : string) (x : value) (ps : props) :
  lookup k (assoc_set k' x ps) = if String.eqb k k' then Some x else lookup k ps.
Proof.
  induction ps as [|[k0 v0] rest IH]; simpl.
  - destruct (String.eqb k k'); reflexivity.
  - destruct (String.eqb k' k0) eqn:E0; simpl.
    + apply String.eqb_eq in E0. subst k0.
      destruct (String.eqb k k'); reflexivity.
    + destruct (String.eqb k k0) eqn:E1.
      * apply String.eqb_eq in E1. subst k0.
        rewrite String.eqb_sym in E0. rewrite E0. reflexivity.
      * exact IH.
Qed.

Lemma prop_assoc_set (k k' : string) (x : value) (ps : props) :
  prop (assoc_set k' x ps) k = if String.eqb k k' then x else prop ps k.
Proof.
  unfold prop. rewrite lookup_assoc_set. destruct (String.eqb k k'); reflexivity.
Qed.

Lemma for_in_no_throw {A : Type} (body : string -> stmt A) (ps : props) :
  (forall k v a, In (k, v) ps -> snd (body k a v) = None) ->
  forall a, snd (for_in body ps a) = None.
Proof.
  induction ps as [|[k v] rest IH]; intros Hbody a; simpl.
  - reflexivity.
  - pose proof (Hbody k v a (or_introl eq_refl)) as Hk.
    destruct (body k a v) as [[a' v'] [e|]]; simpl in Hk; try discriminate.
    simpl. apply IH. intros k0 v0 a0 Hin. apply Hbody. right. exact Hin.
Qed.

Lemma in_consents_no_throw {A : Type} (body : string -> stmt A) (context : value) :
  isObject context = true ->
  (forall k v a, In (k, v) (consents_of context) -> snd (body k a v) = None) ->
  forall a, snd (in_consents body a context) = None.
Proof.
  intros Hobj Hbody a. destruct context as [| | | | | |fields]; try discriminate.
  unfold in_consents. simpl in Hbody.
  destruct (prop fields "consents") eqn:Ec; try reflexivity.
  simpl. apply for_in_no_throw. exact Hbody.
Qed.

Lemma in_all_consents_no_throw {A : Type} (body : string -> string -> stmt A) (prefs : value) :
  well_formed prefs = true ->
  (forall contextId k v a, isObject v = true -> snd (body contextId k a v) = None) ->
  forall a, snd (in_all_consents body a prefs) = None.
Proof.
  intros Hwf Hbody a. destruct prefs; try reflexivity.
  unfold in_all_consents. simpl. apply for_in_no_throw.
  intros contextId context a0 Hin.
  unfold well_formed in Hwf. simpl in Hwf.
  rewrite forallb_forall in Hwf. specialize (Hwf _ Hin). simpl in Hwf.
  destruct (well_formed_context_parts _ Hwf) as [Hctx Hcs].
  apply in_consents_no_throw; [exact Hctx|].
  intros k v a1 Hk. apply Hbody.
  rewrite forallb_forall in Hcs. exact (Hcs _ Hk).
Qed.

(** A loop whose body rewrites each consent by [g] and its variables by
    [step], and does not throw. *)
Lemma for_in_pointwise {A : Type} (body : string -> stmt A)
  (g : value -> value) (step : A -> value -> A) (cs : props) :
  (forall k v a, In (k, v) cs -> body k a v = ((step a v, g v), None)) ->
  forall a,
    for_in body cs a = ((fold_left step (map snd cs) a, map_entries g cs), None).
Proof.
  induction cs as [|[k v] rest IH]; intros Hbody a; simpl.
  - reflexivity.
  - rewrite (Hbody k v a (or_introl eq_refl)).
    rewrite IH; [reflexivity|].
    intros k0 v0 a0 Hin. apply Hbody. right. exact Hin.
Qed.

Lemma consents_of_on_consents (g : value -> value) (context : value) :
  consents_of (on_consents g context) = map_entries g (consents_of context).
Proof.
  destruct context as [| | | | | |fields]; try reflexivity.
  unfold on_consents. simpl.
  destruct (prop fields "consents") as [| | | | | |cs] eqn:Ec; simpl; rewrite ?Ec; try reflexivity.
  rewrite prop_assoc_set. reflexivity.
Qed.

Lemma in_consents_pointwise {A : Type} (body : string -> stmt A)
  (g : value -> value) (step : A -> value -> A) (context : value) :
  isObject context = true ->
  (forall k v a, In (k, v) (consents_of context) -> body k a v = ((step a v, g v), None)) ->
  forall a,
    in_consents body a context
    = ((fold_left step (map snd (consents_of context)) a, on_consents g context), None).
Proof.
  intros Hobj Hbody a. destruct context as [| | | | | |fields]; try discriminate.
  unfold in_consents, on_consents. simpl in *.
  destruct (prop fields "consents") as [| | | | | |cs] eqn:Ec; try reflexivity.
  simpl in *. rewrite (for_in_pointwise body g step cs Hbody). reflexivity.
Qed.

Lemma all_consents_on_all_consents (g : value -> value) (prefs : value) :
  all_consents (on_all_consents g prefs) = map_entries g (all_consents prefs).
Proof.
  destruct prefs as [| | | | | |ctxs]; try reflexivity.
  unfold all_consents, on_all_consents. simpl.
  induction ctxs as [|[contextId context] rest IH]; simpl.
  - reflexivity.
  - rewrite IH, consents_of_on_consents. unfold map_entries. rewrite map_app. reflexivity.
Qed.

Lemma well_formed_on_consents (g : value -> value) (context : value) :
  (forall v, isObject v = true -> isObject (g v) = true) ->
  well_formed_context context = true ->
  well_formed_context (on_consents g context) = true.
Proof.
  intros Hg Hwf. destruct (well_formed_context_parts _ Hwf) as [Hctx Hcs].
  unfold well_formed_context in *.
  apply andb_true_iff in Hwf. destruct Hwf as [_ Hstr].
  rewrite consents_of_on_consents.
  destruct context as [| | | | | |fields]; try discriminate.
  apply andb_true_iff. split; [apply andb_true_iff; split|].
  - unfold on_consents. destruct (prop fields "consents"); reflexivity.
  - unfold map_entries. rewrite forallb_forall in *. intros c Hin.
    apply in_map_iff in Hin. destruct Hin as (c0 & <- & Hin0). simpl.
    apply Hg. exact (Hcs _ Hin0).
  - unfold on_consents, field in *. simpl in *.
    destruct (prop fields "consents") as [| | | | | |cs] eqn:Ec; simpl; rewrite ?Ec;
      try exact Hstr.
    rewrite prop_assoc_set. reflexivity.
Qed.

Lemma well_formed_on_all_consents (g : value -> value) (prefs : value) :
  (forall v, isObject v = true -> isObject (g v) = true) ->
  well_formed prefs = true -> well_formed (on_all_consents g prefs) = true.
Proof.
  intros Hg. destruct prefs as [| | | | | |ctxs]; try (intros; reflexivity).
  unfold well_formed, on_all_consents. simpl.
  induction ctxs as [|[contextId context] rest IH]; simpl; intros Hwf.
  - reflexivity.
  - apply andb_true_iff in Hwf. destruct Hwf as [Hhead Hrest].
    rewrite (IH Hrest), andb_true_r.
    apply well_formed_on_consents; assumption.
Qed.

Lemma in_all_consents_pointwise {A : Type} (body : string -> string -> stmt A)
  (g : value -> value) (step : A -> value -> A) (prefs : value) :
  well_formed prefs = true ->
  (forall contextId k v a, isObject v = true -> body contextId k a v = ((step a v, g v), None)) ->
  forall a,
    in_all_consents body a prefs
    = ((fold_left step (map snd (all_consents prefs)) a, on_all_consents g prefs), None).
Proof.
  intros Hwf Hbody a. destruct prefs as [| | | | | |ctxs]; try reflexivity.
  unfold in_all_consents, on_all_consents, all_consents. simpl.
  unfold well_formed in Hwf. simpl in Hwf.
  revert a. induction ctxs as [|[contextId context] rest IH]; intros a; simpl.
  - reflexivity.
  - simpl in Hwf. apply andb_true_iff in Hwf. destruct Hwf as [Hhead Hrest].
    destruct (well_formed_context_parts _ Hhead) as [Hctx Hcs].
    rewrite (in_consents_pointwise (body contextId) g step context Hctx).
    + specialize (IH Hrest (fold_left step (map snd (consents_of context)) a)).
      simpl in IH.
      destruct (for_in (fun contextId0 => in_consents (body contextId0)) rest
                       (fold_left step (map snd (consents_of context)) a))
        as [[a' ctxs'] thrown] eqn:Eloop.
      simpl in IH. inversion IH; subst. simpl.
      rewrite map_app, fold_left_app. reflexivity.
    + intros k v a0 Hin. apply Hbody.
      rewrite forallb_forall in Hcs. exact (Hcs _ Hin).
Qed.

(** ** Running an operation step by step *)

Lemma seq_normal {A B : Type} (m : js A) (k : A -> js B) (st st1 : state) (a : A) :
  m st = {| final := st1; trace := []; result := Normal a |} ->
  seq m k st = k a st1.
Proof.
  intros Hm. unfold seq. rewrite Hm. simpl. destruct (k a st1); reflexivity.
Qed.

Lemma seq_lift {A B : Type} (a : A) (k : A -> js B) (st : state) :
  seq (lift (Normal a)) k st = k a st.
Proof.
  apply seq_normal. reflexivity.
Qed.

Lemma seq_ret {A B : Type} (a : A) (k : A -> js B) (st : state) :
  seq (ret a) k st = k a st.
Proof.
  apply seq_normal. reflexivity.
Qed.

Lemma seq_read {B : Type} (k : state -> js B) (st : state) :
  seq read k st = k st st.
Proof.
  apply seq_normal. reflexivity.
Qed.

Lemma seq_write {B : Type} (st' : state) (k : unit -> js B) (st : state) :
  seq (write st') k st = k tt st'.
Proof.
  apply seq_normal. reflexivity.
Qed.

Ltac js_step :=
  match goal with
  | |- context [@seq ?A ?B (lift (Normal ?a)) ?k ?st] => rewrite (@seq_lift A B a k st)
  | |- context [@seq ?A ?B (ret ?a) ?k ?st] => rewrite (@seq_ret A B a k st)
  | |- context [@seq _ ?B read ?k ?st] => rewrite (@seq_read B k st)
  | |- context [@seq _ ?B (write ?s) ?k ?st] => rewrite (@seq_write B s k st)
  end.

Section Sync.

Variable h : Host.

Lemma _getNormalizedConsent_object (consentKey : string) (consent : value) :
  isObject consent = true ->
  _getNormalizedConsent h consentKey consent = Normal (normalized h (consentKey, consent)).
Proof.
  intros Hc. unfold _getNormalizedConsent.
  rewrite !(get_object _ _ Hc). reflexivity.
Qed.

Lemma _stringifyPreferences_returns (prefs : value) :
  well_formed prefs = true ->
  exists payload, _stringifyPreferences h prefs = Normal payload.
Proof.
  intros Hwf. unfold _stringifyPreferences.
  rewrite in_all_consents_no_throw; [eexists; reflexivity|exact Hwf|].
  intros _ _ v a Hv. destruct v as [| | | | | |fields]; try discriminate.
  unfold reading, then_do. simpl.
  destruct (negb (isEmpty (prop fields "expiry_date"))); reflexivity.
Qed.

(** Persisting leaves the preferences alone and sends nothing. *)
Lemma _savePreferences_persists (st : state) :
  well_formed (preferences st) = true ->
  exists st',
    result (_savePreferences h st) = Normal tt
    /\ final (_savePreferences h st) = st'
    /\ preferences st' = preferences st
    /\ defaultContext st' = defaultContext st
    /\ dispatched (trace (_savePreferences h st)) = [].
Proof.
  intros Hwf. unfold _savePreferences, seq, read. simpl.
  destruct (negb (isLocalStorageAccessible h) || isEmpty (preferences st)).
  - exists st. repeat split.
  - destruct (_stringifyPreferences_returns _ Hwf) as [payload Hp].
    rewrite Hp. simpl. eexists. repeat split.
Qed.

Lemma sort_consents_of (cs : props) :
  forallb (fun c => isObject (snd c)) cs = true ->
  forall acc,
    foldM (sort_consent h) cs acc
    = Normal ((fst acc ++ map (normalized h) (filter changed cs))%list,
              (snd acc ++ map (normalized h) (filter unchanged cs))%list).
Proof.
  induction cs as [|[k c] rest IH]; intros Hobj [upd rest']; simpl.
  - rewrite !app_nil_r. reflexivity.
  - simpl in Hobj. apply andb_true_iff in Hobj. destruct Hobj as [Hc Hrest].
    unfold sort_consent at 1.
    rewrite (_getNormalizedConsent_object _ _ Hc), (get_object _ _ Hc). simpl.
    rewrite (IH Hrest). unfold changed, unchanged, isUpdated. simpl.
    destruct (truthy (field c "_updated")); simpl; rewrite <- !app_assoc; reflexivity.
Qed.

Lemma sort_all_consents (ctxs : props) :
  well_formed (JObj ctxs) = true ->
  forall acc,
    fold_all_consents (fun acc' _ _ => sort_consent h acc') (JObj ctxs) acc
    = Normal ((fst acc ++ map (normalized h) (filter changed (all_consents (JObj ctxs))))%list,
              (snd acc ++ map (normalized h) (filter unchanged (all_consents (JObj ctxs))))%list).
Proof.
  unfold fold_all_consents, all_consents, well_formed. simpl.
  induction ctxs as [|[contextId context] rest IH]; intros Hwf [upd rest']; simpl.
  - rewrite !app_nil_r. reflexivity.
  - simpl in Hwf. apply andb_true_iff in Hwf. destruct Hwf as [Hhead Hrest].
    destruct (well_formed_context_parts _ Hhead) as [Hctx Hcs].
    destruct context as [| | | | | |fields]; try discriminate. simpl in *.
    change (fun acc' consentKey consent => sort_consent h acc' consentKey consent)
      with (sort_consent h).
    rewrite (sort_consents_of _ Hcs). simpl.
    rewrite (IH Hrest). simpl.
    rewrite !filter_app, !map_app, <- !app_assoc. reflexivity.
Qed.

Lemma filter_changed_nil (cs : list (string * value)) :
  existsb changed cs = false -> filter changed cs = [] /\ filter unchanged cs = cs.
Proof.
  induction cs as [|c rest IH]; simpl; intros Hex.
  - split; reflexivity.
  - apply orb_false_iff in Hex. destruct Hex as [Hc Hrest].
    destruct (IH Hrest) as [IH1 IH2].
    unfold unchanged at 1. rewrite Hc. simpl.
    unfold changed in Hc. rewrite Hc. simpl.
    rewrite IH1, IH2. split; reflexivity.
Qed.

Lemma filter_changed_cons (cs : list (string * value)) :
  existsb changed cs = true -> is_nil (map (normalized h) (filter changed cs)) = false.
Proof.
  induction cs as [|c rest IH]; simpl; intros Hex.
  - discriminate.
  - destruct (changed c); simpl; [reflexivity|]. apply IH. exact Hex.
Qed.

Lemma dispatched_app (evs evs' : list event) :
  dispatched (evs ++ evs') = (dispatched evs ++ dispatched evs')%list.
Proof.
  induction evs as [|e rest IH]; simpl.
  - reflexivity.
  - destruct e as [payload|[|] record|f c|f err|f c]; simpl; rewrite IH; reflexivity.
Qed.

Lemma dispatched_consent_records (records : list value) :
  dispatched (map (AddConsentRecord consentTable) records) = records.
Proof.
  induction records as [|r rest IH]; simpl; [|rewrite IH]; reflexivity.
Qed.

(** What a call of [saveConsents] on a well-formed store amounts to. *)
Lemma saveConsents_run (success error : option callback) (st : state) :
  well_formed (preferences st) = true ->
  saveConsents h success error st
  = {| final := final (_savePreferences h st);
       trace := (trace (_savePreferences h st)
                 ++ map (AddConsentRecord consentTable) (delta h (preferences st)))%list;
       result :=
         Normal {| promises := delta h (preferences st);
                   hadUpdated := existsb changed (all_consents (preferences st));
                   onSuccess := match success with
                                | Some f => f
                                | None => successConsentCallback h
                                end;
                   onError := match error with
                              | Some f => f
                              | None => failureConsentCallback h
                              end |} |}.
Proof.
  intros Hwf.
  destruct (_savePreferences_persists st Hwf) as (st' & Hres & Hfin & Hprefs & _ & Hsent).
  unfold saveConsents, seq.
  destruct (_savePreferences h st) as [f t r]. simpl in Hres, Hfin, Hsent. subst r f.
  cbn [result final trace read lift emit ret]. rewrite Hprefs.
  assert (Hsort : exists both,
             fold_all_consents (fun acc _ _ => sort_consent h acc) (preferences st) ([], [])
             = Normal both
             /\ (if negb (is_nil (fst both)) then fst both else snd both)
                = delta h (preferences st)
             /\ negb (is_nil (fst both)) = existsb changed (all_consents (preferences st))).
  { destruct (preferences st) as [| | | | | |ctxs] eqn:Ep;
      try (eexists; repeat split; reflexivity).
    rewrite (sort_all_consents ctxs Hwf). eexists. split; [reflexivity|]. simpl.
    unfold delta.
    destruct (existsb changed (all_consents (JObj ctxs))) eqn:Eex.
    - rewrite (filter_changed_cons _ Eex). split; reflexivity.
    - destruct (filter_changed_nil _ Eex) as [H1 H2]. rewrite H1, H2. split; reflexivity. }
  destruct Hsort as (both & Hfold & Hdelta & Hflag).
  rewrite Hfold. cbn [result final trace read lift emit ret]. rewrite Hdelta, Hflag.
  rewrite !app_nil_r. reflexivity.
Qed.


Lemma saveConsents_outcome (success error : option callback) (st : state) :
  well_formed (preferences st) = true ->
  let o := saveConsents h success error st in
  preferences (final o) = preferences st
  /\ dispatched (trace o) = delta h (preferences st)
  /\ result o
     = Normal {| promises := delta h (preferences st);
                 hadUpdated := existsb changed (all_consents (preferences st));
                 onSuccess := match success with
                              | Some f => f
                              | None => successConsentCallback h
                              end;
                 onError := match error with
                            | Some f => f
                            | None => failureConsentCallback h
                            end |}.
Proof.
  intros Hwf o. subst o. rewrite (saveConsents_run success error st Hwf).
  destruct (_savePreferences_persists st Hwf) as (st' & _ & Hfin & Hprefs & _ & Hsent).
  cbn [final trace result]. rewrite Hfin. repeat split.
  - exact Hprefs.
  - rewrite dispatched_app, Hsent, dispatched_consent_records. reflexivity.
Qed.


(** The flag test of the sync engine is [=== true] on a flag that holds a
    boolean, and fails on a consent that carries no flag. *)
Lemma isUpdated_boolean (consent : value) (b : bool) :
  field consent "_updated" = JBool b -> isUpdated consent = b.
Proof.
  unfold isUpdated. intros ->. reflexivity.
Qed.

Lemma isUpdated_absent (consent : value) :
  lookup "_updated" (entries consent) = None -> isUpdated consent = false.
Proof.
  unfold isUpdated, field, prop. intros ->. reflexivity.
Qed.

(** C1: a call of saveConsents hands the transport one record per changed
    consent and nothing else when some consent is flagged as updated, and one
    record per consent when none is; it never sends both partitions. *)
Theorem saveConsents_sends_one_partition (success error : option callback) (st : state) :
  well_formed (preferences st) = true ->
  let consents := all_consents (preferences st) in
  let sent := dispatched (trace (saveConsents h success error st)) in
  (existsb changed consents = true ->
   sent = map (normalized h) (filter changed consents)
   /\ length sent = length (filter changed consents))
  /\ (existsb changed consents = false -> sent = map (normalized h) consents).
Proof.
  intros Hwf consents sent.
  destruct (saveConsents_outcome success error st Hwf) as (_ & Hsent & _).
  subst sent consents. rewrite Hsent. unfold delta.
  split; intros Hex; rewrite Hex.
  - split; [reflexivity|]. apply length_map.
  - reflexivity.
Qed.

Lemma _resetUpdatedStatus_clears (st : state) :
  well_formed (preferences st) = true ->
  _resetUpdatedStatus st
  = {| final := with_preferences (on_all_consents cleared (preferences st)) st;
       trace := [];
       result := Normal tt |}.
Proof.
  intros Hwf. unfold _resetUpdatedStatus, update_preferences.
  rewrite (in_all_consents_pointwise _ cleared (fun a _ => a) _ Hwf).
  - simpl. f_equal.
    induction (map snd (all_consents (preferences st))) as [|c rest IH]; simpl.
    + reflexivity.
    + exact IH.
  - intros _ _ v [] Hv. destruct v as [| | | | | |fields]; try discriminate.
    unfold reading, cleared, isUpdated, field. simpl.
    destruct (truthy (prop fields "_updated")); reflexivity.
Qed.

Lemma cleared_not_updated (consent : value) :
  isUpdated (cleared consent) = false.
Proof.
  unfold cleared. destruct (isUpdated consent) eqn:E; [|exact E].
  unfold isUpdated, field. simpl. rewrite prop_assoc_set. reflexivity.
Qed.

Lemma cleared_flag (consent : value) :
  isUpdated consent = true -> field (cleared consent) "_updated" = JBool false.
Proof.
  unfold cleared. intros ->. unfold field. simpl. rewrite prop_assoc_set. reflexivity.
Qed.

Lemma cleared_boolean (consent : value) (b : bool) :
  field consent "_updated" = JBool b -> field (cleared consent) "_updated" = JBool false.
Proof.
  intros Hflag. destruct b.
  - apply cleared_flag. apply (isUpdated_boolean _ _ Hflag).
  - unfold cleared. rewrite (isUpdated_boolean _ _ Hflag). exact Hflag.
Qed.

Lemma cleared_object (consent : value) :
  isObject consent = true -> isObject (cleared consent) = true.
Proof.
  unfold cleared. destruct (isUpdated consent); [reflexivity|trivial].
Qed.

(** The handlers never touch the store before the reset. *)
Lemma settle_final (p : pending) (rejection : option value) (st : state) :
  final (settle h p rejection st)
  = if hadUpdated p then final (_resetUpdatedStatus st) else st.
Proof.
  unfold settle.
  assert (Hhandled : forall o : outcome unit,
             final o = st ->
             final (if hadUpdated p then _resetUpdatedStatus (final o) else ret tt (final o))
             = if hadUpdated p then final (_resetUpdatedStatus st) else st).
  { intros o ->. destruct (hadUpdated p); reflexivity. }
  destruct rejection as [e|]; cbn [final]; apply Hhandled.
  - unfold seq, lift, emit. simpl. destruct (get e "message"); reflexivity.
  - unfold _normalizeConsents, seq, read, lift, ret, emit. simpl.
    destruct (fold_all_consents (fun acc _ _ => index_consent h acc) (preferences st) ([], []))
      as [[u n]|]; reflexivity.
Qed.

(** C2, amended: when the changed partition of a saveConsents call was not
    empty, the store is left without any flagged consent once the dispatches
    have settled, on success and on failure alike: every consent that was
    flagged, or carried a boolean flag, holds _updated false, a consent that
    was not flagged is the record it was (one that never carried the flag
    still has none), and a retried saveConsents sends every consent. *)
Theorem settle_clears_updated_flags (success error : option callback) (st : state) :
  well_formed (preferences st) = true ->
  existsb changed (all_consents (preferences st)) = true ->
  exists p,
    result (saveConsents h success error st) = Normal p
    /\ forall (rejection : option value) (st1 : state),
        well_formed (preferences st1) = true ->
        let st2 := final (settle h p rejection st1) in
        (forall c, In c (all_consents (preferences st2)) -> isUpdated (snd c) = false)
        /\ all_consents (preferences st2)
           = map_entries cleared (all_consents (preferences st1))
        /\ (forall c, In c (all_consents (preferences st1)) ->
            isUpdated (snd c) = true \/ (exists b, field (snd c) "_updated" = JBool b) ->
            field (cleared (snd c)) "_updated" = JBool false)
        /\ (forall c, isUpdated c = false -> cleared c = c)
        /\ (forall success' error',
            dispatched (trace (saveConsents h success' error' st2))
            = map (normalized h) (all_consents (preferences st2))).
Proof.
  intros Hwf Hex.
  destruct (saveConsents_outcome success error st Hwf) as (_ & _ & Hres).
  eexists. split; [exact Hres|].
  intros rejection st1 Hwf1 st2.
  assert (Hst2 : preferences st2 = on_all_consents cleared (preferences st1)).
  { subst st2. rewrite settle_final. cbn [hadUpdated]. rewrite Hex.
    rewrite (_resetUpdatedStatus_clears st1 Hwf1). reflexivity. }
  assert (Hall : all_consents (preferences st2)
                 = map_entries cleared (all_consents (preferences st1))).
  { rewrite Hst2. apply all_consents_on_all_consents. }
  assert (Hnone : forall c, In c (all_consents (preferences st2)) -> isUpdated (snd c) = false).
  { intros c Hin. rewrite Hall in Hin. unfold map_entries in Hin.
    apply in_map_iff in Hin. destruct Hin as (c0 & <- & _). apply cleared_not_updated. }
  repeat split.
  - exact Hnone.
  - exact Hall.
  - intros c _ [Hc|[b Hb]]; [apply cleared_flag; exact Hc|apply (cleared_boolean _ b Hb)].
  - intros c Hc. unfold cleared. rewrite Hc. reflexivity.
  - intros success' error'.
    assert (Hwf2 : well_formed (preferences st2) = true).
    { rewrite Hst2. apply well_formed_on_all_consents; [exact cleared_object|exact Hwf1]. }
    destruct (saveConsents_outcome success' error' st2 Hwf2) as (_ & Hsent & _).
    rewrite Hsent. unfold delta.
    replace (existsb changed (all_consents (preferences st2))) with false; [reflexivity|].
    symmetry. apply not_true_is_false. intros Hsome.
    apply existsb_exists in Hsome. destruct Hsome as (c & Hin & Hc).
    unfold changed in Hc. rewrite (Hnone c Hin) in Hc. discriminate.
Qed.

Lemma In_assoc_set (k k' : string) (r x : value) (ps : props) :
  In (k, r) (assoc_set k' x ps) -> (k, r) = (k', x) \/ In (k, r) ps.
Proof.
  induction ps as [|[k0 v0] rest IH]; simpl.
  - intros [Heq|[]]. left. symmetry. exact Heq.
  - destruct (String.eqb k' k0) eqn:E; simpl.
    + apply String.eqb_eq in E. subst k0.
      intros [Heq|Hin]; [left; symmetry; exact Heq|right; right; exact Hin].
    + intros [Heq|Hin]; [right; left; exact Heq|].
      destruct (IH Hin) as [Heq|Hin']; [left; exact Heq|right; right; exact Hin'].
Qed.

Lemma normalized_from_assoc_set (Q : string * value -> Prop) (k : string) (c : value)
  (ps : props) :
  Q (k, c) -> normalized_from h Q ps ->
  normalized_from h Q (assoc_set k (normalized h (k, c)) ps).
Proof.
  intros HQ Hps k0 r Hin. apply In_assoc_set in Hin. destruct Hin as [Heq|Hin].
  - inversion Heq; subst. exists (k, c). split; [exact HQ|reflexivity].
  - exact (Hps k0 r Hin).
Qed.

Lemma index_consents_of (Q : string * value -> Prop) (cs : props) :
  forallb (fun c => isObject (snd c)) cs = true ->
  (forall c, In c cs -> Q c) ->
  forall acc,
    normalized_from h Q (fst acc) -> normalized_from h Q (snd acc) ->
    exists acc',
      foldM (index_consent h) cs acc = Normal acc'
      /\ normalized_from h Q (fst acc') /\ normalized_from h Q (snd acc').
Proof.
  induction cs as [|[k c] rest IH]; intros Hobj HQ [upd rest'] Hupd Hrest'; simpl.
  - eexists. split; [reflexivity|]. split; assumption.
  - simpl in Hobj. apply andb_true_iff in Hobj. destruct Hobj as [Hc Hrest].
    rewrite (_getNormalizedConsent_object _ _ Hc), (get_object _ _ Hc). simpl.
    assert (HQc : Q (k, c)) by (apply HQ; left; reflexivity).
    apply (IH Hrest); [intros c0 Hin; apply HQ; right; exact Hin| |];
      destruct (truthy (field c "_updated")); simpl in *;
      try assumption; apply normalized_from_assoc_set; assumption.
Qed.

Lemma index_all_consents (Q : string * value -> Prop) (ctxs : props) :
  well_formed (JObj ctxs) = true ->
  (forall c, In c (all_consents (JObj ctxs)) -> Q c) ->
  forall acc,
    normalized_from h Q (fst acc) -> normalized_from h Q (snd acc) ->
    exists acc',
      fold_all_consents (fun acc0 _ _ => index_consent h acc0) (JObj ctxs) acc = Normal acc'
      /\ normalized_from h Q (fst acc') /\ normalized_from h Q (snd acc').
Proof.
  unfold fold_all_consents, all_consents, well_formed. simpl.
  induction ctxs as [|[contextId context] rest IH]; intros Hwf HQ acc Hupd Hrest'; simpl.
  - eexists. split; [reflexivity|]. split; assumption.
  - simpl in Hwf. apply andb_true_iff in Hwf. destruct Hwf as [Hhead Hrest].
    destruct (well_formed_context_parts _ Hhead) as [Hctx Hcs].
    destruct context as [| | | | | |fields]; try discriminate. simpl in *.
    change (fun acc' consentKey consent => index_consent h acc' consentKey consent)
      with (index_consent h).
    destruct (index_consents_of Q _ Hcs
                (fun c Hin => HQ c (in_or_app _ _ c (or_introl Hin))) acc Hupd Hrest')
      as (acc1 & Hfold & Hupd1 & Hrest1).
    rewrite Hfold. simpl.
    apply (IH Hrest); [intros c Hin; apply HQ; apply in_or_app; right; exact Hin| |];
      assumption.
Qed.

Lemma normalized_misspelt (c : string * value) :
  misspelt_expiry (normalized h c) (snd c).
Proof.
  split; reflexivity.
Qed.

(** C10: every record saveConsents hands to the transport, and every record of
    the map handed to the success callback, holds the expiry of its consent (or
    null) under the key expriry_date and has no key expiry_date. *)
Theorem normalized_records_misspell_expiry (success error : option callback) (st : state) :
  well_formed (preferences st) = true ->
  (forall r, In r (dispatched (trace (saveConsents h success error st))) ->
     exists c, In c (all_consents (preferences st)) /\ misspelt_expiry r (snd c))
  /\ (forall p : pending,
        exists consents,
          trace (settle h p None st) = [CallSuccess (onSuccess p) consents]
          /\ forall k r, In (k, r) (entries consents) ->
               exists c, In c (all_consents (preferences st)) /\ misspelt_expiry r (snd c)).
Proof.
  intros Hwf. split.
  - intros r Hin.
    destruct (saveConsents_outcome success error st Hwf) as (_ & Hsent & _).
    rewrite Hsent in Hin. unfold delta in Hin.
    destruct (existsb changed (all_consents (preferences st)));
      apply in_map_iff in Hin; destruct Hin as (c & <- & Hc).
    + apply filter_In in Hc. exists c. split; [apply Hc|apply normalized_misspelt].
    + exists c. split; [exact Hc|apply normalized_misspelt].
  - intros p.
    assert (Hmap : exists acc,
               fold_all_consents (fun acc0 _ _ => index_consent h acc0)
                                 (preferences st) ([], []) = Normal acc
               /\ normalized_from h (fun c => In c (all_consents (preferences st))) (fst acc)
               /\ normalized_from h (fun c => In c (all_consents (preferences st))) (snd acc)).
    { destruct (preferences st) as [| | | | | |ctxs] eqn:Ep;
        try (eexists; split; [reflexivity|]; split; intros k r []).
      apply index_all_consents; [exact Hwf|trivial| |]; intros k r []. }
    destruct Hmap as ([upd rest] & Hfold & Hupd & Hrest). simpl in Hupd, Hrest.
    unfold settle, _normalizeConsents, seq, read, lift, ret, emit. cbn [result final trace].
    rewrite Hfold. cbn [result final trace].
    assert (Hreset : trace (if hadUpdated p then _resetUpdatedStatus st else ret tt st) = []).
    { destruct (hadUpdated p); reflexivity. }
    unfold ret in Hreset. rewrite Hreset.
    eexists. split; [reflexivity|].
    intros k r Hin.
    assert (Hfrom : exists c, In c (all_consents (preferences st)) /\ r = normalized h c).
    { destruct upd as [|u upd']; simpl in Hin; [exact (Hrest k r Hin)|exact (Hupd k r Hin)]. }
    destruct Hfrom as (c & Hc & ->). exists c. split; [exact Hc|apply normalized_misspelt].
Qed.

End Sync.

(** ** The sync engine on an example *)

Lemma saveConsents_sends_one_partition_witness :
  well_formed (preferences edited) = true
  /\ dispatched (trace (saveConsents demo None None edited))
     = map (normalized demo) (filter changed (all_consents (preferences edited))).
Proof.
  split; [reflexivity|].
  exact (proj1 (proj1 (saveConsents_sends_one_partition demo None None edited eq_refl)
                 eq_refl)).
Defined.

Lemma settle_clears_updated_flags_witness :
  well_formed (preferences edited) = true
  /\ existsb changed (all_consents (preferences edited)) = true
  /\ exists p, result (saveConsents demo None None edited) = Normal p.
Proof.
  split; [reflexivity|]. split; [reflexivity|].
  destruct (settle_clears_updated_flags demo None None edited eq_refl eq_refl) as (p & Hp & _).
  exists p. exact Hp.
Defined.

(** C2, as stated, fails: after a round with a flagged consent has settled, a
    consent that never carried the flag still has none, so its _updated is
    undefined and not false. *)
Lemma settle_leaves_flag_undefined :
  existsb changed (all_consents (preferences edited)) = true
  /\ exists p,
       result (saveConsents demo None None edited) = Normal p
       /\ let st2 := final (settle demo p None edited) in
          lookup "_updated" (entries (stored st2 "ctx-0" "marketing")) = None
          /\ field (stored st2 "ctx-0" "marketing") "_updated" = JUndefined
          /\ strict_eq (field (stored st2 "ctx-0" "marketing") "_updated") (JBool false)
             = false.
Proof.
  split; [reflexivity|]. eexists. split; [reflexivity|].
  vm_compute. repeat split.
Qed.

Lemma normalized_records_misspell_expiry_witness :
  well_formed (preferences edited) = true
  /\ forall r, In r (dispatched (trace (saveConsents demo None None edited))) ->
       exists c, In c (all_consents (preferences edited)) /\ misspelt_expiry r (snd c).
Proof.
  split; [reflexivity|].
  exact (proj1 (normalized_records_misspell_expiry demo None None edited eq_refl)).
Defined.

(** ** Mutations of the store *)

(** C8: updateConsent on a context id that is not a key of the preferences, or
    with an empty consent argument, leaves the whole store as it was. *)
Theorem updateConsent_noop (h : Host) (contextId : string) (consent : list (string * props))
  (st : state) :
  lookup contextId (entries (preferences st)) = None \/ consent = [] ->
  final (updateConsent h contextId consent st) = st
  /\ trace (updateConsent h contextId consent st) = []
  /\ (isObject (preferences st) = true ->
      result (updateConsent h contextId consent st) = Normal tt).
Proof.
  intros Hnoop. unfold updateConsent, seq, read, lift. cbn [result final trace].
  destruct (preferences st) as [| | | | | |ctxs] eqn:Ep; cbn [get result final trace];
    try (cbn; repeat split; solve [reflexivity | intros; discriminate]).
  assert (Hskip : isEmpty (prop ctxs contextId) || is_nil consent = true).
  { destruct Hnoop as [Hmiss| ->].
    - simpl in Hmiss. unfold prop. rewrite Hmiss. reflexivity.
    - apply orb_true_r. }
  rewrite Hskip. repeat split.
Qed.

Lemma updateConsent_noop_witness :
  (lookup "ctx-9" (entries (preferences declared)) = None
   \/ [("marketing", [("status", JStr "refused")])] = [])
  /\ final (updateConsent demo "ctx-9" [("marketing", [("status", JStr "refused")])] declared)
     = declared.
Proof.
  split; [left; reflexivity|].
  exact (proj1 (updateConsent_noop demo "ctx-9" [("marketing", [("status", JStr "refused")])]
                  declared (or_introl eq_refl))).
Defined.

(** C3: a status outside the enumeration, merged over an existing record by
    addConsents, is stored as it came. *)
Theorem addConsents_merge_keeps_invalid_status :
  let st := final (addConsents demo [("marketing", [("status", JStr "bogus")])] declared) in
  _isValidStatus (JStr "bogus") = false
  /\ field (stored declared "ctx-0" "marketing") "status" = JStr "given"
  /\ field (stored st "ctx-0" "marketing") "status" = JStr "bogus"
  /\ enumerated (field (stored st "ctx-0" "marketing") "status") = false.
Proof.
  vm_compute. repeat split.
Qed.

(** A status that is valid up to case is stored in the case it came in. *)
Lemma addConsents_new_keeps_case :
  let st := final (addConsents demo [("ads", [("status", JStr "GIVEN")])] fresh) in
  field (stored st "ctx-0" "ads") "status" = JStr "GIVEN"
  /\ enumerated (field (stored st "ctx-0" "ads") "status") = false.
Proof.
  vm_compute. repeat split.
Qed.

(** C4, as stated, fails: a stored expiry date is lost when addConsents merges
    fields that do not supply one, a supplied issuer is not stored, a supplied
    numeric expiry date is not stored, and a purpose that follows one addressed
    to a missing context is not merged at all. *)
Lemma addConsents_merge_drops_expiry :
  let fields := [("description", JStr "newsletter")] in
  let st := final (addConsents demo [("marketing", fields)] declared) in
  let st' := final (addConsents demo [("marketing", [("issuer", JStr "other")])] declared) in
  let st'' :=
    final (addConsents demo [("marketing", [("expiry_date", JNum 4102444800000)])]
             declared) in
  let o := addConsents demo [ ("ads", [("context_id", JStr "missing")]);
                              ("marketing", fields) ] declared in
  lookup "expiry_date" fields = None
  /\ field (stored declared "ctx-0" "marketing") "expiry_date" = JNum 4070908800000
  /\ field (stored st "ctx-0" "marketing") "expiry_date" = JStr ""
  /\ field (stored st "ctx-0" "marketing") "expiry_date"
     <> field (stored declared "ctx-0" "marketing") "expiry_date"
  /\ field (stored st' "ctx-0" "marketing") "issuer" = JStr "treasuredata"
  /\ field (stored st' "ctx-0" "marketing") "issuer" <> JStr "other"
  /\ field (stored st'' "ctx-0" "marketing") "expiry_date" = JStr ""
  /\ result o = Throw TypeError
  /\ field (stored (final o) "ctx-0" "marketing") "description" = JUndefined.
Proof.
  vm_compute. repeat split; discriminate.
Qed.

(** C5: a purpose that matches a stored key only up to normalisation is not
    updated under its stored key: the call throws, or adds a second entry. *)
Theorem updateConsent_misses_stored_key :
  let status_only := [("analytics", [("status", JStr "refused")])] in
  let with_expiry :=
    [("analytics", [("status", JStr "refused"); ("expiry_date", JStr "2099-01-01")])] in
  keys (consents_of (prop (entries (preferences capitalised)) "ctx-0")) = ["Analytics"]
  /\ strict_eq (camelCase demo "Analytics") (camelCase demo "analytics") = true
  /\ result (updateConsent demo "ctx-0" status_only capitalised) = Throw TypeError
  /\ final (updateConsent demo "ctx-0" status_only capitalised) = capitalised
  /\ (let st := final (updateConsent demo "ctx-0" with_expiry capitalised) in
      keys (consents_of (prop (entries (preferences st)) "ctx-0")) = ["Analytics"; "analytics"]
      /\ stored st "ctx-0" "Analytics" = stored capitalised "ctx-0" "Analytics"
      /\ field (stored st "ctx-0" "Analytics") "status" = JStr "given"
      /\ isUpdated (stored st "ctx-0" "Analytics") = false).
Proof.
  vm_compute. repeat split.
Qed.

(** C6: getConsentExpiryDate throws on a context id the preferences do not
    hold. *)
Theorem getConsentExpiryDate_throws :
  lookup "missing" (entries (preferences declared)) = None
  /\ result (getConsentExpiryDate "missing" "analytics" declared) = Throw TypeError.
Proof.
  vm_compute. repeat split.
Qed.

(** updateConsent and addConsents throw as well. *)
Lemma addConsents_throws :
  result (addConsents demo [("marketing", [("context_id", JStr "missing")])] declared)
  = Throw TypeError.
Proof.
  vm_compute. reflexivity.
Qed.

(** C7: a consents key among the fields of updateContext replaces the consents
    of the context. *)
Theorem updateContext_replaces_consents :
  let st := final (updateContext "ctx-0" [("consents", JObj [])] declared) in
  keys (consents_of (prop (entries (preferences declared)) "ctx-0"))
  = ["marketing"; "analytics"]
  /\ result (updateContext "ctx-0" [("consents", JObj [])] declared) = Normal tt
  /\ consents_of (prop (entries (preferences st)) "ctx-0") = [].
Proof.
  vm_compute. repeat split.
Qed.

Lemma lookup_fresh (k : string) (ps : props) :
  existsb (String.eqb k) (keys ps) = false -> lookup k ps = None.
Proof.
  induction ps as [|[k0 v0] rest IH]; simpl; intros Hk.
  - reflexivity.
  - apply orb_false_iff in Hk. destruct Hk as [Hk0 Hrest].
    rewrite Hk0. exact (IH Hrest).
Qed.

Lemma lookup_assign (f : string) (target source : props) :
  proper source = true ->
  lookup f (assign target source)
  = match lookup f source with
    | Some v => Some v
    | None => lookup f target
    end.
Proof.
  unfold assign. revert target.
  induction source as [|[k v] rest IH]; intros target Hproper; simpl.
  - reflexivity.
  - simpl in Hproper. apply andb_true_iff in Hproper. destruct Hproper as [Hk Hrest].
    rewrite (IH _ Hrest), lookup_assoc_set.
    destruct (String.eqb f k) eqn:Efk.
    + apply String.eqb_eq in Efk. subst f.
      rewrite lookup_fresh; [reflexivity|]. apply negb_true_iff. exact Hk.
    + reflexivity.
Qed.

Lemma prop_assign (f : string) (target source : props) :
  proper source = true ->
  prop (assign target source) f
  = match lookup f source with
    | Some v => v
    | None => prop target f
    end.
Proof.
  intros Hproper. unfold prop. rewrite (lookup_assign _ _ _ Hproper).
  destruct (lookup f source); reflexivity.
Qed.

(** What [stored] says about the shape of the store. *)
Lemma stored_object (st : state) (contextId purpose : string) (old : props) :
  stored st contextId purpose = JObj old ->
  exists ctxs ctx cs,
    preferences st = JObj ctxs
    /\ prop ctxs contextId = JObj ctx
    /\ prop ctx "consents" = JObj cs
    /\ prop cs purpose = JObj old.
Proof.
  unfold stored. intros Hst.
  destruct (preferences st) as [| | | | | |ctxs]; try discriminate.
  simpl in Hst.
  destruct (prop ctxs contextId) as [| | | | | |ctx] eqn:Ectx; try discriminate.
  simpl in Hst.
  destruct (prop ctx "consents") as [| | | | | |cs] eqn:Ecs; try discriminate.
  simpl in Hst. exists ctxs, ctx, cs. repeat split; assumption.
Qed.

(** One round of addConsents over an existing record. *)
Lemma addConsent_merge (h : Host) (key : string) (fields old : props) (st : state) :
  let contextId := toPropertyKey (resolved_context st fields) in
  proper fields = true -> proper old = true ->
  isObject (defaultContext st) = true ->
  stored st contextId key = JObj old -> old <> [] ->
  let o := addConsent h key fields st in
  result o = Normal tt
  /\ exists merged,
       stored (final o) contextId key = JObj merged
       /\ (forall f, f <> "issuer" -> f <> "expiry_date" ->
           prop merged f = match lookup f fields with Some v => v | None => prop old f end)
       /\ prop merged "issuer" = issuer h
       /\ prop merged "expiry_date" = normalized_expiry h fields.
Proof.
  intros contextId Hfields Hold Hdefault Hstored Hne o.
  destruct (stored_object _ _ _ _ Hstored) as (ctxs & ctx & cs & Hprefs & Hctx & Hcs & Hrec).
  assert (Hresolve :
    (if negb (truthy (prop fields "context_id")) then
                  seq read (fun st =>
                  seq (lift (get (defaultContext st) "context_id")) (fun contextId =>
                  seq (lift (get (preferences st) (toPropertyKey contextId))) (fun found =>
                  seq (if negb (truthy found) then
                          seq (lift (put (preferences st) (toPropertyKey contextId)
                                             (defaultContext st))) (fun prefs =>
                          write (with_preferences prefs st))
                        else ret tt) (fun _ =>
                  ret contextId))))
                else ret (prop fields "context_id")) st
    = {| final := st; trace := []; result := Normal (resolved_context st fields) |}).
  { unfold resolved_context in *.
    destruct (truthy (prop fields "context_id")); cbn [negb]; [reflexivity|].
    js_step. rewrite (get_object _ _ Hdefault). js_step.
    rewrite Hprefs. cbn [get]. js_step.
    fold contextId. rewrite Hctx. cbn [truthy negb]. js_step. reflexivity. }
  subst o. unfold addConsent.
  rewrite (seq_normal _ _ _ _ _ Hresolve).
  js_step. rewrite Hprefs. cbn [get]. js_step. fold contextId. rewrite Hctx.
  cbn [truthy get bind]. rewrite Hcs. cbn [get bind]. rewrite Hrec. js_step.
  repeat first [js_step | progress cbn [get put] | rewrite Hcs].
  unfold write. cbn [result final].
  split; [reflexivity|].
  assert (Hnonempty : isEmpty (JObj old) = false).
  { destruct old; [contradiction|reflexivity]. }
  rewrite Hnonempty. cbn [negb entries].
  eexists. split.
  - unfold stored, with_preferences. cbn [preferences entries].
    rewrite prop_assoc_set, String.eqb_refl. cbn [consents_of].
    rewrite prop_assoc_set. cbn [String.eqb Ascii.eqb Bool.eqb entries].
    rewrite prop_assoc_set, String.eqb_refl. reflexivity.
  - split; [|split].
    + intros f Hissuer Hexpiry.
      rewrite !prop_assoc_set.
      apply String.eqb_neq in Hissuer, Hexpiry. rewrite Hissuer, Hexpiry.
      rewrite (prop_assign _ _ _ Hfields).
      destruct (lookup f fields); [reflexivity|].
      rewrite (prop_assign _ _ _ Hold). unfold prop.
      destruct (lookup f old); reflexivity.
    + rewrite !prop_assoc_set. reflexivity.
    + rewrite prop_assoc_set. reflexivity.
Qed.

(** ** The expiry reconciler *)

Section Expiry.

Variable h : Host.
Variable today : Z.

Lemma _isExpired_object (consent : value) :
  isObject consent = true -> _isExpired h today consent = Normal (lapsed h today consent).
Proof.
  intros Hc. unfold _isExpired, lapsed.
  rewrite !(get_object _ _ Hc). simpl.
  destruct (is_str (field consent "status") GIVEN); reflexivity.
Qed.

Lemma reconciled_object (consent : value) :
  isObject consent = true -> isObject (reconciled h today consent) = true.
Proof.
  unfold reconciled. destruct (lapsed h today consent); [reflexivity|trivial].
Qed.

Lemma reconciled_lapsed (consent : value) :
  lapsed h today consent = true ->
  field (reconciled h today consent) "status" = JStr EXPIRED
  /\ field (reconciled h today consent) "_updated" = JBool true.
Proof.
  unfold reconciled. intros ->. unfold field. simpl.
  rewrite !prop_assoc_set. split; reflexivity.
Qed.

Lemma reconciled_other (consent : value) :
  lapsed h today consent = false -> reconciled h today consent = consent.
Proof.
  unfold reconciled. intros ->. reflexivity.
Qed.

Lemma revived_object (consent : value) :
  isObject (revived h consent) = true.
Proof.
  reflexivity.
Qed.

Lemma found_lapsed (cs : list value) (found : bool) :
  fold_left (fun a v => if lapsed h today v then true else a) cs found
  = found || existsb (lapsed h today) cs.
Proof.
  revert found. induction cs as [|c rest IH]; intros found; simpl.
  - rewrite orb_false_r. reflexivity.
  - rewrite IH. destruct (lapsed h today c), found; reflexivity.
Qed.

Lemma getPreferences_loads (st : state) :
  well_formed (storage st) = true ->
  exists loaded,
    getPreferences h st = Normal loaded
    /\ js_or loaded (JObj []) = loaded_preferences h st.
Proof.
  intros Hwf. unfold getPreferences, loaded_preferences.
  destruct (isLocalStorageAccessible h); cbn [negb andb].
  - destruct (truthy (storage st)) eqn:Etruthy.
    + assert (Hpersisted : js_or (storage st) JNull = storage st).
      { unfold js_or. rewrite Etruthy. reflexivity. }
      rewrite Hpersisted, Etruthy.
      rewrite (in_all_consents_pointwise _ (revived h) (fun a _ => a) _ Hwf).
      * cbn [fst snd]. eexists. split; [reflexivity|].
        unfold js_or.
        replace (truthy (on_all_consents (revived h) (storage st))) with true; [reflexivity|].
        destruct (storage st); simpl in *; congruence.
      * intros _ _ v [] Hv. destruct v as [| | | | | |fields]; try discriminate.
        unfold reading, then_do, revived, field. simpl.
        destruct (negb (isEmpty (prop fields "expiry_date"))); reflexivity.
    + assert (Hpersisted : js_or (storage st) JNull = JNull).
      { unfold js_or. rewrite Etruthy. reflexivity. }
      rewrite Hpersisted. cbn [truthy].
      eexists. split; reflexivity.
  - eexists. split; reflexivity.
Qed.

Lemma well_formed_loaded (st : state) :
  well_formed (storage st) = true -> well_formed (loaded_preferences h st) = true.
Proof.
  intros Hwf. unfold loaded_preferences.
  destruct (isLocalStorageAccessible h && truthy (storage st)); [|reflexivity].
  apply well_formed_on_all_consents; [intros v _; apply revived_object|exact Hwf].
Qed.

Lemma on_all_consents_empty (g : value -> value) (prefs : value) :
  isEmpty prefs = true ->
  on_all_consents g prefs = prefs /\ entries prefs = [].
Proof.
  destruct prefs as [| | | | | |ctxs]; intros Hempty; try (split; reflexivity).
  destruct ctxs; [split; reflexivity|discriminate].
Qed.

Lemma existsb_snd {A : Type} (f : value -> bool) (cs : list (A * value)) :
  existsb f (map snd cs) = existsb (fun c => f (snd c)) cs.
Proof.
  induction cs as [|c rest IH]; simpl; [|rewrite IH]; reflexivity.
Qed.

(** The reconciler flips every lapsed consent and, when it flipped one, runs
    saveConsents with [_.noop] for both callbacks. *)
Lemma _updateExpiredConsents_reconciles (st : state) :
  well_formed (preferences st) = true ->
  let st1 := with_preferences (on_all_consents (reconciled h today) (preferences st)) st in
  let o := _updateExpiredConsents h today st in
  result o = Normal tt
  /\ preferences (final o) = preferences st1
  /\ (any_lapsed h today (preferences st) = true ->
      trace o = trace (saveConsents h (Some Noop) (Some Noop) st1)
      /\ isEmpty (preferences st) = false)
  /\ (any_lapsed h today (preferences st) = false ->
      trace o = [] /\ storage (final o) = storage st).
Proof.
  intros Hwf st1 o. subst o. unfold _updateExpiredConsents. js_step.
  destruct (isEmpty (preferences st)) eqn:Eempty; cbn [negb].
  - destruct (on_all_consents_empty (reconciled h today) _ Eempty) as [Hsame Hnone].
    js_step. cbn [ret result final trace].
    assert (Hnever : any_lapsed h today (preferences st) = false).
    { unfold any_lapsed, all_consents. rewrite Hnone. reflexivity. }
    rewrite Hnever. subst st1. cbn [preferences with_preferences]. rewrite Hsame.
    repeat split; discriminate.
  - assert (Hloop :
      update_preferences
        (in_all_consents
           (fun _ purpose =>
              reading (_isExpired h today) (fun expired =>
              if expired : bool then
                then_do (assign_prop "status" (JStr EXPIRED))
               (then_do (assign_prop "_updated" (JBool true)) (set_var true))
              else skip)))
        false st
      = {| final := st1; trace := [];
           result := Normal (any_lapsed h today (preferences st)) |}).
    { unfold update_preferences.
      rewrite (in_all_consents_pointwise _ (reconciled h today)
                 (fun a v => if lapsed h today v then true else a) _ Hwf).
      - cbn [fst snd]. rewrite found_lapsed, existsb_snd. reflexivity.
      - intros _ _ v a Hv. unfold reading. rewrite (_isExpired_object _ Hv).
        unfold reconciled. destruct (lapsed h today v); [|reflexivity].
        destruct v as [| | | | | |fields]; try discriminate. reflexivity. }
    rewrite (seq_normal _ _ _ _ _ Hloop).
    destruct (any_lapsed h today (preferences st)) eqn:Eany.
    + assert (Hwf1 : well_formed (preferences st1) = true).
      { subst st1. cbn [preferences with_preferences].
        apply well_formed_on_all_consents; [apply reconciled_object|exact Hwf]. }
      destruct (saveConsents_outcome h (Some Noop) (Some Noop) st1 Hwf1)
        as (Hprefs & _ & Hres).
      unfold seq. rewrite Hres. cbn [result final trace ret].
      rewrite app_nil_r. repeat split; try discriminate. exact Hprefs.
    + cbn [ret result final trace]. repeat split; discriminate.
Qed.

Lemma views_of_consents (context : value) (cs : props) :
  forallb (fun c => isObject (snd c)) cs = true ->
  forall consents,
    foldM (fun acc key persisted => push_consent h acc context key persisted) cs consents
    = Normal (consents ++ map (consent_view h context) cs)%list.
Proof.
  induction cs as [|[k c] rest IH]; intros Hobj consents; simpl.
  - rewrite app_nil_r. reflexivity.
  - simpl in Hobj. apply andb_true_iff in Hobj. destruct Hobj as [Hc Hrest].
    unfold push_consent at 1. rewrite !(get_object _ _ Hc). simpl.
    rewrite (IH Hrest), <- app_assoc. reflexivity.
Qed.

Lemma views_of_preferences (prefs : value) :
  well_formed prefs = true ->
  forall consents,
    fold_all_consents (fun acc _ => push_consent h acc) prefs consents
    = Normal (consents ++ all_views h prefs)%list.
Proof.
  intros Hwf. unfold fold_all_consents, all_views, well_formed in *.
  induction (entries prefs) as [|[contextId context] rest IH]; intros consents; simpl.
  - rewrite app_nil_r. reflexivity.
  - simpl in Hwf. apply andb_true_iff in Hwf. destruct Hwf as [Hhead Hrest].
    destruct (well_formed_context_parts _ Hhead) as [Hctx Hcs].
    destruct context as [| | | | | |fields]; try discriminate. simpl in *.
    rewrite (views_of_consents (JObj fields) _ Hcs). simpl.
    rewrite (IH Hrest), <- app_assoc. reflexivity.
Qed.


Lemma filterM_filter (f : value -> completion bool) (g : value -> bool) (l : list value) :
  (forall x, In x l -> f x = Normal (g x)) ->
  filterM f l = Normal (filter g l).
Proof.
  induction l as [|x rest IH]; intros Hf; simpl.
  - reflexivity.
  - rewrite (Hf x (or_introl eq_refl)). simpl.
    rewrite IH; [reflexivity|]. intros y Hin. apply Hf. right. exact Hin.
Qed.

Lemma all_views_objects (prefs : value) (x : value) :
  In x (all_views h prefs) -> isObject x = true.
Proof.
  unfold all_views. intros Hin. apply in_flat_map in Hin.
  destruct Hin as (entry & _ & Hin). apply in_map_iff in Hin.
  destruct Hin as (c & <- & _). reflexivity.
Qed.



Lemma entries_on_all_consents (g : value -> value) (prefs : value) :
  entries (on_all_consents g prefs) = map_entries (on_consents g) (entries prefs).
Proof.
  destruct prefs as [| | | | | |ctxs]; reflexivity.
Qed.

Lemma consent_view_fields (context : value) (c : string * value) :
  field (consent_view h context c) "status" = field (snd c) "status"
  /\ field (consent_view h context c) "purpose" = JStr (fst c).
Proof.
  unfold consent_view, field, assign. simpl.
  rewrite !prop_assoc_set. simpl. split; reflexivity.
Qed.


End Expiry.

(** On that browser the stale consent is flipped, sent alone, and reported. *)
Example configure_stale :
  let o := configure demo (JStr "example.com") (JStr "ctx-0") 1000000000000 stale in
  field (stored (final o) "ctx-7" "marketing") "status" = JStr "expired"
  /\ field (stored (final o) "ctx-7" "analytics") "status" = JStr "given"
  /\ map (fun r => field r "purpose") (dispatched (trace o)) = [JStr "marketing"]
  /\ map (fun e => match e with
                   | CallExpired f consents => map (fun r => field r "purpose") consents
                   | _ => []
                   end) (filter is_call (trace o))
     = [[JStr "marketing"]].
Proof.
  vm_compute. repeat split.
Qed.

(** ** What the failing calls have in common *)

Lemma seq_throw {A B : Type} (e : exn) (k : A -> js B) (st : state) :
  seq (lift (Throw e)) k st = {| final := st; trace := []; result := Throw e |}.
Proof.
  reflexivity.
Qed.

(** Whenever the supplied purpose matches a stored key by normalisation only
    and the fields carry no date to parse, updateConsent throws and leaves the
    store as it was, whatever [camelCase] is. *)
Lemma updateConsent_throws_on_normalised_match (h : Host) (contextId supplied : string)
  (fields : props) (others : list (string * props)) (st : state) (ctxs ctx cs : props) :
  preferences st = JObj ctxs ->
  prop ctxs contextId = JObj ctx -> ctx <> [] ->
  prop ctx "consents" = JObj cs ->
  existsb (fun purpose => strict_eq (camelCase h purpose) (camelCase h supplied)) (keys cs)
  = true ->
  lookup supplied cs = None ->
  parsable (js_or (prop fields "expiry_date") (JStr "")) = false ->
  updateConsent h contextId ((supplied, fields) :: others) st
  = {| final := st; trace := []; result := Throw TypeError |}.
Proof.
  intros Hprefs Hctx Hne Hcs Hmatch Habsent Hdate.
  unfold updateConsent. js_step. rewrite Hprefs. cbn [get]. js_step. rewrite Hctx.
  assert (Hfull : isEmpty (JObj ctx) = false) by (destruct ctx; [contradiction|reflexivity]).
  rewrite Hfull. cbn [orb is_nil get]. rewrite Hcs. js_step. cbn [entries].
  rewrite Hmatch.
  assert (Hbody : updateMatched h supplied fields (JObj cs) = Throw TypeError).
  { assert (Hstored : prop cs supplied = JUndefined)
      by (unfold prop; rewrite Habsent; reflexivity).
    unfold updateMatched. cbn [get bind]. rewrite Hstored, Hdate. cbn [get bind].
    destruct (negb (_isValidStatus (js_or (prop fields "status") (JStr "")))); reflexivity. }
  rewrite Hbody. apply seq_throw.
Qed.

Lemma lookup_assign_other (k : string) (target source : props) :
  lookup k source = None ->
  lookup k (assign target source) = lookup k target.
Proof.
  unfold assign. revert target.
  induction source as [|[k0 v0] rest IH]; intros target Hs; simpl.
  - reflexivity.
  - simpl in Hs. destruct (String.eqb k k0) eqn:E; [discriminate|].
    rewrite (IH _ Hs), lookup_assoc_set, E. reflexivity.
Qed.

Lemma lookup_omit (k : string) (ps : props) (ks : list string) :
  mem_key k ks = true -> lookup k (omit_props ps ks) = None.
Proof.
  intros Hk. induction ps as [|[k0 v0] rest IH]; simpl.
  - reflexivity.
  - destruct (mem_key k0 ks) eqn:E0; simpl.
    + exact IH.
    + destruct (String.eqb k k0) eqn:E; [|exact IH].
      apply String.eqb_eq in E. subst k0. congruence.
Qed.

(** Without a consents key among the fields, updateContext leaves the
    consents of the context alone. *)
Lemma updateContext_keeps_consents (contextId : string) (values : props) (st : state)
  (ctxs ctx : props) :
  preferences st = JObj ctxs ->
  prop ctxs contextId = JObj ctx -> ctx <> [] -> values <> [] ->
  proper ctx = true ->
  lookup "consents" values = None ->
  let o := updateContext contextId values st in
  result o = Normal tt
  /\ consents_of (prop (entries (preferences (final o))) contextId)
     = consents_of (JObj ctx).
Proof.
  intros Hprefs Hctx Hne Hvalues Hproper Hnone o. subst o.
  unfold updateContext. js_step. rewrite Hprefs. cbn [get]. js_step. rewrite Hctx.
  assert (Hfull : isEmpty (JObj ctx) = false) by (destruct ctx; [contradiction|reflexivity]).
  assert (Hgiven : isEmpty (JObj values) = false)
    by (destruct values; [contradiction|reflexivity]).
  rewrite Hfull, Hgiven. cbn [orb put]. js_step. unfold write. cbn [result final].
  split; [reflexivity|].
  unfold with_preferences. cbn [preferences entries].
  rewrite prop_assoc_set, String.eqb_refl. cbn [consents_of entries].
  f_equal. unfold prop.
  rewrite lookup_assign_other.
  - rewrite (lookup_assign _ _ _ Hproper). destruct (lookup "consents" ctx); reflexivity.
  - rewrite (lookup_assign_other _ _ _ Hnone), lookup_assign_other; [reflexivity|].
    unfold omit. cbn [entries]. apply lookup_omit. reflexivity.
Qed.

(** ** Property tables *)

Lemma assoc_set_fresh (k : string) (v : value) (ps : props) :
  lookup k ps = None -> assoc_set k v ps = (ps ++ [(k, v)])%list.
Proof.
  induction ps as [|[k0 v0] rest IH]; simpl; intros Hk.
  - reflexivity.
  - rewrite String.eqb_sym. destruct (String.eqb k0 k) eqn:E.
    + rewrite String.eqb_sym, E in Hk. discriminate.
    + rewrite String.eqb_sym, E in Hk. rewrite (IH Hk). reflexivity.
Qed.

Lemma assoc_set_same (k : string) (v : value) (ps : props) :
  lookup k ps = Some v -> assoc_set k v ps = ps.
Proof.
  induction ps as [|[k0 v0] rest IH]; simpl; intros Hk.
  - discriminate.
  - destruct (String.eqb k k0) eqn:E.
    + inversion Hk. reflexivity.
    + rewrite (IH Hk). reflexivity.
Qed.

Lemma keys_assoc_set (k : string) (v x : value) (ps : props) :
  lookup k ps = Some x -> keys (assoc_set k v ps) = keys ps.
Proof.
  induction ps as [|[k0 v0] rest IH]; simpl; intros Hk.
  - discriminate.
  - destruct (String.eqb k k0) eqn:E; simpl.
    + reflexivity.
    + unfold keys in *. simpl. f_equal. exact (IH Hk).
Qed.

Lemma lookup_other_assoc_set (k k' : string) (v : value) (ps : props) :
  k <> k' -> lookup k (assoc_set k' v ps) = lookup k ps.
Proof.
  intros Hk. rewrite lookup_assoc_set.
  apply String.eqb_neq in Hk. rewrite Hk. reflexivity.
Qed.

Lemma mem_key_keys_assoc_set (k k' : string) (v : value) (ps : props) :
  mem_key k (keys (assoc_set k' v ps)) = String.eqb k k' || mem_key k (keys ps).
Proof.
  unfold mem_key, keys.
  induction ps as [|[k0 v0] rest IH]; simpl.
  - rewrite orb_false_r. reflexivity.
  - destruct (String.eqb k' k0) eqn:E; simpl.
    + apply String.eqb_eq in E. subst k0.
      destruct (String.eqb k k'); reflexivity.
    + rewrite IH. destruct (String.eqb k k0), (String.eqb k k'); reflexivity.
Qed.

Lemma proper_assoc_set (k : string) (v : value) (ps : props) :
  proper ps = true -> proper (assoc_set k v ps) = true.
Proof.
  induction ps as [|[k0 v0] rest IH]; simpl; intros Hp.
  - reflexivity.
  - apply andb_true_iff in Hp. destruct Hp as [Hfresh Hrest].
    destruct (String.eqb k k0) eqn:E; simpl.
    + rewrite Hfresh, Hrest. reflexivity.
    + rewrite (IH Hrest), andb_true_r.
      fold (mem_key k0 (keys (assoc_set k v rest))).
      rewrite mem_key_keys_assoc_set.
      rewrite String.eqb_sym, E. simpl. exact Hfresh.
Qed.

Lemma proper_assign (target source : props) :
  proper target = true -> proper (assign target source) = true.
Proof.
  unfold assign. revert target.
  induction source as [|[k v] rest IH]; intros target Hp; simpl.
  - exact Hp.
  - apply IH. apply proper_assoc_set. exact Hp.
Qed.

Lemma lookup_app (k : string) (ps qs : props) :
  lookup k (ps ++ qs)%list = match lookup k ps with Some v => Some v | None => lookup k qs end.
Proof.
  induction ps as [|[k0 v0] rest IH]; simpl.
  - reflexivity.
  - destruct (String.eqb k k0); [reflexivity|exact IH].
Qed.

Lemma assign_append (target source : props) :
  proper source = true ->
  (forall k, mem_key k (keys source) = true -> lookup k target = None) ->
  assign target source = (target ++ source)%list.
Proof.
  unfold assign. revert target.
  induction source as [|[k v] rest IH]; intros target Hp Hfresh; simpl.
  - rewrite app_nil_r. reflexivity.
  - simpl in Hp. apply andb_true_iff in Hp. destruct Hp as [Hk Hrest].
    rewrite assoc_set_fresh.
    + rewrite IH; [rewrite <- app_assoc; reflexivity|exact Hrest|].
      intros k0 Hk0. rewrite lookup_app, Hfresh.
      * simpl. destruct (String.eqb k0 k) eqn:E; [|reflexivity].
        apply String.eqb_eq in E. subst k0.
        unfold mem_key in Hk0. rewrite Hk0 in Hk. discriminate.
      * unfold mem_key, keys in *. simpl. rewrite Hk0. apply orb_true_r.
    + apply Hfresh. unfold mem_key, keys. simpl. rewrite String.eqb_refl. reflexivity.
Qed.

Lemma assign_nil (source : props) :
  proper source = true -> assign [] source = source.
Proof.
  intros Hp. apply (assign_append [] source Hp). reflexivity.
Qed.

(** Writing again what a table already holds changes nothing. *)
Lemma assign_same (target source : props) :
  (forall k v, In (k, v) source -> lookup k target = Some v) ->
  assign target source = target.
Proof.
  unfold assign. induction source as [|[k v] rest IH]; intros Hsame; simpl.
  - reflexivity.
  - rewrite assoc_set_same; [|apply Hsame; left; reflexivity].
    apply IH. intros k0 v0 Hin. apply Hsame. right. exact Hin.
Qed.

Lemma lookup_In (k : string) (v : value) (ps : props) :
  proper ps = true -> In (k, v) ps -> lookup k ps = Some v.
Proof.
  induction ps as [|[k0 v0] rest IH]; simpl; intros Hp Hin.
  - contradiction.
  - apply andb_true_iff in Hp. destruct Hp as [Hfresh Hrest].
    destruct Hin as [Heq|Hin].
    + inversion Heq; subst. rewrite String.eqb_refl. reflexivity.
    + destruct (String.eqb k k0) eqn:E.
      * apply String.eqb_eq in E. subst k0.
        apply negb_true_iff in Hfresh.
        assert (Hmem : existsb (String.eqb k) (keys rest) = true).
        { apply existsb_exists. exists k. split; [|apply String.eqb_refl].
          unfold keys. apply in_map_iff. exists (k, v). split; [reflexivity|exact Hin]. }
        congruence.
      * apply IH; assumption.
Qed.

Lemma lookup_omit_other (k : string) (ps : props) (ks : list string) :
  mem_key k ks = false -> lookup k (omit_props ps ks) = lookup k ps.
Proof.
  intros Hk. induction ps as [|[k0 v0] rest IH]; simpl.
  - reflexivity.
  - destruct (mem_key k0 ks) eqn:E0; simpl.
    + destruct (String.eqb k k0) eqn:E; [|exact IH].
      apply String.eqb_eq in E. subst k0. congruence.
    + destruct (String.eqb k k0); [reflexivity|exact IH].
Qed.

Lemma proper_omit (ps : props) (ks : list string) :
  proper ps = true -> proper (omit_props ps ks) = true.
Proof.
  induction ps as [|[k0 v0] rest IH]; simpl; intros Hp.
  - reflexivity.
  - apply andb_true_iff in Hp. destruct Hp as [Hfresh Hrest].
    destruct (mem_key k0 ks); simpl; [exact (IH Hrest)|].
    rewrite (IH Hrest), andb_true_r.
    apply negb_true_iff. apply negb_true_iff in Hfresh.
    apply not_true_is_false. intros Hmem. apply existsb_exists in Hmem.
    destruct Hmem as (k & Hin & Hk). apply String.eqb_eq in Hk. subst k.
    unfold keys, omit_props in Hin. apply in_map_iff in Hin.
    destruct Hin as ([k1 v1] & Hk1 & Hin). simpl in Hk1. subst k1.
    apply filter_In in Hin. destruct Hin as [Hin _].
    assert (Hmem : existsb (String.eqb k0) (keys rest) = true).
    { apply existsb_exists. exists k0. split; [|apply String.eqb_refl].
      unfold keys. apply in_map_iff. exists (k0, v1). split; [reflexivity|exact Hin]. }
    congruence.
Qed.

(** ** Contexts *)

(** X1: addContext with a non-empty context whose id (its context_id when that
    is a string, the generated uuid otherwise) is a plain key (not a name that
    objects inherit, not written in digits only) and names no stored context
    returns the id, dispatches nothing and appends one context under that id:
    it carries the id as context_id, an empty consents object, and every other
    field as supplied. *)
Theorem addContext_creates_context (uuid : string) (context ctxs : props) (st : state) :
  let contextId := if isString (prop context "context_id")
                   then prop context "context_id" else JStr uuid in
  context <> [] -> proper context = true ->
  plain_key (toPropertyKey contextId) = true ->
  preferences st = JObj ctxs ->
  lookup (toPropertyKey contextId) ctxs = None ->
  let o := addContext uuid context st in
  result o = Normal contextId
  /\ trace o = []
  /\ exists saved,
       preferences (final o) = JObj (ctxs ++ [(toPropertyKey contextId, JObj saved)])
       /\ prop saved "context_id" = contextId
       /\ prop saved "consents" = JObj []
       /\ forall f, f <> "context_id" -> f <> "consents" -> prop saved f = prop context f.
Proof.
  intros contextId Hne Hproper Hplain Hprefs Hnew o. subst o. unfold addContext.
  assert (Hfull : isEmpty (JObj context) = false) by (destruct context; [contradiction|reflexivity]).
  rewrite Hfull. fold contextId. js_step. rewrite Hprefs. cbn [get]. js_step.
  assert (Hundef : prop ctxs (toPropertyKey contextId) = JUndefined)
    by (unfold prop; rewrite Hnew; reflexivity).
  rewrite Hundef. cbn [truthy put]. js_step. js_step.
  cbn [ret result final trace]. split; [reflexivity|]. split; [reflexivity|].
  eexists. split; [|split; [|split]].
  - cbn [with_preferences preferences]. rewrite (assoc_set_fresh _ _ _ Hnew). reflexivity.
  - rewrite prop_assign by reflexivity. reflexivity.
  - rewrite prop_assign by reflexivity. reflexivity.
  - intros f Hid Hconsents. rewrite prop_assign by reflexivity.
    apply String.eqb_neq in Hid, Hconsents. cbn [lookup]. rewrite Hid, Hconsents.
    rewrite (assign_nil _ Hproper). reflexivity.
Qed.

Lemma addContext_creates_context_witness :
  [("brand", JStr "shop"); ("context_id", JStr "ctx-1")] <> []
  /\ plain_key "ctx-1" = true
  /\ lookup "ctx-1" (entries (preferences declared)) = None
  /\ result (addContext "uuid-9" [("brand", JStr "shop"); ("context_id", JStr "ctx-1")] declared)
     = Normal (JStr "ctx-1").
Proof.
  split; [discriminate|]. split; [reflexivity|]. split; [reflexivity|].
  refine (proj1 (addContext_creates_context "uuid-9"
                   [("brand", JStr "shop"); ("context_id", JStr "ctx-1")]
                   (entries (preferences declared)) declared _ eq_refl eq_refl eq_refl
                   eq_refl)).
  discriminate.
Defined.

(** X2: addContext on an id that names a stored context returns the id and
    merges the supplied fields over the stored context in place: the contexts
    keep their keys and their order, every other context is untouched, each
    field holds the supplied value when there is one and the stored value
    otherwise, and the consents stay as they were unless the input carries a
    consents key. *)
Theorem addContext_merges_into_existing (uuid : string) (context ctxs current : props)
  (st : state) :
  let contextId := if isString (prop context "context_id")
                   then prop context "context_id" else JStr uuid in
  context <> [] -> proper context = true -> proper current = true ->
  preferences st = JObj ctxs ->
  lookup (toPropertyKey contextId) ctxs = Some (JObj current) ->
  let o := addContext uuid context st in
  result o = Normal contextId
  /\ trace o = []
  /\ keys (entries (preferences (final o))) = keys ctxs
  /\ (forall k, k <> toPropertyKey contextId ->
      lookup k (entries (preferences (final o))) = lookup k ctxs)
  /\ exists saved,
       prop (entries (preferences (final o))) (toPropertyKey contextId) = JObj saved
       /\ (forall f, prop saved f = match lookup f context with
                                    | Some v => v
                                    | None => prop current f
                                    end)
       /\ (lookup "consents" context = None ->
           consents_of (JObj saved) = consents_of (JObj current)).
Proof.
  intros contextId Hne Hproper Hcurrent Hprefs Hfound o. subst o. unfold addContext.
  assert (Hfull : isEmpty (JObj context) = false) by (destruct context; [contradiction|reflexivity]).
  rewrite Hfull. fold contextId. js_step. rewrite Hprefs. cbn [get]. js_step.
  assert (Hctx : prop ctxs (toPropertyKey contextId) = JObj current)
    by (unfold prop; rewrite Hfound; reflexivity).
  rewrite Hctx. cbn [truthy put entries]. js_step. js_step.
  cbn [ret result final trace with_preferences preferences entries].
  assert (Hmerge : forall f,
             prop (assign (assign [] current) context) f
             = match lookup f context with Some v => v | None => prop current f end).
  { intros f. rewrite (prop_assign _ _ _ Hproper), (assign_nil _ Hcurrent). reflexivity. }
  split; [reflexivity|]. split; [reflexivity|].
  split; [apply (keys_assoc_set _ _ _ _ Hfound)|].
  split; [intros k Hk; apply lookup_other_assoc_set; exact Hk|].
  eexists. split; [|split].
  - rewrite prop_assoc_set, String.eqb_refl. reflexivity.
  - exact Hmerge.
  - intros Hnone. cbn [consents_of]. rewrite Hmerge, Hnone. reflexivity.
Qed.

Lemma addContext_merges_into_existing_witness :
  [("brand", JStr "shop"); ("context_id", JStr "ctx-0")] <> []
  /\ lookup "ctx-0" (entries (preferences declared))
     = Some (JObj (entries (prop (entries (preferences declared)) "ctx-0")))
  /\ result (addContext "uuid-9" [("brand", JStr "shop"); ("context_id", JStr "ctx-0")] declared)
     = Normal (JStr "ctx-0").
Proof.
  split; [discriminate|]. split; [reflexivity|].
  refine (proj1 (addContext_merges_into_existing "uuid-9"
                   [("brand", JStr "shop"); ("context_id", JStr "ctx-0")]
                   (entries (preferences declared))
                   (entries (prop (entries (preferences declared)) "ctx-0"))
                   declared _ eq_refl eq_refl eq_refl eq_refl)).
  discriminate.
Defined.

(** X3: addContext is idempotent for a context that names its own id and
    carries no consents key: a second call with the same context returns the
    same id and leaves the state as the first call left it, whatever uuid is
    generated in between. *)
Theorem addContext_twice (uuid uuid' id : string) (context ctxs : props) (st : state) :
  context <> [] -> proper context = true ->
  lookup "context_id" context = Some (JStr id) ->
  lookup "consents" context = None ->
  preferences st = JObj ctxs ->
  let o1 := addContext uuid context st in
  let o2 := addContext uuid' context (final o1) in
  result o1 = Normal (JStr id)
  /\ result o2 = Normal (JStr id)
  /\ final o2 = final o1.
Proof.
  intros Hne Hproper Hid Hconsents Hprefs o1 o2.
  assert (Hfull : isEmpty (JObj context) = false) by (destruct context; [contradiction|reflexivity]).
  assert (Hcid : prop context "context_id" = JStr id) by (unfold prop; rewrite Hid; reflexivity).
  pose (saved1 :=
          if truthy (prop ctxs id)
          then assign (assign [] (entries (prop ctxs id))) context
          else assign (assign [] context) [("context_id", JStr id); ("consents", JObj [])]).
  assert (Ho1 : o1 = {| final := with_preferences (JObj (assoc_set id (JObj saved1) ctxs)) st;
                        trace := []; result := Normal (JStr id) |}).
  { subst o1. unfold addContext. rewrite Hfull, Hcid. cbn [isString toPropertyKey].
    js_step. rewrite Hprefs. cbn [get]. js_step. cbn [put]. js_step. js_step. reflexivity. }
  assert (Hsaved : proper saved1 = true
                   /\ forall k v, In (k, v) context -> lookup k saved1 = Some v).
  { subst saved1. destruct (truthy (prop ctxs id)).
    - split; [apply proper_assign, proper_assign; reflexivity|].
      intros k v Hin. rewrite (lookup_assign _ _ _ Hproper), (lookup_In _ _ _ Hproper Hin).
      reflexivity.
    - split; [apply proper_assign, proper_assign; reflexivity|].
      intros k v Hin. pose proof (lookup_In _ _ _ Hproper Hin) as Hk.
      rewrite lookup_assign by reflexivity. cbn [lookup].
      destruct (String.eqb k "context_id") eqn:E1.
      + apply String.eqb_eq in E1. subst k. congruence.
      + destruct (String.eqb k "consents") eqn:E2.
        * apply String.eqb_eq in E2. subst k. congruence.
        * rewrite (assign_nil _ Hproper). exact Hk. }
  destruct Hsaved as [Hproper1 Hsame].
  assert (Ho2 : o2 = {| final := final o1; trace := []; result := Normal (JStr id) |}).
  { subst o2. rewrite Ho1. cbn [final]. unfold addContext.
    rewrite Hfull, Hcid. cbn [isString toPropertyKey].
    js_step. cbn [with_preferences preferences get]. js_step.
    rewrite prop_assoc_set, String.eqb_refl. cbn [truthy entries put].
    rewrite (assign_nil _ Hproper1), (assign_same _ _ Hsame).
    js_step. js_step.
    rewrite assoc_set_same; [reflexivity|].
    rewrite lookup_assoc_set, String.eqb_refl. reflexivity. }
  rewrite Ho2, Ho1. repeat split.
Qed.

Lemma addContext_twice_witness :
  lookup "context_id" [("brand", JStr "shop"); ("context_id", JStr "ctx-1")]
  = Some (JStr "ctx-1")
  /\ final (addContext "uuid-2" [("brand", JStr "shop"); ("context_id", JStr "ctx-1")]
              (final (addContext "uuid-1"
                        [("brand", JStr "shop"); ("context_id", JStr "ctx-1")] declared)))
     = final (addContext "uuid-1"
                [("brand", JStr "shop"); ("context_id", JStr "ctx-1")] declared).
Proof.
  split; [reflexivity|].
  refine (proj2 (proj2 (addContext_twice "uuid-1" "uuid-2" "ctx-1"
                          [("brand", JStr "shop"); ("context_id", JStr "ctx-1")]
                          (entries (preferences declared)) declared
                          _ eq_refl eq_refl eq_refl eq_refl))).
  discriminate.
Defined.

Lemma field_context_record (entry : string * value) (f : string) :
  f <> "consents" -> field (context_record entry) f = field (snd entry) f.
Proof.
  intros Hf. unfold context_record, field, prop, omit. cbn [entries].
  rewrite lookup_omit_other; [reflexivity|].
  unfold mem_key. cbn [existsb]. apply String.eqb_neq in Hf. rewrite Hf. reflexivity.
Qed.

Lemma context_record_without_consents (entry : string * value) :
  lookup "consents" (entries (context_record entry)) = None.
Proof.
  unfold context_record, omit. cbn [entries]. apply lookup_omit. reflexivity.
Qed.

(** X4: on non-empty preferences getContexts leaves the state alone and
    returns one record per stored context, in the enumeration order of the
    store: no record has a consents key and every other field is the one of
    the context. *)
Theorem getContexts_lists_contexts (h : Host) (ctxs : props) (st : state) :
  preferences st = JObj ctxs -> ctxs <> [] ->
  let o := getContexts h st in
  final o = st
  /\ trace o = []
  /\ exists records,
       result o = Normal records
       /\ length records = length ctxs
       /\ (forall r, In r records -> lookup "consents" (entries r) = None)
       /\ (forall n id context, nth_error ctxs n = Some (id, context) ->
           exists r, nth_error records n = Some r
                     /\ forall f, f <> "consents" -> field r f = field context f).
Proof.
  intros Hprefs Hne o. subst o. unfold getContexts. js_step. rewrite Hprefs.
  assert (Hfull : isEmpty (JObj ctxs) = false) by (destruct ctxs; [contradiction|reflexivity]).
  rewrite Hfull. cbn [negb]. js_step. cbn [js_or truthy entries ret final trace result].
  split; [reflexivity|]. split; [reflexivity|].
  eexists. split; [reflexivity|]. split; [apply length_map|]. split.
  - intros r Hin. apply in_map_iff in Hin. destruct Hin as (entry & <- & _).
    apply context_record_without_consents.
  - intros n id context Hn. exists (context_record (id, context)). split.
    + rewrite nth_error_map, Hn. reflexivity.
    + intros f Hf. apply (field_context_record (id, context) f Hf).
Qed.

Lemma getContexts_lists_contexts_witness :
  entries (preferences declared) <> []
  /\ final (getContexts demo declared) = declared.
Proof.
  split; [discriminate|].
  refine (proj1 (getContexts_lists_contexts demo (entries (preferences declared)) declared
                   eq_refl _)).
  discriminate.
Defined.

(** ** Persisting and sending *)

Lemma _stringifyPreferences_persists (h : Host) (prefs : value) :
  well_formed prefs = true ->
  _stringifyPreferences h prefs = Normal (on_all_consents (persisted h) prefs).
Proof.
  intros Hwf. unfold _stringifyPreferences.
  rewrite (in_all_consents_pointwise _ (persisted h) (fun a _ => a) _ Hwf); [reflexivity|].
  intros _ _ v [] Hv. destruct v as [| | | | | |fields]; try discriminate.
  unfold reading, then_do, replace_with, persisted, field, omit. simpl.
  destruct (negb (isEmpty (prop fields "expiry_date"))); reflexivity.
Qed.

Lemma _savePreferences_run (h : Host) (st : state) :
  well_formed (preferences st) = true ->
  _savePreferences h st
  = if negb (isLocalStorageAccessible h) || isEmpty (preferences st)
    then {| final := st; trace := []; result := Normal tt |}
    else {| final := with_storage (json (on_all_consents (persisted h) (preferences st))) st;
            trace := [SetItem (on_all_consents (persisted h) (preferences st))];
            result := Normal tt |}.
Proof.
  intros Hwf. unfold _savePreferences. js_step.
  destruct (negb (isLocalStorageAccessible h) || isEmpty (preferences st)); [reflexivity|].
  rewrite (_stringifyPreferences_persists h _ Hwf). js_step. reflexivity.
Qed.

Lemma dispatched_contexts_records (records : list value) :
  dispatched_contexts (map (AddConsentRecord contextTable) records) = records.
Proof.
  induction records as [|r rest IH]; simpl; [|rewrite IH]; reflexivity.
Qed.

Lemma dispatched_no_context_records (records : list value) :
  dispatched (map (AddConsentRecord contextTable) records) = [].
Proof.
  induction records as [|r rest IH]; simpl; [reflexivity|exact IH].
Qed.

Lemma is_call_no_records (t : table) (records : list value) :
  filter is_call (map (AddConsentRecord t) records) = [].
Proof.
  induction records as [|r rest IH]; simpl; [reflexivity|exact IH].
Qed.

(** X5: saveContexts hands the transport one record per context for the
    context table, each the context without its consents, and nothing for the
    consent table; it calls no callback before the promises settle, keeps the
    preferences, and both handlers default to noop. *)
Theorem saveContexts_sends_context_records (h : Host) (success error : option callback)
  (ctxs : props) (st : state) :
  preferences st = JObj ctxs ->
  well_formed (preferences st) = true ->
  let o := saveContexts h success error st in
  preferences (final o) = preferences st
  /\ dispatched_contexts (trace o) = map context_record ctxs
  /\ dispatched (trace o) = []
  /\ filter is_call (trace o) = []
  /\ (forall r, In r (dispatched_contexts (trace o)) -> lookup "consents" (entries r) = None)
  /\ result o
     = Normal {| contextPromises := map context_record ctxs;
                 thenSuccess := match success with Some f => f | None => Noop end;
                 catchError := match error with Some f => f | None => Noop end |}.
Proof.
  intros Hprefs Hwf o.
  assert (Hrun : o = {| final := final (_savePreferences h st);
                        trace := (trace (_savePreferences h st)
                                  ++ map (AddConsentRecord contextTable)
                                         (map context_record ctxs))%list;
                        result :=
                          Normal {| contextPromises := map context_record ctxs;
                                    thenSuccess := match success with
                                                   | Some f => f | None => Noop end;
                                    catchError := match error with
                                                  | Some f => f | None => Noop end |} |}
                 /\ preferences (final (_savePreferences h st)) = preferences st
                 /\ (trace (_savePreferences h st) = []
                     \/ exists payload, trace (_savePreferences h st) = [SetItem payload])).
  { subst o. unfold saveContexts, seq. rewrite (_savePreferences_run h st Hwf).
    destruct (negb (isLocalStorageAccessible h) || isEmpty (preferences st));
      cbn [result final trace read lift emit ret with_storage preferences];
      rewrite Hprefs; cbn [own_entries entries result final trace app];
      rewrite ?app_nil_r; (split; [reflexivity|]); (split; [reflexivity|]).
    - left. reflexivity.
    - right. eexists. reflexivity. }
  destruct Hrun as (Hrun & Hsame & Htrace). rewrite Hrun. cbn [final trace result].
  assert (Hcontexts : dispatched_contexts
                        (trace (_savePreferences h st)
                         ++ map (AddConsentRecord contextTable) (map context_record ctxs))
                      = map context_record ctxs).
  { destruct Htrace as [->|[payload ->]]; simpl; apply dispatched_contexts_records. }
  split; [exact Hsame|]. split; [exact Hcontexts|]. split; [|split; [|split]].
  - destruct Htrace as [->|[payload ->]]; simpl; apply dispatched_no_context_records.
  - destruct Htrace as [->|[payload ->]]; simpl; apply is_call_no_records.
  - rewrite Hcontexts. intros r Hin. apply in_map_iff in Hin.
    destruct Hin as (entry & <- & _). apply context_record_without_consents.
  - reflexivity.
Qed.

Lemma saveContexts_sends_context_records_witness :
  well_formed (preferences declared) = true
  /\ dispatched_contexts (trace (saveContexts demo None None declared))
     = map context_record (entries (preferences declared)).
Proof.
  split; [reflexivity|].
  exact (proj1 (proj2 (saveContexts_sends_context_records demo None None
                         (entries (preferences declared)) declared eq_refl eq_refl))).
Defined.

Lemma persisted_fields (h : Host) (consent : value) :
  lookup "_updated" (entries (persisted h consent)) = None
  /\ field (persisted h consent) "identifier" = track_uuid h
  /\ forall f, f <> "_updated" -> f <> "identifier" -> f <> "expiry_date" ->
       field (persisted h consent) f = field consent f.
Proof.
  unfold persisted, field, prop. cbn [entries]. split; [|split].
  - apply lookup_omit. reflexivity.
  - rewrite lookup_omit_other by reflexivity. rewrite lookup_assoc_set. reflexivity.
  - intros f Hflag Hid Hexpiry.
    assert (Hkeep : mem_key f ["_updated"] = false).
    { unfold mem_key. cbn [existsb]. apply String.eqb_neq in Hflag. rewrite Hflag. reflexivity. }
    rewrite (lookup_omit_other _ _ _ Hkeep), (lookup_other_assoc_set _ _ _ _ Hid).
    destruct (negb (isEmpty match lookup "expiry_date" (entries consent) with
                            | Some v => v
                            | None => JUndefined
                            end)); [|reflexivity].
    rewrite (lookup_other_assoc_set _ _ _ _ Hexpiry). reflexivity.
Qed.

Lemma persisted_payloads_records (t : table) (records : list value) :
  persisted_payloads (map (AddConsentRecord t) records) = [].
Proof.
  induction records as [|r rest IH]; simpl; [reflexivity|exact IH].
Qed.

(** X6: with an accessible storage and non-empty preferences saveConsents
    writes the storage exactly once; the payload holds every consent without
    its _updated flag and with the identifier of the client, while the
    preferences in memory stay as they are. *)
Theorem saveConsents_persists_without_flags (h : Host) (success error : option callback)
  (st : state) :
  well_formed (preferences st) = true ->
  isLocalStorageAccessible h = true ->
  isEmpty (preferences st) = false ->
  let o := saveConsents h success error st in
  exists payload,
    persisted_payloads (trace o) = [payload]
    /\ storage (final o) = json payload
    /\ preferences (final o) = preferences st
    /\ all_consents payload = map_entries (persisted h) (all_consents (preferences st))
    /\ forall c, In c (all_consents payload) ->
         lookup "_updated" (entries (snd c)) = None
         /\ field (snd c) "identifier" = track_uuid h.
Proof.
  intros Hwf Haccess Hfull o. subst o.
  rewrite (saveConsents_run h success error st Hwf), (_savePreferences_run h st Hwf).
  rewrite Haccess, Hfull. cbn [negb orb final trace with_storage storage].
  exists (on_all_consents (persisted h) (preferences st)).
  split; [|split; [reflexivity|split; [|split]]].
  - cbn [app persisted_payloads]. rewrite persisted_payloads_records. reflexivity.
  - destruct st; reflexivity.
  - apply all_consents_on_all_consents.
  - intros c Hin. rewrite all_consents_on_all_consents in Hin.
    unfold map_entries in Hin. apply in_map_iff in Hin. destruct Hin as (c0 & <- & _).
    cbn [snd]. destruct (persisted_fields h (snd c0)) as (Hflag & Hid & _).
    split; assumption.
Qed.

Lemma saveConsents_persists_without_flags_witness :
  well_formed (preferences edited) = true
  /\ isLocalStorageAccessible demo = true
  /\ isEmpty (preferences edited) = false
  /\ exists payload, persisted_payloads (trace (saveConsents demo None None edited)) = [payload].
Proof.
  split; [reflexivity|]. split; [reflexivity|]. split; [reflexivity|].
  destruct (saveConsents_persists_without_flags demo None None edited eq_refl eq_refl eq_refl)
    as (payload & Hpayload & _).
  exists payload. exact Hpayload.
Defined.

(** X7: when the storage is not accessible saveConsents writes nothing and
    leaves the state as it was, yet still hands the transport the partition of
    the round. *)
Theorem saveConsents_without_storage (h : Host) (success error : option callback)
  (st : state) :
  well_formed (preferences st) = true ->
  isLocalStorageAccessible h = false ->
  let o := saveConsents h success error st in
  final o = st
  /\ trace o = map (AddConsentRecord consentTable) (delta h (preferences st))
  /\ exists p, result o = Normal p /\ promises p = delta h (preferences st).
Proof.
  intros Hwf Hnone o. subst o.
  rewrite (saveConsents_run h success error st Hwf), (_savePreferences_run h st Hwf).
  rewrite Hnone. cbn [negb orb final trace result app].
  split; [reflexivity|]. split; [reflexivity|].
  eexists. split; reflexivity.
Qed.

Lemma saveConsents_without_storage_witness :
  well_formed (preferences edited) = true
  /\ isLocalStorageAccessible offline = false
  /\ final (saveConsents offline None None edited) = edited.
Proof.
  split; [reflexivity|]. split; [reflexivity|].
  exact (proj1 (saveConsents_without_storage offline None None edited eq_refl eq_refl)).
Defined.

(** ** Declaring consents *)

Lemma seq_assoc {A B C : Type} (m : js A) (f : A -> js B) (k : B -> js C) (st : state) :
  seq (seq m f) k st = seq m (fun a => seq (f a) k) st.
Proof.
  unfold seq. destruct (m st) as [st1 t1 [a|e]]; cbn [result final trace]; [|reflexivity].
  destruct (f a st1) as [st2 t2 [b|e]]; cbn [result final trace]; [|reflexivity].
  destruct (k b st2) as [st3 t3 r3]; cbn [result final trace].
  rewrite app_assoc. reflexivity.
Qed.


Ltac js_nested :=
  match goal with
  | |- context [@seq ?B ?C (@seq ?A _ ?m ?f) ?k ?st] => rewrite (@seq_assoc A B C m f k st)
  end.

Lemma addConsent_resolves (st : state) (fields ctxs : props) (current : value) :
  isObject (defaultContext st) = true ->
  preferences st = JObj ctxs ->
  prop ctxs (toPropertyKey (resolved_context st fields)) = current ->
  truthy current = true ->
  (if negb (truthy (prop fields "context_id")) then
     seq read (fun st =>
     seq (lift (get (defaultContext st) "context_id")) (fun contextId =>
     seq (lift (get (preferences st) (toPropertyKey contextId))) (fun found =>
     seq (if negb (truthy found) then
            seq (lift (put (preferences st) (toPropertyKey contextId) (defaultContext st)))
                (fun prefs => write (with_preferences prefs st))
          else ret tt) (fun _ =>
     ret contextId))))
   else ret (prop fields "context_id")) st
  = {| final := st; trace := []; result := Normal (resolved_context st fields) |}.
Proof.
  intros Hdefault Hprefs Hctx Htruthy. unfold resolved_context in *.
  destruct (truthy (prop fields "context_id")); cbn [negb]; [reflexivity|].
  js_step. rewrite (get_object _ _ Hdefault). js_step.
  rewrite Hprefs. cbn [get]. js_step.
  rewrite Hctx, Htruthy. cbn [negb]. js_step. reflexivity.
Qed.

(** One round of [addConsents] for a purpose that has no record yet. *)
Lemma addConsent_new (h : Host) (key : string) (fields ctxs ctx cs : props) (st : state) :
  let contextId := toPropertyKey (resolved_context st fields) in
  isObject (defaultContext st) = true ->
  preferences st = JObj ctxs ->
  prop ctxs contextId = JObj ctx ->
  prop ctx "consents" = JObj cs ->
  isEmpty (prop cs key) = true ->
  addConsent h key fields st
  = {| final := with_preferences
                  (with_consent contextId key (JObj (new_record h st key fields)) ctxs ctx cs)
                  st;
       trace := [];
       result := Normal tt |}.
Proof.
  intros contextId Hdefault Hprefs Hctx Hcs Hnone.
  unfold addConsent.
  rewrite (seq_normal _ _ _ _ _
             (addConsent_resolves st fields ctxs (JObj ctx) Hdefault Hprefs Hctx eq_refl)).
  js_step. rewrite Hprefs. cbn [get]. js_step. fold contextId. rewrite Hctx.
  cbn [truthy get bind]. rewrite Hcs. cbn [get bind]. js_step.
  rewrite Hnone. cbn [negb].
  repeat first [js_step | progress cbn [get put] | rewrite Hcs].
  reflexivity.
Qed.

Lemma stored_with_consent (st : state) (contextId key k : string) (consent : value)
  (ctxs ctx cs : props) :
  stored (with_preferences (with_consent contextId key consent ctxs ctx cs) st) contextId k
  = if String.eqb k key then consent else prop cs k.
Proof.
  unfold stored, with_preferences, with_consent. cbn [preferences entries].
  rewrite prop_assoc_set, String.eqb_refl. cbn [consents_of].
  rewrite prop_assoc_set. cbn [String.eqb Ascii.eqb Bool.eqb entries].
  apply prop_assoc_set.
Qed.

Lemma stored_in (st : state) (contextId k : string) (ctxs ctx cs : props) :
  preferences st = JObj ctxs ->
  prop ctxs contextId = JObj ctx ->
  prop ctx "consents" = JObj cs ->
  stored st contextId k = prop cs k.
Proof.
  intros Hprefs Hctx Hcs. unfold stored. rewrite Hprefs. cbn [entries].
  rewrite Hctx. cbn [consents_of]. rewrite Hcs. reflexivity.
Qed.

(** Other contexts are left as they were. *)
Lemma lookup_with_consent (contextId key k : string) (consent : value) (ctxs ctx cs : props) :
  k <> contextId ->
  lookup k (entries (with_consent contextId key consent ctxs ctx cs)) = lookup k ctxs.
Proof.
  intros Hk. unfold with_consent. cbn [entries]. apply lookup_other_assoc_set. exact Hk.
Qed.

Lemma new_record_fields (h : Host) (st : state) (key : string) (fields : props) :
  proper fields = true ->
  prop (new_record h st key fields) "status"
  = (if _isValidStatus (prop fields "status") then prop fields "status" else JStr NOTGIVEN)
  /\ prop (new_record h st key fields) "key" = camelCase h key
  /\ prop (new_record h st key fields) "identifier" = track_uuid h
  /\ prop (new_record h st key fields) "context_id" = resolved_context st fields
  /\ prop (new_record h st key fields) "issuer" = issuer h
  /\ prop (new_record h st key fields) "expiry_date" = normalized_expiry h fields
  /\ (forall f, ~ In f ["key"; "status"; "identifier"; "context_id"; "issuer"; "expiry_date"] ->
      prop (new_record h st key fields) f = prop fields f)
  /\ (lookup "_updated" fields = None -> isUpdated (JObj (new_record h st key fields)) = false).
Proof.
  intros Hfields. unfold new_record. repeat split.
  - rewrite !prop_assoc_set. cbn [String.eqb Ascii.eqb Bool.eqb].
    rewrite prop_assign by reflexivity. reflexivity.
  - rewrite !prop_assoc_set. cbn [String.eqb Ascii.eqb Bool.eqb].
    rewrite prop_assign by reflexivity. reflexivity.
  - rewrite !prop_assoc_set. cbn [String.eqb Ascii.eqb Bool.eqb].
    rewrite prop_assign by reflexivity. reflexivity.
  - rewrite !prop_assoc_set. cbn [String.eqb Ascii.eqb Bool.eqb].
    rewrite prop_assign by reflexivity. reflexivity.
  - rewrite !prop_assoc_set. reflexivity.
  - rewrite prop_assoc_set. reflexivity.
  - intros f Hf. rewrite !prop_assoc_set.
    assert (Hne : forall k, In k ["key"; "status"; "identifier"; "context_id"; "issuer";
                                  "expiry_date"] -> String.eqb f k = false).
    { intros k Hk. apply String.eqb_neq. intros ->. exact (Hf Hk). }
    rewrite (Hne "expiry_date"), (Hne "issuer") by (simpl; tauto).
    rewrite prop_assign by reflexivity. cbn [lookup].
    rewrite (Hne "key"), (Hne "status"), (Hne "identifier"), (Hne "context_id")
      by (simpl; tauto).
    rewrite (assign_nil _ Hfields). reflexivity.
  - intros Hflag. unfold isUpdated, field. cbn [entries].
    rewrite !prop_assoc_set. cbn [String.eqb Ascii.eqb Bool.eqb].
    rewrite prop_assign by reflexivity. cbn [lookup String.eqb Ascii.eqb Bool.eqb].
    rewrite (assign_nil _ Hfields). unfold prop. rewrite Hflag. reflexivity.
Qed.

(** X8: addConsents for a purpose the resolved context, named by a string,
    does not hold yet stores a new record under the purpose as it is spelt
    (the purpose not being a name that objects inherit): the status is the
    supplied one, as it is spelt, when _isValidStatus accepts it (a string
    that is one of the four states up to letter case) and notgiven otherwise,
    key is the normalised purpose, identifier, context_id and issuer are
    filled in, expiry_date is the instant the supplied date parses to, and
    empty when there is none, when it does not parse or when it is a number,
    every other field is the supplied one, and the record is not flagged as
    updated unless the input says so; the other purposes and the other
    contexts are untouched and nothing is dispatched. *)
Theorem addConsents_declares_new_consent (h : Host) (key : string)
  (fields ctxs ctx cs : props) (st : state) :
  let contextId := toPropertyKey (resolved_context st fields) in
  isString (resolved_context st fields) = true ->
  inherited key = false ->
  proper fields = true ->
  isObject (defaultContext st) = true ->
  preferences st = JObj ctxs ->
  prop ctxs contextId = JObj ctx ->
  prop ctx "consents" = JObj cs ->
  lookup key cs = None ->
  let o := addConsents h [(key, fields)] st in
  let record := new_record h st key fields in
  result o = Normal tt
  /\ trace o = []
  /\ (forall k, k <> key -> stored (final o) contextId k = stored st contextId k)
  /\ (forall k, k <> contextId ->
      lookup k (entries (preferences (final o))) = lookup k ctxs)
  /\ stored (final o) contextId key = JObj record
  /\ prop record "status"
     = (if _isValidStatus (prop fields "status") then prop fields "status"
        else JStr NOTGIVEN)
  /\ prop record "key" = camelCase h key
  /\ prop record "identifier" = track_uuid h
  /\ prop record "context_id" = resolved_context st fields
  /\ prop record "issuer" = issuer h
  /\ prop record "expiry_date" = normalized_expiry h fields
  /\ (forall f, ~ In f ["key"; "status"; "identifier"; "context_id"; "issuer"; "expiry_date"] ->
      prop record f = prop fields f)
  /\ (lookup "_updated" fields = None -> isUpdated (JObj record) = false).
Proof.
  intros contextId Hstring Hplain Hfields Hdefault Hprefs Hctx Hcs Hnew o record.
  assert (Hnone : isEmpty (prop cs key) = true) by (unfold prop; rewrite Hnew; reflexivity).
  pose proof (addConsent_new h key fields ctxs ctx cs st Hdefault Hprefs Hctx Hcs Hnone)
    as Hround.
  assert (Ho : o = addConsent h key fields st).
  { subst o. unfold addConsents. cbn [is_nil for_each fst snd].
    rewrite (seq_normal _ _ _ _ _ Hround). symmetry. exact Hround. }
  rewrite Ho, Hround. cbn [result final trace]. fold contextId.
  split; [reflexivity|]. split; [reflexivity|]. split; [|split; [|split]].
  - intros k Hk. rewrite stored_with_consent.
    apply String.eqb_neq in Hk. rewrite Hk.
    symmetry. apply (stored_in st contextId k ctxs ctx cs Hprefs Hctx Hcs).
  - intros k Hk. cbn [with_preferences preferences]. apply lookup_with_consent. exact Hk.
  - rewrite stored_with_consent, String.eqb_refl. reflexivity.
  - exact (new_record_fields h st key fields Hfields).
Qed.

Lemma addConsents_declares_new_consent_witness :
  proper [("status", JStr "maybe")] = true
  /\ isString (resolved_context declared [("status", JStr "maybe")]) = true
  /\ inherited "ads" = false
  /\ lookup "ads" (entries (prop (entries (prop (entries (preferences declared)) "ctx-0"))
                               "consents")) = None
  /\ result (addConsents demo [("ads", [("status", JStr "maybe")])] declared) = Normal tt.
Proof.
  split; [reflexivity|]. split; [reflexivity|]. split; [reflexivity|].
  split; [reflexivity|].
  exact (proj1 (addConsents_declares_new_consent demo "ads" [("status", JStr "maybe")]
                  (entries (preferences declared))
                  (entries (prop (entries (preferences declared)) "ctx-0"))
                  (entries (prop (entries (prop (entries (preferences declared)) "ctx-0"))
                                 "consents"))
                  declared eq_refl eq_refl eq_refl eq_refl eq_refl eq_refl eq_refl
                  eq_refl)).
Defined.




(** X10: addConsents with a context_id, a non-empty string, that names no
    stored context throws a TypeError at that entry and leaves the store as
    it was; the entries after it are not processed. *)
Theorem addConsents_unknown_context_throws (h : Host) (key id : string)
  (fields ctxs : props) (others : list (string * props)) (st : state) :
  prop fields "context_id" = JStr id -> id <> "" ->
  preferences st = JObj ctxs ->
  lookup id ctxs = None ->
  addConsents h ((key, fields) :: others) st
  = {| final := st; trace := []; result := Throw TypeError |}.
Proof.
  intros Hid Hsome Hprefs Hmissing.
  assert (Htruthy : truthy (prop fields "context_id") = true).
  { rewrite Hid. cbn [truthy]. apply String.eqb_neq in Hsome. rewrite Hsome. reflexivity. }
  assert (Hnew : lookup (toPropertyKey (prop fields "context_id")) ctxs = None)
    by (rewrite Hid; exact Hmissing).
  assert (Hundef : prop ctxs (toPropertyKey (prop fields "context_id")) = JUndefined)
    by (unfold prop at 1; rewrite Hnew; reflexivity).
  assert (Hround : addConsent h key fields st
                   = {| final := st; trace := []; result := Throw TypeError |}).
  { unfold addConsent. rewrite Htruthy. cbn [negb]. js_step. js_step.
    rewrite Hprefs. cbn [get]. js_step. rewrite Hundef. cbn [truthy].
    js_step. js_step. cbn [get]. reflexivity. }
  unfold addConsents. cbn [is_nil for_each fst snd]. unfold seq. rewrite Hround. reflexivity.
Qed.

Lemma addConsents_unknown_context_throws_witness :
  prop [("context_id", JStr "nowhere")] "context_id" = JStr "nowhere"
  /\ lookup "nowhere" (entries (preferences declared)) = None
  /\ final (addConsents demo [("marketing", [("context_id", JStr "nowhere")])] declared)
     = declared.
Proof.
  split; [reflexivity|]. split; [reflexivity|].
  refine (f_equal final
            (addConsents_unknown_context_throws demo "marketing" "nowhere"
               [("context_id", JStr "nowhere")] (entries (preferences declared)) [] declared
               eq_refl _ eq_refl eq_refl)).
  discriminate.
Defined.

(** ** Updating *)

Lemma updateMatched_stored (h : Host) (purpose : string) (fields cs old : props) :
  prop cs purpose = JObj old ->
  updateMatched h purpose fields (JObj cs)
  = Normal (JObj (assoc_set purpose (JObj (updated_record h fields old)) cs)).
Proof.
  intros Hold. unfold updateMatched, updated_record. cbn [get bind]. rewrite Hold.
  destruct (negb (_isValidStatus (js_or (prop fields "status") (JStr ""))));
    cbn [get bind];
    destruct (parsable (js_or (prop fields "expiry_date") (JStr "")));
    cbn [get bind]; try reflexivity;
    destruct (dayjsFormat h (js_or (prop fields "expiry_date") (JStr "")));
    reflexivity.
Qed.

Lemma matches_itself (h : Host) (purpose : string) (x : value) (cs : props) :
  lookup purpose cs = Some x ->
  strict_eq (camelCase h purpose) (camelCase h purpose) = true ->
  existsb (fun k => strict_eq (camelCase h k) (camelCase h purpose)) (keys cs) = true.
Proof.
  intros Hfound Hrefl. apply existsb_exists. exists purpose. split; [|exact Hrefl].
  induction cs as [|[k0 v0] rest IH]; simpl in *; [discriminate|].
  destruct (String.eqb purpose k0) eqn:E.
  - left. apply String.eqb_eq in E. symmetry. exact E.
  - right. exact (IH Hfound).
Qed.

Lemma updated_record_fields (h : Host) (fields old : props) :
  proper fields = true ->
  prop (updated_record h fields old) "_updated" = JBool true
  /\ prop (updated_record h fields old) "identifier" = track_uuid h
  /\ prop (updated_record h fields old) "status"
     = (if _isValidStatus (js_or (prop fields "status") (JStr ""))
        then js_or (prop fields "status") (JStr "") else prop old "status")
  /\ prop (updated_record h fields old) "expiry_date"
     = (if parsable (js_or (prop fields "expiry_date") (JStr ""))
        then match dayjsFormat h (js_or (prop fields "expiry_date") (JStr "")) with
             | Some t => JNum t
             | None => prop old "expiry_date"
             end
        else prop old "expiry_date")
  /\ forall f, ~ In f ["_updated"; "identifier"; "status"; "expiry_date"] ->
       prop (updated_record h fields old) f
       = match lookup f fields with Some v => v | None => prop old f end.
Proof.
  intros Hfields. unfold updated_record. repeat split.
  - rewrite prop_assoc_set. reflexivity.
  - rewrite prop_assoc_set. cbn [String.eqb Ascii.eqb Bool.eqb].
    rewrite prop_assign by reflexivity. reflexivity.
  - rewrite prop_assoc_set. cbn [String.eqb Ascii.eqb Bool.eqb].
    rewrite prop_assign by reflexivity. cbn [lookup String.eqb Ascii.eqb Bool.eqb].
    destruct (_isValidStatus (js_or (prop fields "status") (JStr ""))); reflexivity.
  - rewrite prop_assoc_set. cbn [String.eqb Ascii.eqb Bool.eqb].
    rewrite prop_assign by reflexivity. reflexivity.
  - intros f Hf.
    assert (Hne : forall k, In k ["_updated"; "identifier"; "status"; "expiry_date"] ->
                            String.eqb f k = false).
    { intros k Hk. apply String.eqb_neq. intros ->. exact (Hf Hk). }
    rewrite prop_assoc_set, (Hne "_updated") by (simpl; tauto).
    rewrite prop_assign by reflexivity. cbn [lookup].
    rewrite (Hne "identifier"), (Hne "status"), (Hne "expiry_date") by (simpl; tauto).
    assert (Hkeep : mem_key f ["expiry_date"; "status"] = false).
    { unfold mem_key. cbn [existsb].
      rewrite (Hne "status"), (Hne "expiry_date") by (simpl; tauto). reflexivity. }
    unfold prop.
    rewrite (lookup_assign _ _ _ (proper_omit _ _ Hfields)).
    rewrite !(lookup_omit_other _ _ _ Hkeep). destruct (lookup f fields); reflexivity.
Qed.

(** X11: updateConsent with a purpose that is spelt as a stored key updates
    that record in place: the consents keep their keys, the record is flagged
    as updated and carries the identifier of the client, the status and the
    expiry date are the supplied ones when they are valid and the stored ones
    otherwise, every other field is the supplied value when there is one and
    the stored value otherwise; the other purposes and contexts are untouched,
    nothing is dispatched, and only the first purpose of the argument is
    used. *)
Theorem updateConsent_updates_stored_key (h : Host) (contextId purpose : string)
  (fields : props) (others : list (string * props)) (ctxs ctx cs old : props) (st : state) :
  proper fields = true ->
  preferences st = JObj ctxs ->
  prop ctxs contextId = JObj ctx ->
  prop ctx "consents" = JObj cs ->
  lookup purpose cs = Some (JObj old) ->
  strict_eq (camelCase h purpose) (camelCase h purpose) = true ->
  let o := updateConsent h contextId ((purpose, fields) :: others) st in
  let updated := updated_record h fields old in
  result o = Normal tt
  /\ trace o = []
  /\ keys (consents_of (prop (entries (preferences (final o))) contextId)) = keys cs
  /\ (forall k, k <> purpose -> stored (final o) contextId k = stored st contextId k)
  /\ (forall k, k <> contextId ->
      lookup k (entries (preferences (final o))) = lookup k ctxs)
  /\ stored (final o) contextId purpose = JObj updated
  /\ prop updated "_updated" = JBool true
  /\ prop updated "identifier" = track_uuid h
  /\ prop updated "status"
     = (if _isValidStatus (js_or (prop fields "status") (JStr ""))
        then js_or (prop fields "status") (JStr "") else prop old "status")
  /\ prop updated "expiry_date"
     = (if parsable (js_or (prop fields "expiry_date") (JStr ""))
        then match dayjsFormat h (js_or (prop fields "expiry_date") (JStr "")) with
             | Some t => JNum t
             | None => prop old "expiry_date"
             end
        else prop old "expiry_date")
  /\ forall f, ~ In f ["_updated"; "identifier"; "status"; "expiry_date"] ->
       prop updated f = match lookup f fields with Some v => v | None => prop old f end.
Proof.
  intros Hfields Hprefs Hctx Hcs Hfound Hrefl o updated.
  assert (Hold : prop cs purpose = JObj old) by (unfold prop; rewrite Hfound; reflexivity).
  assert (Hfull : isEmpty (JObj ctx) = false).
  { destruct ctx; [discriminate|reflexivity]. }
  assert (Ho : o = {| final := with_preferences
                                 (with_consent contextId purpose (JObj updated) ctxs ctx cs) st;
                      trace := []; result := Normal tt |}).
  { subst o. unfold updateConsent. js_step. rewrite Hprefs. cbn [get]. js_step.
    rewrite Hctx, Hfull. cbn [orb is_nil get]. rewrite Hcs. js_step. cbn [entries].
    rewrite (matches_itself h purpose _ cs Hfound Hrefl).
    rewrite (updateMatched_stored h purpose fields cs old Hold).
    js_step. cbn [put]. js_step. js_step. reflexivity. }
  rewrite Ho. cbn [result final trace].
  split; [reflexivity|]. split; [reflexivity|]. split; [|split; [|split; [|split]]].
  - unfold with_preferences, with_consent. cbn [preferences entries].
    rewrite prop_assoc_set, String.eqb_refl. cbn [consents_of].
    rewrite prop_assoc_set. cbn [String.eqb Ascii.eqb Bool.eqb entries].
    apply (keys_assoc_set _ _ _ _ Hfound).
  - intros k Hk. rewrite stored_with_consent.
    apply String.eqb_neq in Hk. rewrite Hk.
    symmetry. apply (stored_in st contextId k ctxs ctx cs Hprefs Hctx Hcs).
  - intros k Hk. cbn [with_preferences preferences]. apply lookup_with_consent. exact Hk.
  - rewrite stored_with_consent, String.eqb_refl. reflexivity.
  - exact (updated_record_fields h fields old Hfields).
Qed.

Lemma updateConsent_updates_stored_key_witness :
  proper [("status", JStr "refused")] = true
  /\ strict_eq (camelCase demo "analytics") (camelCase demo "analytics") = true
  /\ result (updateConsent demo "ctx-0" [("analytics", [("status", JStr "refused")])] declared)
     = Normal tt.
Proof.
  split; [reflexivity|]. split; [reflexivity|].
  exact (proj1 (updateConsent_updates_stored_key demo "ctx-0" "analytics"
                  [("status", JStr "refused")] []
                  (entries (preferences declared))
                  (entries (prop (entries (preferences declared)) "ctx-0"))
                  (entries (prop (entries (prop (entries (preferences declared)) "ctx-0"))
                                 "consents"))
                  (entries (stored declared "ctx-0" "analytics"))
                  declared eq_refl eq_refl eq_refl eq_refl eq_refl eq_refl)).
Defined.

Lemma getConsentExpiryDate_run (contextId purpose : string)
  (ctxs ctx cs : props) (st : state) :
  contextId <> "" -> purpose <> "" ->
  preferences st = JObj ctxs ->
  prop ctxs contextId = JObj ctx ->
  prop ctx "consents" = JObj cs ->
  getConsentExpiryDate contextId purpose st
  = {| final := st; trace := [];
       result := Normal (js_or (field (prop cs purpose) "expiry_date") JNull) |}.
Proof.
  intros Hcontext Hpurpose Hprefs Hctx Hcs. unfold getConsentExpiryDate.
  apply String.eqb_neq in Hcontext, Hpurpose. rewrite Hcontext, Hpurpose. cbn [orb].
  js_step. rewrite Hprefs. cbn [get]. js_step. rewrite Hctx. cbn [get]. js_step.
  rewrite Hcs. cbn [get]. js_step.
  destruct (prop cs purpose) as [| |b|n| |s|record] eqn:Econsent; cbn [truthy get];
    try (js_step; reflexivity).
  - destruct b; js_step; reflexivity.
  - destruct (n =? 0) eqn:E; cbn [negb]; js_step; unfold ret, js_or; cbn [truthy];
      rewrite ?E; reflexivity.
  - destruct (String.eqb s "") eqn:E; cbn [negb]; js_step; unfold ret, js_or; cbn [truthy];
      rewrite ?E; reflexivity.
Qed.

(** X12: on a stored context with a consents object getConsentExpiryDate
    leaves the state alone and returns undefined when the context id or the
    purpose is empty, and otherwise the expiry date of the purpose, null when
    the date is missing or falsy; a purpose the context does not hold gives
    null. *)
Theorem getConsentExpiryDate_reads_expiry (contextId purpose : string)
  (ctxs ctx cs : props) (st : state) :
  preferences st = JObj ctxs ->
  prop ctxs contextId = JObj ctx ->
  prop ctx "consents" = JObj cs ->
  getConsentExpiryDate contextId purpose st
  = {| final := st; trace := [];
       result := Normal (if String.eqb contextId "" || String.eqb purpose ""
                         then JUndefined
                         else js_or (field (prop cs purpose) "expiry_date") JNull) |}
  /\ (lookup purpose cs = None -> contextId <> "" -> purpose <> "" ->
      result (getConsentExpiryDate contextId purpose st) = Normal JNull).
Proof.
  intros Hprefs Hctx Hcs.
  assert (Hrun : getConsentExpiryDate contextId purpose st
                 = {| final := st; trace := [];
                      result := Normal (if String.eqb contextId "" || String.eqb purpose ""
                                        then JUndefined
                                        else js_or (field (prop cs purpose) "expiry_date")
                                                   JNull) |}).
  { destruct (String.eqb contextId "" || String.eqb purpose "") eqn:E.
    - unfold getConsentExpiryDate. rewrite E. reflexivity.
    - apply orb_false_iff in E. destruct E as [Hcontext Hpurpose].
      apply String.eqb_neq in Hcontext, Hpurpose.
      exact (getConsentExpiryDate_run contextId purpose ctxs ctx cs st
               Hcontext Hpurpose Hprefs Hctx Hcs). }
  split; [exact Hrun|].
  intros Hmissing Hcontext Hpurpose. rewrite Hrun.
  apply String.eqb_neq in Hcontext, Hpurpose. rewrite Hcontext, Hpurpose.
  unfold prop. rewrite Hmissing. reflexivity.
Qed.

Lemma getConsentExpiryDate_reads_expiry_witness :
  preferences declared = JObj (entries (preferences declared))
  /\ result (getConsentExpiryDate "ctx-0" "marketing" declared)
     = Normal (JNum 4070908800000).
Proof.
  split; [reflexivity|].
  exact (f_equal result
           (proj1 (getConsentExpiryDate_reads_expiry "ctx-0" "marketing"
                     (entries (preferences declared))
                     (entries (prop (entries (preferences declared)) "ctx-0"))
                     (entries (prop (entries (prop (entries (preferences declared)) "ctx-0"))
                                    "consents"))
                     declared eq_refl eq_refl eq_refl))).
Defined.

(** X13: updateContext on a stored, non-empty context with non-empty values
    merges the values over the context in place: the contexts keep their keys,
    the other contexts are untouched, and every field of the context,
    consents included, holds the supplied value when there is one and the
    stored value otherwise. *)
Theorem updateContext_merges_fields (contextId : string) (values ctxs ctx : props)
  (st : state) :
  proper values = true -> proper ctx = true ->
  values <> [] -> ctx <> [] ->
  preferences st = JObj ctxs ->
  lookup contextId ctxs = Some (JObj ctx) ->
  let o := updateContext contextId values st in
  result o = Normal tt
  /\ trace o = []
  /\ keys (entries (preferences (final o))) = keys ctxs
  /\ (forall k, k <> contextId ->
      lookup k (entries (preferences (final o))) = lookup k ctxs)
  /\ exists updated,
       prop (entries (preferences (final o))) contextId = JObj updated
       /\ forall f, prop updated f = match lookup f values with
                                     | Some v => v
                                     | None => prop ctx f
                                     end.
Proof.
  intros Hvalues Hproper Hgiven Hne Hprefs Hfound o. subst o.
  assert (Hctx : prop ctxs contextId = JObj ctx) by (unfold prop; rewrite Hfound; reflexivity).
  assert (Hfull : isEmpty (JObj ctx) = false) by (destruct ctx; [contradiction|reflexivity]).
  assert (Hsome : isEmpty (JObj values) = false)
    by (destruct values; [contradiction|reflexivity]).
  unfold updateContext. js_step. rewrite Hprefs. cbn [get]. js_step.
  rewrite Hctx, Hfull, Hsome. cbn [orb put entries]. js_step.
  unfold write. cbn [result final trace with_preferences preferences entries].
  split; [reflexivity|]. split; [reflexivity|].
  split; [apply (keys_assoc_set _ _ _ _ Hfound)|].
  split; [intros k Hk; apply lookup_other_assoc_set; exact Hk|].
  eexists. split; [rewrite prop_assoc_set, String.eqb_refl; reflexivity|].
  intros f. unfold prop, omit. cbn [entries].
  rewrite lookup_assign by (apply proper_assign, proper_assign; reflexivity).
  rewrite (lookup_assign f _ values Hvalues).
  destruct (lookup f values) as [v|]; [reflexivity|].
  rewrite (lookup_assign f [] _ (proper_omit _ _ Hproper)).
  rewrite (lookup_assign f [] ctx Hproper). cbn [lookup].
  destruct (lookup f (omit_props ctx ["consents"])) as [v|] eqn:Eomit.
  - destruct (mem_key f ["consents"]) eqn:Ekey.
    + rewrite (lookup_omit _ _ _ Ekey) in Eomit. discriminate.
    + rewrite (lookup_omit_other _ _ _ Ekey) in Eomit. rewrite Eomit. reflexivity.
  - destruct (lookup f ctx); reflexivity.
Qed.

Lemma updateContext_merges_fields_witness :
  proper [("brand", JStr "other")] = true
  /\ lookup "ctx-0" (entries (preferences declared))
     = Some (JObj (entries (prop (entries (preferences declared)) "ctx-0")))
  /\ result (updateContext "ctx-0" [("brand", JStr "other")] declared) = Normal tt.
Proof.
  split; [reflexivity|]. split; [reflexivity|].
  refine (proj1 (updateContext_merges_fields "ctx-0" [("brand", JStr "other")]
                   (entries (preferences declared))
                   (entries (prop (entries (preferences declared)) "ctx-0"))
                   declared eq_refl eq_refl _ _ eq_refl eq_refl)); discriminate.
Defined.

(** X14: updateContext on a context id the preferences do not hold (or hold
    as an empty context), or with empty values, leaves the whole state as it
    was and dispatches nothing. *)
Theorem updateContext_noop (contextId : string) (values : props) (st : state) :
  isEmpty (prop (entries (preferences st)) contextId) = true \/ values = [] ->
  final (updateContext contextId values st) = st
  /\ trace (updateContext contextId values st) = []
  /\ (isObject (preferences st) = true ->
      result (updateContext contextId values st) = Normal tt).
Proof.
  intros Hnoop. unfold updateContext, seq, read, lift. cbn [result final trace].
  destruct (preferences st) as [| | | | | |ctxs] eqn:Ep; cbn [get result final trace];
    try (cbn; repeat split; solve [reflexivity | intros; discriminate]).
  assert (Hskip : isEmpty (prop ctxs contextId) || isEmpty (JObj values) = true).
  { destruct Hnoop as [Hmiss| ->].
    - cbn [entries] in Hmiss. rewrite Hmiss. reflexivity.
    - apply orb_true_r. }
  rewrite Hskip. repeat split.
Qed.

Lemma updateContext_noop_witness :
  (isEmpty (prop (entries (preferences declared)) "ctx-9") = true
   \/ [("brand", JStr "other")] = [])
  /\ final (updateContext "ctx-9" [("brand", JStr "other")] declared) = declared.
Proof.
  split; [left; reflexivity|].
  exact (proj1 (updateContext_noop "ctx-9" [("brand", JStr "other")] declared
                  (or_introl eq_refl))).
Defined.

(** ** What the success callback is told *)

Section Reported.

Variable h : Host.

Lemma lookup_assoc_set_some (k k' : string) (x : value) (ps : props) :
  lookup k ps <> None -> lookup k (assoc_set k' x ps) <> None.
Proof.
  intros Hk. rewrite lookup_assoc_set. destruct (String.eqb k k'); [discriminate|exact Hk].
Qed.

Lemma reports_step (seen : list (string * value)) (acc : props * props)
  (k : string) (c : value) :
  isObject c = true -> reports h seen acc ->
  exists acc', index_consent h acc k c = Normal acc' /\ reports h (seen ++ [(k, c)]) acc'.
Proof.
  intros Hc (Hpu & Hpn & Hu & Hn & Hcu & Hcn). destruct acc as [u n]. cbn [fst snd] in *.
  unfold index_consent.
  rewrite (get_object _ _ Hc), (_getNormalizedConsent_object h _ _ Hc). cbn [bind].
  fold (isUpdated c). eexists. split; [reflexivity|].
  destruct (isUpdated c) eqn:Eflag; unfold reports; cbn [fst snd]; repeat split.
  - apply proper_assoc_set. exact Hpu.
  - exact Hpn.
  - intros k0 r Hin. apply In_assoc_set in Hin. destruct Hin as [Heq|Hin].
    + inversion Heq; subst. exists c. repeat split; [|exact Eflag].
      apply in_or_app. right. left. reflexivity.
    + destruct (Hu k0 r Hin) as (c0 & Hseen & Hflag & Hr).
      exists c0. repeat split; try assumption. apply in_or_app. left. exact Hseen.
  - intros k0 r Hin. destruct (Hn k0 r Hin) as (c0 & Hseen & Hflag & Hr).
    exists c0. repeat split; try assumption. apply in_or_app. left. exact Hseen.
  - intros k0 c0 Hin Hflag. apply in_app_or in Hin. destruct Hin as [Hin|[Heq|[]]].
    + apply lookup_assoc_set_some. exact (Hcu k0 c0 Hin Hflag).
    + inversion Heq; subst. rewrite lookup_assoc_set, String.eqb_refl. discriminate.
  - intros k0 c0 Hin Hflag. apply in_app_or in Hin. destruct Hin as [Hin|[Heq|[]]].
    + exact (Hcn k0 c0 Hin Hflag).
    + inversion Heq; subst. congruence.
  - exact Hpu.
  - apply proper_assoc_set. exact Hpn.
  - intros k0 r Hin. destruct (Hu k0 r Hin) as (c0 & Hseen & Hflag & Hr).
    exists c0. repeat split; try assumption. apply in_or_app. left. exact Hseen.
  - intros k0 r Hin. apply In_assoc_set in Hin. destruct Hin as [Heq|Hin].
    + inversion Heq; subst. exists c. repeat split; [|exact Eflag].
      apply in_or_app. right. left. reflexivity.
    + destruct (Hn k0 r Hin) as (c0 & Hseen & Hflag & Hr).
      exists c0. repeat split; try assumption. apply in_or_app. left. exact Hseen.
  - intros k0 c0 Hin Hflag. apply in_app_or in Hin. destruct Hin as [Hin|[Heq|[]]].
    + exact (Hcu k0 c0 Hin Hflag).
    + inversion Heq; subst. congruence.
  - intros k0 c0 Hin Hflag. apply in_app_or in Hin. destruct Hin as [Hin|[Heq|[]]].
    + apply lookup_assoc_set_some. exact (Hcn k0 c0 Hin Hflag).
    + inversion Heq; subst. rewrite lookup_assoc_set, String.eqb_refl. discriminate.
Qed.

Lemma reports_consents (cs : props) :
  forallb (fun c => isObject (snd c)) cs = true ->
  forall seen acc,
    reports h seen acc ->
    exists acc', foldM (index_consent h) cs acc = Normal acc' /\ reports h (seen ++ cs) acc'.
Proof.
  induction cs as [|[k c] rest IH]; intros Hobj seen acc Hacc; simpl.
  - exists acc. rewrite app_nil_r. split; [reflexivity|exact Hacc].
  - simpl in Hobj. apply andb_true_iff in Hobj. destruct Hobj as [Hc Hrest].
    destruct (reports_step seen acc k c Hc Hacc) as (acc1 & Hstep & Hacc1).
    rewrite Hstep. cbn [bind].
    destruct (IH Hrest _ _ Hacc1) as (acc' & Hfold & Hacc').
    exists acc'. split; [exact Hfold|]. rewrite <- app_assoc in Hacc'. exact Hacc'.
Qed.

Lemma reports_all_consents (ctxs : props) :
  well_formed (JObj ctxs) = true ->
  forall seen acc,
    reports h seen acc ->
    exists acc',
      fold_all_consents (fun acc0 _ _ => index_consent h acc0) (JObj ctxs) acc = Normal acc'
      /\ reports h (seen ++ all_consents (JObj ctxs)) acc'.
Proof.
  unfold fold_all_consents, all_consents, well_formed. simpl.
  induction ctxs as [|[contextId context] rest IH]; intros Hwf seen acc Hacc; simpl.
  - exists acc. rewrite app_nil_r. split; [reflexivity|exact Hacc].
  - simpl in Hwf. apply andb_true_iff in Hwf. destruct Hwf as [Hhead Hrest].
    destruct (well_formed_context_parts _ Hhead) as [Hctx Hcs].
    destruct context as [| | | | | |fields]; try discriminate. simpl in *.
    change (fun acc' consentKey consent => index_consent h acc' consentKey consent)
      with (index_consent h).
    destruct (reports_consents _ Hcs seen acc Hacc) as (acc1 & Hfold & Hacc1).
    rewrite Hfold. cbn [bind].
    destruct (IH Hrest _ _ Hacc1) as (acc' & Hfold' & Hacc').
    exists acc'. split; [exact Hfold'|]. rewrite <- app_assoc in Hacc'. exact Hacc'.
Qed.

Lemma reports_nothing : reports h [] ([], []).
Proof.
  repeat split; try (intros k r []); intros k c [].
Qed.

Lemma _normalizeConsents_run (st : state) :
  well_formed (preferences st) = true ->
  exists acc,
    reports h (all_consents (preferences st)) acc
    /\ _normalizeConsents h st
       = {| final := st; trace := [];
            result := Normal (if isEmpty (JObj (fst acc)) then JObj (snd acc)
                              else JObj (fst acc)) |}.
Proof.
  intros Hwf.
  assert (Hfold : exists acc,
             fold_all_consents (fun acc0 _ _ => index_consent h acc0) (preferences st) ([], [])
             = Normal acc
             /\ reports h (all_consents (preferences st)) acc).
  { destruct (preferences st) as [| | | | | |ctxs] eqn:Ep;
      try (exists ([], []); split; [reflexivity|exact reports_nothing]).
    exact (reports_all_consents ctxs Hwf [] ([], []) reports_nothing). }
  destruct Hfold as ([u n] & Hfold & Hacc).
  exists (u, n). split; [exact Hacc|].
  unfold _normalizeConsents. js_step. rewrite Hfold. js_step. reflexivity.
Qed.


(** X16: when the dispatches of a saveConsents call settle, at most one
    callback is called, once: on success the success callback, with the map
    _normalizeConsents computes from the store before any flag is reset; on a
    rejection the error callback, with success false and the message of the
    reason; a rejection with an undefined or null reason calls neither, since
    reading its message throws.  When the round had no flagged consent the
    state is left as it was. *)
Theorem settle_calls_one_callback (p : pending) (st : state) :
  well_formed (preferences st) = true ->
  (exists reported,
      result (_normalizeConsents h st) = Normal reported
      /\ trace (settle h p None st) = [CallSuccess (onSuccess p) reported]
      /\ result (settle h p None st) = Normal tt)
  /\ (forall reason message,
        get reason "message" = Normal message ->
        trace (settle h p (Some reason) st)
        = [CallError (onError p) (JObj [("success", JBool false); ("message", message)])])
  /\ (forall reason,
        reason = JUndefined \/ reason = JNull ->
        trace (settle h p (Some reason) st) = []
        /\ result (settle h p (Some reason) st) = Throw TypeError)
  /\ (hadUpdated p = false ->
      forall rejection, final (settle h p rejection st) = st).
Proof.
  intros Hwf.
  pose proof (_resetUpdatedStatus_clears st Hwf) as Hreset.
  split; [|split; [|split]].
  - destruct (_normalizeConsents_run st Hwf) as (acc & _ & Hrun).
    eexists. split; [rewrite Hrun; reflexivity|].
    unfold settle, seq. rewrite Hrun. cbn [result final trace emit].
    destruct (hadUpdated p).
    + rewrite Hreset. split; reflexivity.
    + split; reflexivity.
  - intros reason message Hmessage.
    unfold settle, seq, lift. rewrite Hmessage. cbn [result final trace emit].
    destruct (hadUpdated p).
    + rewrite Hreset. reflexivity.
    + reflexivity.
  - intros reason Hreason.
    unfold settle, seq, lift.
    destruct Hreason as [-> | ->]; cbn [get result final trace];
      (destruct (hadUpdated p); [rewrite Hreset|]; split; reflexivity).
  - intros Hnone rejection. rewrite (settle_final h). rewrite Hnone. reflexivity.
Qed.

End Reported.


Lemma settle_calls_one_callback_witness :
  well_formed (preferences edited) = true
  /\ forall p reason message,
       get reason "message" = Normal message ->
       trace (settle demo p (Some reason) edited)
       = [CallError (onError p) (JObj [("success", JBool false); ("message", message)])].
Proof.
  split; [reflexivity|].
  intros p. exact (proj1 (proj2 (settle_calls_one_callback demo p edited eq_refl))).
Defined.

(** ** What the loops over the consents leave alone *)

Lemma field_on_consents (g : value -> value) (context : value) (f : string) :
  f <> "consents" -> field (on_consents g context) f = field context f.
Proof.
  intros Hf. destruct context as [| | | | | |fields]; try reflexivity.
  unfold on_consents. destruct (prop fields "consents"); try reflexivity.
  unfold field. simpl. rewrite prop_assoc_set.
  apply String.eqb_neq in Hf. rewrite Hf. reflexivity.
Qed.

Lemma keys_map_entries (g : value -> value) (ps : props) :
  keys (map_entries g ps) = keys ps.
Proof.
  unfold keys, map_entries. rewrite map_map. reflexivity.
Qed.

Lemma map_entries_fixed (g : value -> value) (ps : props) :
  (forall c, In c ps -> g (snd c) = snd c) -> map_entries g ps = ps.
Proof.
  induction ps as [|[k v] rest IH]; simpl; intros Hfix; [reflexivity|].
  pose proof (Hfix (k, v) (or_introl eq_refl)) as Hhead. simpl in Hhead.
  rewrite Hhead, IH; [reflexivity|]. intros c Hc. apply Hfix. right. exact Hc.
Qed.

Lemma lookup_map_entries (g : value -> value) (k : string) (ps : props) :
  lookup k (map_entries g ps) = option_map g (lookup k ps).
Proof.
  induction ps as [|[k0 v0] rest IH]; simpl; [reflexivity|].
  destruct (String.eqb k k0); [reflexivity|exact IH].
Qed.

Lemma on_consents_fixed (g : value -> value) (context : value) :
  (forall c, In c (consents_of context) -> g (snd c) = snd c) ->
  on_consents g context = context.
Proof.
  destruct context as [| | | | | |fields]; try reflexivity.
  unfold on_consents, consents_of.
  destruct (prop fields "consents") as [| | | | | |cs] eqn:Ec; try reflexivity.
  simpl. intros Hfix. rewrite (map_entries_fixed _ _ Hfix).
  rewrite assoc_set_same; [reflexivity|].
  unfold prop in Ec. destruct (lookup "consents" fields); [subst; reflexivity|discriminate].
Qed.

Lemma on_all_consents_fixed (g : value -> value) (prefs : value) :
  (forall c, In c (all_consents prefs) -> g (snd c) = snd c) ->
  on_all_consents g prefs = prefs.
Proof.
  destruct prefs as [| | | | | |ctxs]; try reflexivity.
  unfold on_all_consents, all_consents. simpl. intros Hfix. f_equal.
  induction ctxs as [|[contextId context] rest IH]; simpl; [reflexivity|].
  simpl in Hfix. rewrite on_consents_fixed.
  - rewrite IH; [reflexivity|]. intros c Hc. apply Hfix. apply in_or_app. right. exact Hc.
  - intros c Hc. apply Hfix. apply in_or_app. left. exact Hc.
Qed.

Lemma In_on_all_consents (g : value -> value) (prefs : value) (contextId : string)
  (context : value) :
  In (contextId, context) (entries prefs) ->
  In (contextId, on_consents g context) (entries (on_all_consents g prefs)).
Proof.
  destruct prefs as [| | | | | |ctxs]; try (intros []).
  simpl. intros Hin. unfold map_entries.
  apply in_map_iff. exists (contextId, context). split; [reflexivity|exact Hin].
Qed.

Lemma keys_on_all_consents (g : value -> value) (prefs : value) :
  keys (entries (on_all_consents g prefs)) = keys (entries prefs).
Proof.
  destruct prefs as [| | | | | |ctxs]; try reflexivity.
  simpl. apply keys_map_entries.
Qed.

Lemma field_cleared (consent : value) (f : string) :
  f <> "_updated" -> field (cleared consent) f = field consent f.
Proof.
  intros Hf. unfold cleared. destruct (isUpdated consent); [|reflexivity].
  unfold field. simpl. rewrite prop_assoc_set.
  apply String.eqb_neq in Hf. rewrite Hf. reflexivity.
Qed.

Lemma field_reconciled (h : Host) (today : Z) (consent : value) (f : string) :
  f <> "status" -> f <> "_updated" ->
  field (reconciled h today consent) f = field consent f.
Proof.
  intros Hs Hu. unfold reconciled. destruct (lapsed h today consent); [|reflexivity].
  unfold field. simpl. rewrite !prop_assoc_set.
  apply String.eqb_neq in Hs, Hu. rewrite Hs, Hu. reflexivity.
Qed.

Lemma lapsed_reconciled (h : Host) (today : Z) (consent : value) :
  lapsed h today (reconciled h today consent) = false.
Proof.
  destruct (lapsed h today consent) eqn:E.
  - unfold lapsed at 1. rewrite (proj1 (reconciled_lapsed h today consent E)). reflexivity.
  - rewrite (reconciled_other h today consent E). exact E.
Qed.

(** X17: _resetUpdatedStatus changes nothing but the flags: it dispatches
    nothing, leaves the storage alone, keeps the contexts, their other fields
    and the purposes of their consents, and each consent keeps every field but
    _updated, which is no longer set; a consent that was not flagged is the
    same record as before. *)
Theorem _resetUpdatedStatus_only_clears_flags (st : state) :
  well_formed (preferences st) = true ->
  let o := _resetUpdatedStatus st in
  result o = Normal tt
  /\ trace o = []
  /\ storage (final o) = storage st
  /\ keys (entries (preferences (final o))) = keys (entries (preferences st))
  /\ (forall contextId context,
        In (contextId, context) (entries (preferences st)) ->
        exists context',
          In (contextId, context') (entries (preferences (final o)))
          /\ (forall f, f <> "consents" -> field context' f = field context f)
          /\ keys (consents_of context') = keys (consents_of context)
          /\ forall purpose,
               prop (consents_of context') purpose
               = match lookup purpose (consents_of context) with
                 | Some consent => cleared consent
                 | None => JUndefined
                 end)
  /\ (forall consent, isUpdated (cleared consent) = false)
  /\ (forall consent f, f <> "_updated" -> field (cleared consent) f = field consent f)
  /\ (forall consent, isUpdated consent = false -> cleared consent = consent).
Proof.
  intros Hwf o. subst o. rewrite (_resetUpdatedStatus_clears st Hwf).
  cbn [result trace final]. destruct st as [prefs dc sto].
  cbn [with_preferences preferences storage] in *.
  repeat split.
  - apply keys_on_all_consents.
  - intros contextId context Hin. exists (on_consents cleared context).
    split; [apply In_on_all_consents; exact Hin|].
    split; [intros f Hf; apply field_on_consents; exact Hf|].
    rewrite consents_of_on_consents. split; [apply keys_map_entries|].
    intros purpose. unfold prop. rewrite lookup_map_entries.
    destruct (lookup purpose (consents_of context)); reflexivity.
  - apply cleared_not_updated.
  - intros consent f Hf. apply field_cleared. exact Hf.
  - intros consent Hflag. unfold cleared. rewrite Hflag. reflexivity.
Qed.

Lemma _resetUpdatedStatus_only_clears_flags_witness :
  well_formed (preferences edited) = true
  /\ trace (_resetUpdatedStatus edited) = []
  /\ storage (final (_resetUpdatedStatus edited)) = storage edited.
Proof.
  split; [reflexivity|].
  pose proof (_resetUpdatedStatus_only_clears_flags edited eq_refl) as H.
  cbv zeta in H. split; [exact (proj1 (proj2 H))|exact (proj1 (proj2 (proj2 H)))].
Defined.

(** X18: after the expiry reconciler has run at an instant, no consent of
    the store is lapsed at that instant; the contexts, their other fields and
    the purposes of their consents are kept, and every consent of the store is
    the reconciled image of the one that was there: expired and flagged when
    it was lapsed, with every other field as it was, and the same record when
    it was not lapsed; a second run at the same instant changes nothing,
    writes nothing and sends nothing. *)
Theorem _updateExpiredConsents_settles (h : Host) (today : Z) (st : state) :
  well_formed (preferences st) = true ->
  let o1 := _updateExpiredConsents h today st in
  let o2 := _updateExpiredConsents h today (final o1) in
  (forall c, In c (all_consents (preferences (final o1))) -> lapsed h today (snd c) = false)
  /\ keys (entries (preferences (final o1))) = keys (entries (preferences st))
  /\ all_consents (preferences (final o1))
     = map_entries (reconciled h today) (all_consents (preferences st))
  /\ (forall contextId context,
        In (contextId, context) (entries (preferences st)) ->
        exists context',
          In (contextId, context') (entries (preferences (final o1)))
          /\ (forall f, f <> "consents" -> field context' f = field context f)
          /\ keys (consents_of context') = keys (consents_of context)
          /\ forall purpose,
               prop (consents_of context') purpose
               = match lookup purpose (consents_of context) with
                 | Some consent => reconciled h today consent
                 | None => JUndefined
                 end)
  /\ (forall consent, lapsed h today consent = true ->
        field (reconciled h today consent) "status" = JStr EXPIRED
        /\ field (reconciled h today consent) "_updated" = JBool true)
  /\ (forall consent f, f <> "status" -> f <> "_updated" ->
        field (reconciled h today consent) f = field consent f)
  /\ (forall consent, lapsed h today consent = false -> reconciled h today consent = consent)
  /\ result o2 = Normal tt
  /\ trace o2 = []
  /\ preferences (final o2) = preferences (final o1)
  /\ storage (final o2) = storage (final o1).
Proof.
  intros Hwf o1 o2.
  destruct (_updateExpiredConsents_reconciles h today st Hwf) as (_ & Hprefs & _ & _).
  fold o1 in Hprefs. cbn [preferences with_preferences] in Hprefs.
  assert (Hnone : forall c, In c (all_consents (preferences (final o1))) ->
                            lapsed h today (snd c) = false).
  { intros c Hc. rewrite Hprefs, all_consents_on_all_consents in Hc.
    unfold map_entries in Hc. apply in_map_iff in Hc. destruct Hc as (c0 & <- & _).
    apply lapsed_reconciled. }
  assert (Hwf1 : well_formed (preferences (final o1)) = true).
  { rewrite Hprefs. apply well_formed_on_all_consents; [apply reconciled_object|exact Hwf]. }
  assert (Hnever : any_lapsed h today (preferences (final o1)) = false).
  { unfold any_lapsed. apply not_true_is_false. intros Hsome.
    apply existsb_exists in Hsome. destruct Hsome as (c & Hc & Hlapsed).
    rewrite (Hnone c Hc) in Hlapsed. discriminate. }
  destruct (_updateExpiredConsents_reconciles h today (final o1) Hwf1)
    as (Hres & Hprefs2 & _ & Hquiet).
  fold o2 in Hres, Hprefs2, Hquiet. cbn [preferences with_preferences] in Hprefs2.
  destruct (Hquiet Hnever) as [Htrace Hstorage].
  split; [exact Hnone|]. split; [rewrite Hprefs; apply keys_on_all_consents|].
  split; [rewrite Hprefs; apply all_consents_on_all_consents|].
  split.
  { intros contextId context Hin. exists (on_consents (reconciled h today) context).
    rewrite Hprefs. split; [apply In_on_all_consents; exact Hin|].
    split; [intros f Hf; apply field_on_consents; exact Hf|].
    rewrite consents_of_on_consents. split; [apply keys_map_entries|].
    intros purpose. unfold prop. rewrite lookup_map_entries.
    destruct (lookup purpose (consents_of context)); reflexivity. }
  split; [intros consent Hlapsed; apply reconciled_lapsed; exact Hlapsed|].
  split; [intros consent f; apply field_reconciled|].
  split; [intros consent; apply reconciled_other|].
  split; [exact Hres|]. split; [exact Htrace|]. split; [|exact Hstorage].
  rewrite Hprefs2. apply on_all_consents_fixed.
  intros c Hc. apply reconciled_other. exact (Hnone c Hc).
Qed.

Lemma _updateExpiredConsents_settles_witness :
  well_formed (preferences declared) = true
  /\ trace (_updateExpiredConsents demo 5000000000000
              (final (_updateExpiredConsents demo 5000000000000 declared))) = [].
Proof.
  split; [reflexivity|].
  pose proof (_updateExpiredConsents_settles demo 5000000000000 declared eq_refl) as H.
  cbv zeta in H. destruct H as (_ & _ & _ & _ & _ & _ & _ & _ & Htrace & _).
  exact Htrace.
Defined.

(** ** Reading the consents *)

Section Views.

Variable h : Host.

Lemma getConsents_run (st : state) :
  well_formed (preferences st) = true ->
  (isEmpty (preferences st) = true -> well_formed (storage st) = true) ->
  getConsents h st
  = {| final := st; trace := [];
       result := Normal (all_views h (if isEmpty (preferences st)
                                      then loaded_preferences h st
                                      else preferences st)) |}.
Proof.
  intros Hwf Hstored. unfold getConsents. js_step.
  destruct (isEmpty (preferences st)) eqn:Eempty; cbn [negb].
  - destruct (getPreferences_loads h st (Hstored eq_refl)) as (loaded & Hloaded & Hor).
    rewrite Hloaded. js_step. unfold lift. rewrite Hor.
    rewrite (views_of_preferences h _ (well_formed_loaded h st (Hstored eq_refl))).
    reflexivity.
  - js_step. unfold lift.
    assert (Htruthy : js_or (preferences st) (JObj []) = preferences st).
    { unfold js_or. destruct (preferences st) as [| | | | | s |ctxs]; try discriminate.
      - simpl in *. rewrite Eempty. reflexivity.
      - reflexivity. }
    rewrite Htruthy, (views_of_preferences h _ Hwf). reflexivity.
Qed.

Lemma all_views_purposes (prefs : value) :
  map (fun v => field v "purpose") (all_views h prefs)
  = map (fun c => JStr (fst c)) (all_consents prefs).
Proof.
  unfold all_views, all_consents.
  induction (entries prefs) as [|[contextId context] rest IH]; simpl; [reflexivity|].
  rewrite !map_app, IH, map_map. f_equal.
  apply map_ext. intros c. apply (consent_view_fields h).
Qed.

Lemma all_views_statuses (prefs : value) :
  map (fun v => field v "status") (all_views h prefs)
  = map (fun c => field (snd c) "status") (all_consents prefs).
Proof.
  unfold all_views, all_consents.
  induction (entries prefs) as [|[contextId context] rest IH]; simpl; [reflexivity|].
  rewrite !map_app, IH, map_map. f_equal.
  apply map_ext. intros c. apply (consent_view_fields h).
Qed.

Lemma lookup_not_mem (k : string) (ps : props) :
  mem_key k (keys ps) = false -> lookup k ps = None.
Proof.
  unfold mem_key, keys. induction ps as [|[k0 v0] rest IH]; simpl; [reflexivity|].
  intros Hk. apply orb_false_iff in Hk. destruct Hk as [Hhead Hrest].
  rewrite Hhead. exact (IH Hrest).
Qed.

Lemma consent_view_no_consents (context : value) (c : string * value) :
  lookup "consents" (entries (consent_view h context c)) = None.
Proof.
  unfold consent_view. cbn [entries].
  rewrite lookup_assign_other by reflexivity.
  rewrite lookup_assign_other; [reflexivity|].
  apply lookup_omit. reflexivity.
Qed.

Lemma consent_view_context (context : value) (c : string * value) (f : string) :
  proper (entries context) = true ->
  mem_key f ["status"; "datatype"; "description"; "expiry_date"; "identifier";
             "purpose"; "consents"] = false ->
  field (consent_view h context c) f = field context f.
Proof.
  intros Hproper Hf. unfold mem_key in Hf. cbn [existsb] in Hf.
  repeat (apply orb_false_iff in Hf; destruct Hf as [? Hf]).
  unfold field, prop, consent_view. cbn [entries].
  rewrite lookup_assign_other
    by (apply lookup_not_mem; unfold mem_key; cbn [keys map fst existsb];
        repeat (apply orb_false_iff; split; try assumption); reflexivity).
  rewrite lookup_assign by exact (proper_omit _ _ Hproper). cbn [lookup].
  unfold omit. rewrite lookup_omit_other
    by (unfold mem_key; cbn [existsb]; apply orb_false_iff; split; [assumption|reflexivity]).
  destruct (lookup f (entries context)); reflexivity.
Qed.

Lemma consent_view_expiry (context : value) (c : string * value) :
  field (consent_view h context c) "expiry_date"
  = js_or (field (snd c) "expiry_date") (JStr "")
  /\ field (consent_view h context c) "identifier" = track_uuid h.
Proof.
  unfold consent_view, field, assign. simpl.
  rewrite !prop_assoc_set. simpl. split; reflexivity.
Qed.

Lemma expired_view_consent (today : Z) (context : value) (c : string * value) :
  expired_view h today (consent_view h context c)
  = is_str (field (snd c) "status") EXPIRED || lapsed h today (snd c).
Proof.
  unfold expired_view, lapsed.
  rewrite (proj1 (consent_view_fields h context c)).
  rewrite (proj1 (consent_view_expiry context c)).
  unfold js_or. destruct (truthy (field (snd c) "expiry_date")) eqn:E.
  - rewrite E. reflexivity.
  - cbn [truthy String.eqb negb andb]. rewrite !andb_false_r. reflexivity.
Qed.

(** X19: getConsents leaves the state alone and returns one entry per
    consent, in the order of the store, read from the preferences or, when
    they are empty, from the storage: each entry carries the purpose and the
    status of the consent, its expiry date or the empty string, the identifier
    of the client, the other fields of its context, and no consents key. *)
Theorem getConsents_lists_consents (st : state) :
  well_formed (preferences st) = true ->
  (isEmpty (preferences st) = true -> well_formed (storage st) = true) ->
  let source := if isEmpty (preferences st) then loaded_preferences h st
                else preferences st in
  exists views,
    getConsents h st = {| final := st; trace := []; result := Normal views |}
    /\ map (fun v => field v "purpose") views
       = map (fun c => JStr (fst c)) (all_consents source)
    /\ map (fun v => field v "status") views
       = map (fun c => field (snd c) "status") (all_consents source)
    /\ (forall contextId context c,
          In (contextId, context) (entries source) -> In c (consents_of context) ->
          In (consent_view h context c) views)
    /\ (forall context c,
          field (consent_view h context c) "purpose" = JStr (fst c)
          /\ field (consent_view h context c) "status" = field (snd c) "status"
          /\ field (consent_view h context c) "expiry_date"
             = js_or (field (snd c) "expiry_date") (JStr "")
          /\ field (consent_view h context c) "identifier" = track_uuid h
          /\ lookup "consents" (entries (consent_view h context c)) = None
          /\ forall f,
               proper (entries context) = true ->
               mem_key f ["status"; "datatype"; "description"; "expiry_date";
                          "identifier"; "purpose"; "consents"] = false ->
               field (consent_view h context c) f = field context f).
Proof.
  intros Hwf Hstored source. exists (all_views h source).
  split; [exact (getConsents_run st Hwf Hstored)|].
  split; [apply all_views_purposes|]. split; [apply all_views_statuses|].
  split.
  - intros contextId context c Hctx Hc. unfold all_views. apply in_flat_map.
    exists (contextId, context). split; [exact Hctx|].
    cbn [snd]. apply in_map. exact Hc.
  - intros context c.
    destruct (consent_view_fields h context c) as [Hstatus Hpurpose].
    destruct (consent_view_expiry context c) as [Hexpiry Hidentifier].
    repeat split; try assumption.
    + apply consent_view_no_consents.
    + intros f Hproper Hf. apply consent_view_context; assumption.
Qed.

(** X20: getExpiredConsents leaves the state alone and returns the entries
    of getConsents, in order, whose consent is stored as expired or is given
    with an expiry date before now: a lapsed consent is reported although the
    store still holds it as given. *)
Theorem getExpiredConsents_reports_lapsed (today : Z) (st : state) :
  well_formed (preferences st) = true ->
  (isEmpty (preferences st) = true -> well_formed (storage st) = true) ->
  let source := if isEmpty (preferences st) then loaded_preferences h st
                else preferences st in
  getExpiredConsents h today st
  = {| final := st; trace := [];
       result := Normal (filter (expired_view h today) (all_views h source)) |}
  /\ (forall contextId context c,
        In (contextId, context) (entries source) -> In c (consents_of context) ->
        (In (consent_view h context c) (filter (expired_view h today) (all_views h source))
         <-> is_str (field (snd c) "status") EXPIRED = true
             \/ lapsed h today (snd c) = true)).
Proof.
  intros Hwf Hstored source. split.
  - unfold getExpiredConsents.
    rewrite (seq_normal _ _ _ _ _ (getConsents_run st Hwf Hstored)). unfold lift.
    fold source.
    rewrite (filterM_filter _ (expired_view h today)); [reflexivity|].
    intros x Hin. pose proof (all_views_objects h _ _ Hin) as Hx.
    rewrite (get_object _ _ Hx). simpl. unfold expired_view.
    destruct (is_str (field x "status") EXPIRED); [reflexivity|].
    apply _isExpired_object. exact Hx.
  - intros contextId context c Hctx Hc. rewrite filter_In, expired_view_consent.
    rewrite orb_true_iff. split.
    + intros [_ Hexpired]. exact Hexpired.
    + intros Hexpired. split; [|exact Hexpired].
      unfold all_views. apply in_flat_map.
      exists (contextId, context). split; [exact Hctx|].
      cbn [snd]. apply in_map. exact Hc.
Qed.

End Views.

Lemma getConsents_lists_consents_witness :
  well_formed (preferences edited) = true
  /\ exists views,
       getConsents demo edited = {| final := edited; trace := []; result := Normal views |}
       /\ map (fun v => field v "purpose") views = [JStr "marketing"; JStr "analytics"].
Proof.
  split; [reflexivity|].
  destruct (getConsents_lists_consents demo edited eq_refl (fun E => eq_refl))
    as (views & Hrun & Hpurposes & _).
  exists views. split; [exact Hrun|exact Hpurposes].
Defined.

Lemma getExpiredConsents_reports_lapsed_witness :
  well_formed (preferences declared) = true
  /\ getExpiredConsents demo 5000000000000 declared
     = {| final := declared; trace := [];
          result := Normal (filter (expired_view demo 5000000000000)
                              (all_views demo (preferences declared))) |}.
Proof.
  split; [reflexivity|].
  exact (proj1 (getExpiredConsents_reports_lapsed demo 5000000000000 declared
                  eq_refl (fun E => eq_refl))).
Defined.

(** ** Persisting and reloading *)

Lemma json_cons (k : string) (x : value) (rest : props) :
  entries (json (JObj ((k, x) :: rest)))
  = match x with
    | JUndefined => entries (json (JObj rest))
    | _ => (k, json x) :: entries (json (JObj rest))
    end.
Proof.
  destruct x; reflexivity.
Qed.

Lemma json_object (ps : props) : json (JObj ps) = JObj (entries (json (JObj ps))).
Proof.
  reflexivity.
Qed.

Lemma lookup_json_absent (k : string) (ps : props) :
  lookup k ps = None -> lookup k (entries (json (JObj ps))) = None.
Proof.
  induction ps as [|[k0 v0] rest IH]; [reflexivity|].
  cbn [lookup]. destruct (String.eqb k k0) eqn:E; [discriminate|].
  intros Hrest. rewrite json_cons.
  destruct v0; try exact (IH Hrest); cbn [lookup]; rewrite E; exact (IH Hrest).
Qed.

Lemma lookup_json (k : string) (ps : props) :
  proper ps = true ->
  lookup k (entries (json (JObj ps)))
  = match lookup k ps with
    | Some JUndefined | None => None
    | Some v => Some (json v)
    end.
Proof.
  induction ps as [|[k0 v0] rest IH]; [reflexivity|].
  intros Hp. cbn [proper] in Hp. apply andb_true_iff in Hp. destruct Hp as [Hfresh Hrest].
  rewrite json_cons. cbn [lookup]. destruct (String.eqb k k0) eqn:E.
  - apply String.eqb_eq in E. subst k0.
    destruct v0; cbn [lookup]; rewrite ?String.eqb_refl; try reflexivity.
    apply lookup_json_absent. apply lookup_not_mem.
    apply negb_true_iff in Hfresh. exact Hfresh.
  - destruct v0; cbn [lookup]; rewrite ?E; exact (IH Hrest).
Qed.

Lemma prop_json (k : string) (ps : props) :
  proper ps = true -> prop (entries (json (JObj ps))) k = json (prop ps k).
Proof.
  intros Hp. unfold prop. rewrite (lookup_json k ps Hp).
  destruct (lookup k ps) as [[]|]; reflexivity.
Qed.

Lemma json_map_entries (ps : props) :
  forallb (fun e => isObject (snd e)) ps = true ->
  entries (json (JObj ps)) = map_entries json ps.
Proof.
  induction ps as [|[k0 v0] rest IH]; [reflexivity|].
  cbn [forallb snd]. intros Hobj. apply andb_true_iff in Hobj. destruct Hobj as [Hhead Hrest].
  rewrite json_cons. destruct v0; try discriminate.
  cbn [map_entries map fst snd]. f_equal. exact (IH Hrest).
Qed.

Lemma json_not_string (v : value) : isString (json v) = isString v.
Proof.
  destruct v; reflexivity.
Qed.

Lemma json_keeps_object (v : value) : isObject v = true -> isObject (json v) = true.
Proof.
  destruct v; try discriminate. reflexivity.
Qed.

Lemma consents_of_json (context : value) :
  well_formed_context context = true ->
  proper (entries context) = true ->
  consents_of (json context) = map_entries json (consents_of context).
Proof.
  intros Hwf Hp. destruct (well_formed_context_parts _ Hwf) as [Hctx Hcs].
  destruct context as [| | | | | |fields]; try discriminate.
  rewrite json_object. cbn [consents_of entries] in *.
  rewrite (prop_json _ _ Hp).
  destruct (prop fields "consents") as [| | | | | |cs]; try reflexivity.
  apply json_map_entries. exact Hcs.
Qed.

Lemma well_formed_objects (ctxs : props) :
  well_formed (JObj ctxs) = true -> forallb (fun e => isObject (snd e)) ctxs = true.
Proof.
  unfold well_formed. cbn [entries]. intros Hwf.
  apply forallb_forall. intros e He.
  rewrite forallb_forall in Hwf.
  exact (proj1 (well_formed_context_parts _ (Hwf e He))).
Qed.

Lemma all_consents_json (prefs : value) :
  well_formed prefs = true ->
  forallb (fun context => proper (entries (snd context))) (entries prefs) = true ->
  all_consents (json prefs) = map_entries json (all_consents prefs).
Proof.
  intros Hwf Hp. destruct prefs as [| | | | | |ctxs]; try reflexivity.
  unfold all_consents. rewrite json_object. cbn [entries] in *.
  rewrite (json_map_entries _ (well_formed_objects _ Hwf)).
  unfold well_formed in Hwf. cbn [entries] in Hwf.
  induction ctxs as [|[contextId context] rest IH]; [reflexivity|].
  cbn [forallb snd] in Hwf, Hp.
  apply andb_true_iff in Hwf. destruct Hwf as [Hhead Hrest].
  apply andb_true_iff in Hp. destruct Hp as [Hphead Hprest].
  cbn [map_entries map flat_map fst snd].
  rewrite (consents_of_json _ Hhead Hphead).
  unfold map_entries in *. rewrite map_app. f_equal. exact (IH Hrest Hprest).
Qed.

Lemma well_formed_json (prefs : value) :
  well_formed prefs = true ->
  forallb (fun context => proper (entries (snd context))) (entries prefs) = true ->
  well_formed (json prefs) = true.
Proof.
  intros Hwf Hp. destruct prefs as [| | | | | |ctxs]; try reflexivity.
  unfold well_formed. rewrite json_object. cbn [entries] in *.
  rewrite (json_map_entries _ (well_formed_objects _ Hwf)).
  unfold well_formed in Hwf. cbn [entries] in Hwf.
  apply forallb_forall. intros e He. unfold map_entries in He.
  apply in_map_iff in He. destruct He as ([contextId context] & <- & Hin).
  cbn [fst snd].
  rewrite forallb_forall in Hwf, Hp.
  pose proof (Hwf _ Hin) as Hctx. pose proof (Hp _ Hin) as Hproper. cbn [snd] in *.
  unfold well_formed_context.
  rewrite (consents_of_json _ Hctx Hproper).
  destruct (well_formed_context_parts _ Hctx) as [Hobj Hcs].
  unfold well_formed_context in Hctx.
  apply andb_true_iff in Hctx. destruct Hctx as [_ Hstr].
  rewrite (json_keeps_object _ Hobj). cbn [andb].
  apply andb_true_iff. split.
  - apply forallb_forall. intros c Hc. unfold map_entries in Hc.
    apply in_map_iff in Hc. destruct Hc as (c0 & <- & Hc0). cbn [snd].
    apply json_keeps_object. rewrite forallb_forall in Hcs. exact (Hcs _ Hc0).
  - destruct context as [| | | | | |fields]; try discriminate.
    unfold field in *. rewrite json_object. cbn [entries] in *.
    rewrite (prop_json _ _ Hproper), json_not_string. exact Hstr.
Qed.

Lemma proper_on_all_consents (g : value -> value) (prefs : value) :
  forallb (fun context => proper (entries (snd context))) (entries prefs) = true ->
  forallb (fun context => proper (entries (snd context)))
          (entries (on_all_consents g prefs)) = true.
Proof.
  intros Hp. rewrite entries_on_all_consents.
  apply forallb_forall. intros e He. unfold map_entries in He.
  apply in_map_iff in He. destruct He as ([contextId context] & <- & Hin).
  cbn [fst snd]. rewrite forallb_forall in Hp. pose proof (Hp _ Hin) as Hproper.
  cbn [snd] in Hproper.
  destruct context as [| | | | | |fields]; try exact Hproper.
  unfold on_consents. destruct (prop fields "consents"); try exact Hproper.
  cbn [entries] in *. apply proper_assoc_set. exact Hproper.
Qed.

Lemma map_entries_compose (f g : value -> value) (ps : props) :
  map_entries f (map_entries g ps) = map_entries (fun v => f (g v)) ps.
Proof.
  unfold map_entries. rewrite map_map. reflexivity.
Qed.

Lemma persisted_object (h : Host) (consent : value) : isObject (persisted h consent) = true.
Proof.
  reflexivity.
Qed.

Lemma proper_persisted (h : Host) (consent : value) :
  proper (entries consent) = true -> proper (entries (persisted h consent)) = true.
Proof.
  intros Hp. unfold persisted. cbn [entries]. apply proper_omit. apply proper_assoc_set.
  destruct (negb (isEmpty (field consent "expiry_date"))); [apply proper_assoc_set|];
    exact Hp.
Qed.

Lemma persisted_expiry (h : Host) (consent : value) :
  field (persisted h consent) "expiry_date"
  = if isEmpty (field consent "expiry_date") then field consent "expiry_date"
    else formatDate h (field consent "expiry_date").
Proof.
  unfold persisted, field at 1, prop. cbn [entries].
  rewrite lookup_omit_other by reflexivity.
  rewrite lookup_other_assoc_set by discriminate.
  destruct (isEmpty (field consent "expiry_date")); cbn [negb].
  - reflexivity.
  - rewrite lookup_assoc_set. reflexivity.
Qed.

Lemma field_revived (h : Host) (consent : value) :
  field (revived h consent) "identifier" = track_uuid h
  /\ field (revived h consent) "expiry_date"
     = (if isEmpty (field consent "expiry_date") then field consent "expiry_date"
        else match dayjsFormat h (field consent "expiry_date") with
             | Some t => JNum t
             | None => JNaN
             end)
  /\ forall f, f <> "identifier" -> f <> "expiry_date" ->
       lookup f (entries (revived h consent)) = lookup f (entries consent).
Proof.
  unfold field at 1 2. unfold revived, prop. cbn [entries]. split; [|split].
  - rewrite lookup_assoc_set. reflexivity.
  - rewrite lookup_other_assoc_set by discriminate.
    destruct (isEmpty (field consent "expiry_date")); cbn [negb].
    + reflexivity.
    + rewrite lookup_assoc_set. reflexivity.
  - intros f Hid Hexpiry. rewrite (lookup_other_assoc_set _ _ _ _ Hid).
    destruct (negb (isEmpty (field consent "expiry_date"))); [|reflexivity].
    apply lookup_other_assoc_set. exact Hexpiry.
Qed.

(** X21: what _savePreferences writes, getPreferences reads back: the same
    purposes in the same order, each consent carrying the identifier of the
    client and no _updated flag; its expiry date is formatted on the way out
    and parsed on the way in when it is a non-empty string, and a numeric date
    comes back as it was; every other field comes back as JSON keeps it. *)
Theorem persisted_preferences_reload (h : Host) (st : state) :
  isLocalStorageAccessible h = true ->
  isEmpty (preferences st) = false ->
  well_formed (preferences st) = true ->
  forallb (fun context => proper (entries (snd context))) (entries (preferences st)) = true ->
  let reload := fun consent => revived h (json (persisted h consent)) in
  exists loaded,
    getPreferences h (final (_savePreferences h st)) = Normal loaded
    /\ all_consents (js_or loaded (JObj []))
       = map_entries reload (all_consents (preferences st))
    /\ keys (all_consents (js_or loaded (JObj []))) = keys (all_consents (preferences st))
    /\ forall consent,
         proper (entries consent) = true ->
         field (reload consent) "identifier" = track_uuid h
         /\ lookup "_updated" (entries (reload consent)) = None
         /\ field (reload consent) "expiry_date"
            = (let written :=
                 json (if isEmpty (field consent "expiry_date")
                       then field consent "expiry_date"
                       else formatDate h (field consent "expiry_date")) in
               if isEmpty written then written
               else match dayjsFormat h written with
                    | Some t => JNum t
                    | None => JNaN
                    end)
         /\ (forall n, field consent "expiry_date" = JNum n ->
                       field (reload consent) "expiry_date" = JNum n)
         /\ (forall f, f <> "identifier" -> f <> "expiry_date" -> f <> "_updated" ->
                       field (reload consent) f = json (field consent f)).
Proof.
  intros Haccess Hsome Hwf Hproper reload.
  pose (written := on_all_consents (persisted h) (preferences st)).
  assert (Hwritten : well_formed written = true).
  { apply well_formed_on_all_consents; [intros v _; apply persisted_object|exact Hwf]. }
  assert (Hpw : forallb (fun context => proper (entries (snd context))) (entries written)
                = true).
  { apply proper_on_all_consents. exact Hproper. }
  assert (Hrun : final (_savePreferences h st) = with_storage (json written) st).
  { rewrite (_savePreferences_run h st Hwf), Haccess, Hsome. reflexivity. }
  rewrite Hrun.
  assert (Hstored : well_formed (storage (with_storage (json written) st)) = true).
  { destruct st as [prefs dc sto]. cbn [with_storage storage].
    exact (well_formed_json _ Hwritten Hpw). }
  destruct (getPreferences_loads h _ Hstored) as (loaded & Hloaded & Hor).
  exists loaded. split; [exact Hloaded|].
  assert (Hall : all_consents (js_or loaded (JObj []))
                 = map_entries reload (all_consents (preferences st))).
  { rewrite Hor. unfold loaded_preferences. rewrite Haccess.
    assert (Htruthy : truthy (storage (with_storage (json written) st)) = true).
    { destruct st as [prefs dc sto]. cbn [with_storage storage preferences] in *.
      subst written. destruct prefs as [| | | | | s|ctxs]; try discriminate.
      - cbn in *. rewrite Hsome. reflexivity.
      - reflexivity. }
    rewrite Htruthy. cbn [andb].
    rewrite all_consents_on_all_consents.
    destruct st as [prefs dc sto]. cbn [with_storage storage preferences] in *.
    rewrite (all_consents_json _ Hwritten Hpw). subst written.
    rewrite all_consents_on_all_consents, !map_entries_compose. reflexivity. }
  split; [exact Hall|]. split; [rewrite Hall; apply keys_map_entries|].
  intros consent Hp. subst reload. cbv beta.
  pose proof (proper_persisted h consent Hp) as Hpp.
  destruct (field_revived h (json (persisted h consent))) as (Hid & Hexpiry & Hother).
  assert (Hjson : forall f, field (json (persisted h consent)) f
                            = json (field (persisted h consent) f)).
  { intros f. unfold field. change (json (persisted h consent))
      with (json (JObj (entries (persisted h consent)))).
    apply prop_json. exact Hpp. }
  assert (Hdate : field (revived h (json (persisted h consent))) "expiry_date"
                  = (let written0 :=
                       json (if isEmpty (field consent "expiry_date")
                             then field consent "expiry_date"
                             else formatDate h (field consent "expiry_date")) in
                     if isEmpty written0 then written0
                     else match dayjsFormat h written0 with
                          | Some t => JNum t
                          | None => JNaN
                          end)).
  { rewrite Hexpiry, Hjson, persisted_expiry. reflexivity. }
  split; [exact Hid|]. split.
  { rewrite Hother by discriminate.
    change (json (persisted h consent)) with (json (JObj (entries (persisted h consent)))).
    rewrite (lookup_json _ _ Hpp).
    rewrite (proj1 (persisted_fields h consent)). reflexivity. }
  split; [exact Hdate|]. split.
  { intros n Hn. rewrite Hdate, Hn. reflexivity. }
  intros f Hid' Hexpiry' Hflag. unfold field at 1, prop.
  rewrite (Hother f Hid' Hexpiry'). fold (prop (entries (json (persisted h consent))) f).
  fold (field (json (persisted h consent)) f). rewrite Hjson.
  rewrite (proj2 (proj2 (persisted_fields h consent)) f Hflag Hid' Hexpiry'). reflexivity.
Qed.

Lemma persisted_preferences_reload_witness :
  isLocalStorageAccessible demo = true
  /\ isEmpty (preferences edited) = false
  /\ well_formed (preferences edited) = true
  /\ forallb (fun context => proper (entries (snd context))) (entries (preferences edited))
     = true
  /\ exists loaded,
       getPreferences demo (final (_savePreferences demo edited)) = Normal loaded
       /\ keys (all_consents (js_or loaded (JObj []))) = ["marketing"; "analytics"].
Proof.
  repeat (split; [reflexivity|]).
  destruct (persisted_preferences_reload demo edited eq_refl eq_refl eq_refl eq_refl)
    as (loaded & Hloaded & _ & Hkeys & _).
  exists loaded. split; [exact Hloaded|exact Hkeys].
Defined.

(** ** Starting with nothing stored *)

Lemma getPreferences_nothing (h : Host) (st : state) :
  isLocalStorageAccessible h = false \/ truthy (storage st) = false ->
  getPreferences h st = Normal JNull.
Proof.
  intros Hnothing. unfold getPreferences.
  destruct (isLocalStorageAccessible h); [|reflexivity]. cbn [negb].
  destruct Hnothing as [Hoff|Hfalsy]; [discriminate|].
  unfold js_or. rewrite Hfalsy. reflexivity.
Qed.

(** X22: on a browser with nothing stored, or whose storage is not
    accessible, configure starts from empty preferences and a default context
    built from the host name and a fresh id; it writes nothing, sends nothing,
    and calls the expired-consents callback once, with an empty list. *)
Theorem configure_starts_empty (h : Host) (hostname uuid : value) (today : Z) (st0 : state) :
  isLocalStorageAccessible h = false \/ truthy (storage st0) = false ->
  configure h hostname uuid today st0
  = {| final := {| preferences := JObj [];
                   defaultContext :=
                     JObj [ ("brand", hostname); ("domain_name", hostname);
                            ("collection_type", hostname);
                            ("collection_point_id", hostname);
                            ("context_id", uuid); ("consents", JObj []) ];
                   storage := storage st0 |};
       trace := [CallExpired (expiredConsentsCallback h) []];
       result := Normal tt |}.
Proof.
  intros Hnothing.
  pose (st1 := {| preferences := JUndefined;
                  defaultContext :=
                    JObj [ ("brand", hostname); ("domain_name", hostname);
                           ("collection_type", hostname);
                           ("collection_point_id", hostname);
                           ("context_id", uuid); ("consents", JObj []) ];
                  storage := storage st0 |}).
  pose (st2 := with_preferences (JObj []) st1).
  assert (Hst1 : getPreferences h st1 = Normal JNull).
  { apply getPreferences_nothing. exact Hnothing. }
  assert (Hst2 : getPreferences h st2 = Normal JNull).
  { apply getPreferences_nothing. exact Hnothing. }
  assert (Hreconcile : _updateExpiredConsents h today st2
                       = {| final := st2; trace := []; result := Normal tt |}).
  { unfold _updateExpiredConsents. js_step. cbn [st2 with_preferences preferences isEmpty negb].
    js_step. reflexivity. }
  assert (Hviews : getConsents h st2 = {| final := st2; trace := []; result := Normal [] |}).
  { unfold getConsents. js_step. cbn [st2 with_preferences preferences isEmpty negb].
    fold st2. rewrite Hst2. js_step. reflexivity. }
  assert (Hexpired : getExpiredConsents h today st2
                     = {| final := st2; trace := []; result := Normal [] |}).
  { unfold getExpiredConsents. rewrite (seq_normal _ _ _ _ _ Hviews). reflexivity. }
  unfold configure. js_step. cbv zeta. js_step. fold st1.
  rewrite Hst1. js_step. js_step.
  change (with_preferences (js_or JNull (JObj [])) st1) with st2.
  rewrite (seq_normal _ _ _ _ _ Hreconcile), (seq_normal _ _ _ _ _ Hexpired).
  reflexivity.
Qed.

Lemma configure_starts_empty_witness :
  (isLocalStorageAccessible demo = false \/ truthy (storage fresh) = false)
  /\ trace (configure demo (JStr "example.com") (JStr "ctx-0") 1700000000000 fresh)
     = [CallExpired (expiredConsentsCallback demo) []].
Proof.
  split; [right; reflexivity|].
  rewrite (configure_starts_empty demo (JStr "example.com") (JStr "ctx-0") 1700000000000
             fresh (or_intror eq_refl)).
  reflexivity.
Defined.

(** ** Declaring a consent and reading it back *)

(** X23: after addConsents has declared a new purpose (not a name that
    objects inherit) in a stored context named by a string,
    getConsentExpiryDate of that context and purpose returns the expiry date
    addConsents stored when that is truthy, and null otherwise: when the input
    had no date, when it did not parse, or when it parsed to the instant 0;
    the answer for every other purpose of the context is as before. *)
Theorem addConsents_then_getConsentExpiryDate (h : Host) (key : string)
  (fields ctxs ctx cs : props) (st : state) :
  let contextId := toPropertyKey (resolved_context st fields) in
  isString (resolved_context st fields) = true ->
  inherited key = false ->
  contextId <> "" -> key <> "" ->
  isObject (defaultContext st) = true ->
  preferences st = JObj ctxs ->
  prop ctxs contextId = JObj ctx ->
  prop ctx "consents" = JObj cs ->
  lookup key cs = None ->
  let st1 := final (addConsents h [(key, fields)] st) in
  result (addConsents h [(key, fields)] st) = Normal tt
  /\ getConsentExpiryDate contextId key st1
     = {| final := st1; trace := [];
          result := Normal (js_or (normalized_expiry h fields) JNull) |}
  /\ (forall k, k <> key ->
      result (getConsentExpiryDate contextId k st1)
      = result (getConsentExpiryDate contextId k st)).
Proof.
  intros contextId Hstring Hplain Hcontext Hkey Hdefault Hprefs Hctx Hcs Hnew st1.
  assert (Hnone : isEmpty (prop cs key) = true) by (unfold prop; rewrite Hnew; reflexivity).
  pose proof (addConsent_new h key fields ctxs ctx cs st Hdefault Hprefs Hctx Hcs Hnone)
    as Hround. fold contextId in Hround.
  assert (Hrun : addConsents h [(key, fields)] st = addConsent h key fields st).
  { unfold addConsents. cbn [is_nil for_each fst snd].
    rewrite (seq_normal _ _ _ _ _ Hround). symmetry. exact Hround. }
  subst st1. rewrite Hrun, Hround. cbn [result final].
  split; [reflexivity|].
  pose (record := JObj (new_record h st key fields)).
  assert (Hread : forall k, k <> "" ->
    getConsentExpiryDate contextId k
      (with_preferences (with_consent contextId key record ctxs ctx cs) st)
    = {| final := with_preferences (with_consent contextId key record ctxs ctx cs) st;
         trace := [];
         result := Normal (js_or (field (prop (assoc_set key record cs) k) "expiry_date")
                                 JNull) |}).
  { intros k Hk.
    apply (getConsentExpiryDate_run contextId k
             (assoc_set contextId
                (JObj (assoc_set "consents" (JObj (assoc_set key record cs)) ctx)) ctxs)
             (assoc_set "consents" (JObj (assoc_set key record cs)) ctx)
             (assoc_set key record cs)); try assumption.
    - destruct st; reflexivity.
    - rewrite prop_assoc_set, String.eqb_refl. reflexivity.
    - rewrite prop_assoc_set. reflexivity. }
  split.
  - fold record. rewrite (Hread key Hkey).
    rewrite prop_assoc_set, String.eqb_refl. subst record. unfold field. cbn [entries].
    unfold new_record. rewrite prop_assoc_set. reflexivity.
  - intros k Hk. fold record.
    destruct (String.eqb k "") eqn:Eempty.
    + apply String.eqb_eq in Eempty. subst k. unfold getConsentExpiryDate.
      rewrite String.eqb_refl, orb_true_r. reflexivity.
    + apply String.eqb_neq in Eempty. rewrite (Hread k Eempty).
      rewrite (getConsentExpiryDate_run contextId k ctxs ctx cs st
                 Hcontext Eempty Hprefs Hctx Hcs).
      cbn [result]. rewrite prop_assoc_set.
      apply String.eqb_neq in Hk. rewrite Hk. reflexivity.
Qed.

Lemma addConsents_then_getConsentExpiryDate_witness :
  isString (resolved_context declared [("expiry_date", JStr "2000-01-01")]) = true
  /\ inherited "ads" = false
  /\ lookup "ads" (entries (prop (entries (prop (entries (preferences declared)) "ctx-0"))
                              "consents")) = None
  /\ result (getConsentExpiryDate "ctx-0" "ads"
               (final (addConsents demo [("ads", [("expiry_date", JStr "2000-01-01")])]
                         declared)))
     = Normal (JNum 946684800000).
Proof.
  split; [reflexivity|]. split; [reflexivity|]. split; [reflexivity|].
  refine (f_equal result
            (proj1 (proj2
               (addConsents_then_getConsentExpiryDate demo "ads"
                  [("expiry_date", JStr "2000-01-01")]
                  (entries (preferences declared))
                  (entries (prop (entries (preferences declared)) "ctx-0"))
                  (entries (prop (entries (prop (entries (preferences declared)) "ctx-0"))
                                 "consents"))
                  declared eq_refl eq_refl _ _ eq_refl eq_refl eq_refl eq_refl eq_refl))));
    discriminate.
Defined.

(** ** Time *)

(** X24: expiry is monotone in time: a consent that _isExpired finds expired
    at one instant is found expired at every later instant. *)
Theorem _isExpired_monotone (h : Host) (today later : Z) (consent : value) :
  today <= later ->
  _isExpired h today consent = Normal true ->
  _isExpired h later consent = Normal true.
Proof.
  intros Hlater. unfold _isExpired.
  destruct (get consent "status") as [status|e]; cbn [bind]; [|discriminate].
  destruct (is_str status GIVEN); [|discriminate].
  destruct (get consent "expiry_date") as [expiry_date|e]; cbn [bind]; [|discriminate].
  destruct (truthy expiry_date); cbn [andb]; [|discriminate].
  unfold isBefore. destruct (dayjs h expiry_date) as [t|]; [|discriminate].
  intros Hbefore. injection Hbefore as Hbefore. apply Z.ltb_lt in Hbefore.
  f_equal. apply Z.ltb_lt. lia.
Qed.

Lemma _isExpired_monotone_witness :
  1700000000000 <= 5000000000000
  /\ _isExpired demo 5000000000000
       (JObj [("status", JStr "given"); ("expiry_date", JNum 946684800000)])
     = Normal true.
Proof.
  split; [lia|].
  apply (_isExpired_monotone demo 1700000000000 5000000000000); [lia|reflexivity].
Defined.

(** ** Declaring a consent in a context of its own *)

Lemma addContext_new (uuid id : string) (context ctxs : props) (st : state) :
  context <> [] ->
  prop context "context_id" = JStr id ->
  preferences st = JObj ctxs ->
  lookup id ctxs = None ->
  addContext uuid context st
  = {| final := with_preferences
                  (JObj (ctxs ++ [(id, JObj (assign (assign [] context)
                                               [ ("context_id", JStr id);
                                                 ("consents", JObj []) ]))])%list) st;
       trace := [];
       result := Normal (JStr id) |}.
Proof.
  intros Hne Hid Hprefs Hnew. unfold addContext.
  assert (Hfull : isEmpty (JObj context) = false)
    by (destruct context; [contradiction|reflexivity]).
  rewrite Hfull, Hid. cbn [isString toPropertyKey]. js_step. rewrite Hprefs. cbn [get].
  js_step.
  assert (Hundef : prop ctxs id = JUndefined) by (unfold prop; rewrite Hnew; reflexivity).
  rewrite Hundef. cbn [truthy put]. js_step. js_step.
  rewrite (assoc_set_fresh _ _ _ Hnew). reflexivity.
Qed.

(** X25: a consent addressed to a context id, a non-empty string, that the
    preferences do not hold makes addConsents throw; once addContext has
    stored a context under that id, the same call succeeds, dispatches nothing
    and leaves the consent as the only one of the new context, the contexts
    stored before being untouched.  The id and the purpose are not names that
    objects inherit. *)
Theorem addContext_then_addConsents (h : Host) (uuid id key : string)
  (context fields ctxs : props) (st : state) :
  context <> [] -> id <> "" ->
  inherited id = false -> inherited key = false ->
  prop context "context_id" = JStr id ->
  prop fields "context_id" = JStr id ->
  isObject (defaultContext st) = true ->
  preferences st = JObj ctxs ->
  lookup id ctxs = None ->
  result (addConsents h [(key, fields)] st) = Throw TypeError
  /\ let st1 := final (addContext uuid context st) in
     let o := addConsents h [(key, fields)] st1 in
     result o = Normal tt
     /\ trace o = []
     /\ consents_of (prop (entries (preferences (final o))) id)
        = [(key, JObj (new_record h st1 key fields))]
     /\ (forall k, k <> id -> lookup k (entries (preferences (final o))) = lookup k ctxs).
Proof.
  intros Hne Hid Hplain Hpurpose Hcontext Hfields Hdefault Hprefs Hnew.
  assert (Htruthy : truthy (prop fields "context_id") = true).
  { rewrite Hfields. cbn [truthy]. apply String.eqb_neq in Hid. rewrite Hid. reflexivity. }
  split.
  { assert (Hnone : lookup (toPropertyKey (prop fields "context_id")) ctxs = None)
      by (rewrite Hfields; exact Hnew).
    assert (Hundef : prop ctxs (toPropertyKey (prop fields "context_id")) = JUndefined)
      by (unfold prop at 1; rewrite Hnone; reflexivity).
    assert (Hround : addConsent h key fields st
                     = {| final := st; trace := []; result := Throw TypeError |}).
    { unfold addConsent. rewrite Htruthy. cbn [negb]. js_step. js_step.
      rewrite Hprefs. cbn [get]. js_step. rewrite Hundef. cbn [truthy].
      js_step. js_step. cbn [get]. reflexivity. }
    unfold addConsents. cbn [is_nil for_each fst snd]. unfold seq. rewrite Hround.
    reflexivity. }
  rewrite (addContext_new uuid id context ctxs st Hne Hcontext Hprefs Hnew).
  cbn [final].
  set (saved := assign (assign [] context) [("context_id", JStr id); ("consents", JObj [])]).
  set (st1 := with_preferences (JObj (ctxs ++ [(id, JObj saved)])%list) st).
  assert (Hresolved : toPropertyKey (resolved_context st1 fields) = id).
  { unfold resolved_context. rewrite Htruthy, Hfields. reflexivity. }
  assert (Hround :
    addConsent h key fields st1
    = {| final := with_preferences
                    (with_consent id key (JObj (new_record h st1 key fields))
                       (ctxs ++ [(id, JObj saved)])%list saved []) st1;
         trace := []; result := Normal tt |}).
  { rewrite <- Hresolved at 1.
    apply (addConsent_new h key fields (ctxs ++ [(id, JObj saved)])%list saved [] st1).
    - destruct st; exact Hdefault.
    - destruct st; reflexivity.
    - rewrite Hresolved. unfold prop. rewrite lookup_app, Hnew. cbn [lookup].
      rewrite String.eqb_refl. reflexivity.
    - subst saved. rewrite prop_assign by reflexivity. reflexivity.
    - reflexivity. }
  assert (Hrun : addConsents h [(key, fields)] st1 = addConsent h key fields st1).
  { unfold addConsents. cbn [is_nil for_each fst snd].
    rewrite (seq_normal _ _ _ _ _ Hround). symmetry. exact Hround. }
  cbv zeta. rewrite Hrun, Hround. cbn [result trace final].
  split; [reflexivity|]. split; [reflexivity|]. split.
  - destruct st as [prefs dc sto]. unfold st1, with_preferences, with_consent.
    cbn [preferences entries].
    rewrite prop_assoc_set, String.eqb_refl. cbn [consents_of].
    rewrite prop_assoc_set. reflexivity.
  - intros k Hk. destruct st as [prefs dc sto]. unfold st1, with_preferences.
    cbn [preferences]. rewrite (lookup_with_consent _ _ _ _ _ _ _ Hk).
    rewrite lookup_app. destruct (lookup k ctxs); [reflexivity|].
    cbn [lookup]. apply String.eqb_neq in Hk. rewrite Hk. reflexivity.
Qed.

Lemma addContext_then_addConsents_witness :
  lookup "ctx-1" (entries (preferences declared)) = None
  /\ inherited "ctx-1" = false /\ inherited "ads" = false
  /\ result (addConsents demo [("ads", [("context_id", JStr "ctx-1")])] declared)
     = Throw TypeError
  /\ result (addConsents demo [("ads", [("context_id", JStr "ctx-1")])]
               (final (addContext "uuid-9"
                         [("brand", JStr "shop"); ("context_id", JStr "ctx-1")] declared)))
     = Normal tt.
Proof.
  split; [reflexivity|]. split; [reflexivity|]. split; [reflexivity|].
  assert (H := addContext_then_addConsents demo "uuid-9" "ctx-1" "ads"
                 [("brand", JStr "shop"); ("context_id", JStr "ctx-1")]
                 [("context_id", JStr "ctx-1")]
                 (entries (preferences declared)) declared).
  cbv zeta in H.
  assert (H1 : [("brand", JStr "shop"); ("context_id", JStr "ctx-1")] <> [])
    by discriminate.
  assert (H2 : "ctx-1" <> "") by discriminate.
  specialize (H H1 H2 eq_refl eq_refl eq_refl eq_refl eq_refl eq_refl eq_refl).
  split; [exact (proj1 H)|exact (proj1 (proj2 H))].
Defined.

(** ** A call of addConsents, round by round *)

Lemma addConsent_resolves_stored (st : state) (fields ctxs ctx : props) :
  (truthy (prop fields "context_id") = false -> isObject (defaultContext st) = true) ->
  preferences st = JObj ctxs ->
  prop ctxs (toPropertyKey (resolved_context st fields)) = JObj ctx ->
  (if negb (truthy (prop fields "context_id")) then
     seq read (fun st =>
     seq (lift (get (defaultContext st) "context_id")) (fun contextId =>
     seq (lift (get (preferences st) (toPropertyKey contextId))) (fun found =>
     seq (if negb (truthy found) then
            seq (lift (put (preferences st) (toPropertyKey contextId) (defaultContext st)))
                (fun prefs => write (with_preferences prefs st))
          else ret tt) (fun _ =>
     ret contextId))))
   else ret (prop fields "context_id")) st
  = {| final := with_preferences (JObj ctxs) st; trace := [];
       result := Normal (resolved_context st fields) |}.
Proof.
  intros Hdefault Hprefs Hctx.
  assert (Hsame : with_preferences (JObj ctxs) st = st).
  { destruct st as [prefs dc sto]. cbn [preferences] in Hprefs. subst prefs. reflexivity. }
  rewrite Hsame. unfold resolved_context in *.
  destruct (truthy (prop fields "context_id")); cbn [negb]; [reflexivity|].
  js_step. rewrite (get_object _ _ (Hdefault eq_refl)). js_step.
  rewrite Hprefs. cbn [get]. js_step.
  rewrite Hctx. cbn [truthy negb]. js_step. reflexivity.
Qed.

Lemma addConsent_resolves_default (st : state) (fields ctxs dflt : props) :
  truthy (prop fields "context_id") = false ->
  defaultContext st = JObj dflt ->
  preferences st = JObj ctxs ->
  truthy (prop ctxs (toPropertyKey (prop dflt "context_id"))) = false ->
  (if negb (truthy (prop fields "context_id")) then
     seq read (fun st =>
     seq (lift (get (defaultContext st) "context_id")) (fun contextId =>
     seq (lift (get (preferences st) (toPropertyKey contextId))) (fun found =>
     seq (if negb (truthy found) then
            seq (lift (put (preferences st) (toPropertyKey contextId) (defaultContext st)))
                (fun prefs => write (with_preferences prefs st))
          else ret tt) (fun _ =>
     ret contextId))))
   else ret (prop fields "context_id")) st
  = {| final := with_preferences
                  (JObj (assoc_set (toPropertyKey (prop dflt "context_id")) (JObj dflt) ctxs))
                  st;
       trace := [];
       result := Normal (prop dflt "context_id") |}.
Proof.
  intros Hfalsy Hdefault Hprefs Habsent. rewrite Hfalsy. cbn [negb].
  js_step. rewrite Hdefault, Hprefs. cbn [get]. js_step. js_step.
  rewrite Habsent. cbn [negb put].
  js_nested. js_step. reflexivity.
Qed.

(** One round, once its context is resolved: [ctxs1] are the contexts the
    round works on, the stored ones or these with the default context
    installed. *)
Lemma addConsent_round (h : Host) (key : string) (fields ctxs1 ctx cs : props) (st : state) :
  let contextId := toPropertyKey (resolved_context st fields) in
  (if negb (truthy (prop fields "context_id")) then
     seq read (fun st =>
     seq (lift (get (defaultContext st) "context_id")) (fun contextId =>
     seq (lift (get (preferences st) (toPropertyKey contextId))) (fun found =>
     seq (if negb (truthy found) then
            seq (lift (put (preferences st) (toPropertyKey contextId) (defaultContext st)))
                (fun prefs => write (with_preferences prefs st))
          else ret tt) (fun _ =>
     ret contextId))))
   else ret (prop fields "context_id")) st
  = {| final := with_preferences (JObj ctxs1) st; trace := [];
       result := Normal (resolved_context st fields) |} ->
  prop ctxs1 contextId = JObj ctx ->
  prop ctx "consents" = JObj cs ->
  addConsent h key fields st
  = {| final := with_preferences
                  (with_consent contextId key
                     (JObj (declared_record h st key fields (prop cs key))) ctxs1 ctx cs)
                  st;
       trace := [];
       result := Normal tt |}.
Proof.
  intros contextId Hresolve Hctx Hcs.
  unfold addConsent.
  rewrite (seq_normal _ _ _ _ _ Hresolve).
  js_step. cbn [with_preferences preferences get]. js_step. fold contextId. rewrite Hctx.
  cbn [truthy get bind]. rewrite Hcs. cbn [get bind]. js_step.
  repeat first [js_step | progress cbn [get put] | rewrite Hcs].
  reflexivity.
Qed.

(** What [addressed] says about the round. *)
Lemma addressed_cases (st : state) (fields : props) :
  addressed st fields = true ->
  let contextId := toPropertyKey (resolved_context st fields) in
  exists ctxs ctxs1 ctx cs,
    preferences st = JObj ctxs
    /\ (ctxs1 = ctxs
        \/ (ctxs1 = assoc_set contextId (defaultContext st) ctxs
            /\ truthy (prop ctxs contextId) = false))
    /\ prop ctxs1 contextId = JObj ctx
    /\ prop ctx "consents" = JObj cs
    /\ forall h key,
         addConsent h key fields st
         = {| final := with_preferences
                         (with_consent contextId key
                            (JObj (declared_record h st key fields (prop cs key)))
                            ctxs1 ctx cs)
                         st;
              trace := [];
              result := Normal tt |}.
Proof.
  intros Haddressed contextId. unfold addressed in Haddressed. cbv zeta in Haddressed.
  fold contextId in Haddressed.
  apply andb_true_iff in Haddressed. destruct Haddressed as [Haddressed Hshape].
  apply andb_true_iff in Haddressed. destruct Haddressed as [Hstring Hprefs].
  destruct (preferences st) as [| | | | | |ctxs] eqn:Eprefs; try discriminate.
  cbn [entries] in Hshape. fold contextId in Hshape.
  assert (Hdefault : truthy (prop fields "context_id") = false ->
                     exists dflt, defaultContext st = JObj dflt
                                  /\ resolved_context st fields = prop dflt "context_id").
  { intros Hfalsy. unfold resolved_context in *. rewrite Hfalsy in *.
    destruct (defaultContext st) as [| | | | | |dflt]; try discriminate.
    exists dflt. split; reflexivity. }
  apply orb_true_iff in Hshape. destruct Hshape as [Hstored|Hinstall].
  - apply andb_true_iff in Hstored. destruct Hstored as [Hcontext Hconsents].
    destruct (prop ctxs contextId) as [| | | | | |ctx] eqn:Ectx; try discriminate.
    unfold field in Hconsents. cbn [entries] in Hconsents.
    destruct (prop ctx "consents") as [| | | | | |cs] eqn:Ecs; try discriminate.
    exists ctxs, ctxs, ctx, cs.
    split; [reflexivity|]. split; [left; reflexivity|].
    split; [exact Ectx|]. split; [exact Ecs|].
    intros h key.
    apply (addConsent_round h key fields ctxs ctx cs st); [|exact Ectx|exact Ecs].
    apply (addConsent_resolves_stored st fields ctxs ctx); [|exact Eprefs|exact Ectx].
    intros Hfalsy. destruct (Hdefault Hfalsy) as (dflt & Hd & _). rewrite Hd. reflexivity.
  - apply andb_true_iff in Hinstall. destruct Hinstall as [Hinstall Hconsents].
    apply andb_true_iff in Hinstall. destruct Hinstall as [Hinstall _].
    apply andb_true_iff in Hinstall. destruct Hinstall as [Hfalsy Habsent].
    apply negb_true_iff in Hfalsy, Habsent.
    destruct (Hdefault Hfalsy) as (dflt & Hd & Hresolved).
    rewrite Hd in Hconsents. unfold field in Hconsents. cbn [entries] in Hconsents.
    destruct (prop dflt "consents") as [| | | | | |cs] eqn:Ecs; try discriminate.
    exists ctxs, (assoc_set contextId (JObj dflt) ctxs), dflt, cs.
    split; [reflexivity|]. split; [right; rewrite Hd; split; [reflexivity|exact Habsent]|].
    assert (Hctx : prop (assoc_set contextId (JObj dflt) ctxs) contextId = JObj dflt)
      by (rewrite prop_assoc_set, String.eqb_refl; reflexivity).
    split; [exact Hctx|]. split; [exact Ecs|].
    intros h key.
    apply (addConsent_round h key fields _ dflt cs st); [|exact Hctx|exact Ecs].
    subst contextId. rewrite Hresolved in *.
    apply (addConsent_resolves_default st fields ctxs dflt Hfalsy Hd Eprefs Habsent).
Qed.

Lemma stored_round (st : state) (contextId key c k : string) (consent : value)
  (ctxs ctx cs : props) :
  prop ctxs contextId = JObj ctx ->
  prop ctx "consents" = JObj cs ->
  stored (with_preferences (with_consent contextId key consent ctxs ctx cs) st) c k
  = if String.eqb c contextId && String.eqb k key then consent
    else stored (with_preferences (JObj ctxs) st) c k.
Proof.
  intros Hctx Hcs. unfold stored, with_preferences, with_consent.
  cbn [preferences entries]. rewrite prop_assoc_set.
  destruct (String.eqb c contextId) eqn:Ec; cbn [andb]; [|reflexivity].
  apply String.eqb_eq in Ec. subst c. cbn [consents_of].
  rewrite prop_assoc_set. cbn [String.eqb Ascii.eqb Bool.eqb entries].
  rewrite prop_assoc_set, Hctx. cbn [consents_of]. rewrite Hcs. reflexivity.
Qed.

(** Installing the default context changes nothing that is stored. *)
Lemma stored_installed (st : state) (contextId c k : string) (ctxs ctxs1 X : props) :
  preferences st = JObj ctxs ->
  ctxs1 = ctxs
  \/ (ctxs1 = assoc_set contextId (defaultContext st) ctxs
      /\ truthy (prop ctxs contextId) = false) ->
  stored st c k = JObj X ->
  stored (with_preferences (JObj ctxs1) st) c k = JObj X.
Proof.
  intros Hprefs Hcases Hstored. unfold stored in *. rewrite Hprefs in Hstored.
  cbn [with_preferences preferences entries] in *.
  destruct Hcases as [->|[-> Habsent]]; [exact Hstored|].
  rewrite prop_assoc_set. destruct (String.eqb c contextId) eqn:Ec; [|exact Hstored].
  apply String.eqb_eq in Ec. subst c.
  destruct (prop ctxs contextId); try discriminate Habsent; discriminate Hstored.
Qed.

Lemma resolved_round (st : state) (prefs : value) (fields : props) :
  resolved_context (with_preferences prefs st) fields = resolved_context st fields.
Proof.
  reflexivity.
Qed.

Section Rounds.

Variable h : Host.

Lemma round_returns (key : string) (fields : props) (st : state) :
  addressed st fields = true ->
  result (addConsent h key fields st) = Normal tt
  /\ trace (addConsent h key fields st) = []
  /\ forall fields', resolved_context (final (addConsent h key fields st)) fields'
                     = resolved_context st fields'.
Proof.
  intros Haddressed.
  destruct (addressed_cases st fields Haddressed) as (ctxs & ctxs1 & ctx & cs & _ & _ & _ & _ & Hround).
  rewrite (Hround h key). repeat split.
Qed.

Lemma round_frame (key : string) (fields : props) (st : state) (c k : string) (X : props) :
  addressed st fields = true ->
  String.eqb k key = false ->
  stored st c k = JObj X ->
  stored (final (addConsent h key fields st)) c k = JObj X.
Proof.
  intros Haddressed Hother Hstored.
  destruct (addressed_cases st fields Haddressed)
    as (ctxs & ctxs1 & ctx & cs & Hprefs & Hcases & Hctx & Hcs & Hround).
  rewrite (Hround h key). cbn [final].
  rewrite (stored_round st _ key c k _ ctxs1 ctx cs Hctx Hcs).
  rewrite Hother, andb_false_r.
  exact (stored_installed st _ c k ctxs ctxs1 X Hprefs Hcases Hstored).
Qed.

Lemma round_merges (key : string) (fields : props) (st : state) (X : props) :
  addressed st fields = true ->
  stored st (toPropertyKey (resolved_context st fields)) key = JObj X ->
  stored (final (addConsent h key fields st)) (toPropertyKey (resolved_context st fields)) key
  = JObj (declared_record h st key fields (JObj X)).
Proof.
  intros Haddressed Hstored.
  destruct (addressed_cases st fields Haddressed)
    as (ctxs & ctxs1 & ctx & cs & Hprefs & Hcases & Hctx & Hcs & Hround).
  rewrite (Hround h key). cbn [final].
  rewrite (stored_round st _ key _ key _ ctxs1 ctx cs Hctx Hcs).
  rewrite !String.eqb_refl. cbn [andb].
  pose proof (stored_installed st _ _ key ctxs ctxs1 X Hprefs Hcases Hstored) as Hmid.
  unfold stored in Hmid. cbn [with_preferences preferences entries] in Hmid.
  rewrite Hctx in Hmid. cbn [consents_of] in Hmid. rewrite Hcs in Hmid.
  cbn [entries] in Hmid. rewrite Hmid. reflexivity.
Qed.

Lemma round_addressed (key : string) (fields fields' : props) (st : state) :
  addressed st fields = true ->
  addressed st fields' = true ->
  addressed (final (addConsent h key fields st)) fields' = true.
Proof.
  intros Haddressed Hother.
  destruct (addressed_cases st fields Haddressed)
    as (ctxs & ctxs1 & ctx & cs & Hprefs & Hcases & Hctx & Hcs & Hround).
  rewrite (Hround h key). cbn [final].
  unfold addressed in *. rewrite resolved_round.
  set (id := toPropertyKey (resolved_context st fields')) in *.
  set (contextId := toPropertyKey (resolved_context st fields)) in *.
  rewrite Hprefs in Hother. cbn [entries isObject] in Hother.
  cbn [with_preferences with_consent preferences defaultContext entries isObject].
  apply andb_true_iff in Hother. destruct Hother as [Hstring Hshape].
  rewrite Hstring. cbn [andb].
  rewrite prop_assoc_set. destruct (String.eqb id contextId) eqn:Eid.
  - cbn [isObject andb]. unfold field. cbn [entries]. rewrite prop_assoc_set. reflexivity.
  - assert (Hsame : prop ctxs1 id = prop ctxs id).
    { destruct Hcases as [->|[-> _]]; [reflexivity|].
      rewrite prop_assoc_set, Eid. reflexivity. }
    rewrite Hsame. rewrite andb_true_r in Hstring. exact Hshape.
Qed.

Lemma addConsents_rounds (consents : list (string * props)) :
  forall st,
    forallb (fun kv => addressed st (snd kv)) consents = true ->
    let o := for_each (fun kv => addConsent h (fst kv) (snd kv)) consents st in
    result o = Normal tt
    /\ trace o = []
    /\ (forall c k X, mem_key k (map fst consents) = false ->
        stored st c k = JObj X -> stored (final o) c k = JObj X).
Proof.
  induction consents as [|[key fields] rest IH]; intros st Hall; cbn [for_each fst snd].
  - repeat split. intros c k X _ Hstored. exact Hstored.
  - cbn [forallb fst snd] in Hall. apply andb_true_iff in Hall. destruct Hall as [Hhead Hrest].
    destruct (round_returns key fields st Hhead) as (Hres & Htrace & Hresolved).
    assert (Hrest1 : forallb (fun kv => addressed (final (addConsent h key fields st)) (snd kv))
                             rest = true).
    { apply forallb_forall. intros kv Hkv. rewrite forallb_forall in Hrest.
      apply (round_addressed key fields (snd kv) st Hhead (Hrest kv Hkv)). }
    destruct (IH _ Hrest1) as (Hres1 & Htrace1 & Hframe1).
    cbv zeta. unfold seq. rewrite Hres, Htrace. cbn [app result final trace].
    cbv zeta in Hres1, Htrace1, Hframe1.
    destruct (for_each (fun kv => addConsent h (fst kv) (snd kv)) rest
                (final (addConsent h key fields st))) as [st2 t2 r2] eqn:Erest.
    cbn [result final trace] in *.
    split; [exact Hres1|]. split; [exact Htrace1|].
    intros c k X Hk Hstored. unfold mem_key in Hk. cbn [map fst existsb] in Hk.
    apply orb_false_iff in Hk. destruct Hk as [Hkey Hk].
    apply (Hframe1 c k X Hk). apply round_frame; assumption.
Qed.

Lemma addConsents_merge_rounds (key contextId : string) (fields old : props)
  (consents : list (string * props)) :
  forall st,
    distinct (map fst consents) = true ->
    forallb (fun kv => addressed st (snd kv)) consents = true ->
    In (key, fields) consents ->
    toPropertyKey (resolved_context st fields) = contextId ->
    stored st contextId key = JObj old ->
    exists st1,
      stored (final (for_each (fun kv => addConsent h (fst kv) (snd kv)) consents st))
             contextId key
      = JObj (declared_record h st1 key fields (JObj old)).
Proof.
  induction consents as [|[k f] rest IH]; intros st Hdistinct Hall Hin Hcid Hstored.
  - destruct Hin.
  - cbn [map fst distinct] in Hdistinct.
    apply andb_true_iff in Hdistinct. destruct Hdistinct as [Hfresh Hdistinct].
    apply negb_true_iff in Hfresh.
    cbn [forallb fst snd] in Hall. apply andb_true_iff in Hall. destruct Hall as [Hhead Hrest].
    destruct (round_returns k f st Hhead) as (Hres & Htrace & Hresolved).
    assert (Hrest1 : forallb (fun kv => addressed (final (addConsent h k f st)) (snd kv))
                             rest = true).
    { apply forallb_forall. intros kv Hkv. rewrite forallb_forall in Hrest.
      apply (round_addressed k f (snd kv) st Hhead (Hrest kv Hkv)). }
    assert (Hstep : final (for_each (fun kv => addConsent h (fst kv) (snd kv))
                             ((k, f) :: rest) st)
                    = final (for_each (fun kv => addConsent h (fst kv) (snd kv)) rest
                               (final (addConsent h k f st)))).
    { cbn [for_each fst snd]. unfold seq. rewrite Hres. reflexivity. }
    rewrite Hstep.
    destruct Hin as [Heq|Hin].
    + inversion Heq; subst k f. clear Heq.
      destruct (addConsents_rounds rest _ Hrest1) as (_ & _ & Hframe).
      exists st. apply (Hframe contextId key _ Hfresh).
      rewrite <- Hcid. apply round_merges; [exact Hhead|].
      rewrite Hcid. exact Hstored.
    + assert (Hother : String.eqb key k = false).
      { apply String.eqb_neq. intros ->.
        assert (Hmem : mem_key k (map fst rest) = true).
        { unfold mem_key. apply existsb_exists. exists k. split.
          - apply in_map_iff. exists (k, fields). split; [reflexivity|exact Hin].
          - apply String.eqb_refl. }
        congruence. }
      apply (IH _ Hdistinct Hrest1 Hin).
      * rewrite Hresolved. exact Hcid.
      * apply round_frame; assumption.
Qed.

End Rounds.

(** The record a round merges over a stored one. *)
Lemma declared_record_merges (h : Host) (st : state) (key : string) (fields old : props) :
  proper fields = true -> proper old = true -> old <> [] ->
  let merged := declared_record h st key fields (JObj old) in
  (forall f, f <> "issuer" -> f <> "expiry_date" ->
     prop merged f = match lookup f fields with Some v => v | None => prop old f end)
  /\ prop merged "issuer" = issuer h
  /\ (truthy (prop fields "expiry_date") = false -> prop merged "expiry_date" = JStr "")
  /\ (forall s, prop fields "expiry_date" = JStr s -> s <> "" ->
      prop merged "expiry_date"
      = match dayjsFormat h (JStr s) with Some t => JNum t | None => JStr "" end).
Proof.
  intros Hfields Hold Hne merged. subst merged. unfold declared_record.
  assert (Hnonempty : isEmpty (JObj old) = false) by (destruct old; [contradiction|reflexivity]).
  rewrite Hnonempty. cbn [negb entries].
  split; [|split; [|split]].
  - intros f Hissuer Hexpiry. rewrite !prop_assoc_set.
    apply String.eqb_neq in Hissuer, Hexpiry. rewrite Hissuer, Hexpiry.
    rewrite (prop_assign _ _ _ Hfields).
    destruct (lookup f fields); [reflexivity|].
    rewrite (prop_assign _ _ _ Hold). unfold prop.
    destruct (lookup f old); reflexivity.
  - rewrite !prop_assoc_set. reflexivity.
  - intros Hfalsy. rewrite prop_assoc_set. cbn [String.eqb Ascii.eqb Bool.eqb].
    unfold normalized_expiry, js_or. rewrite Hfalsy. reflexivity.
  - intros s Hs Hsome. rewrite prop_assoc_set. cbn [String.eqb Ascii.eqb Bool.eqb].
    unfold normalized_expiry, js_or. rewrite Hs. cbn [truthy].
    apply String.eqb_neq in Hsome. rewrite Hsome. cbn [negb parsable isEmpty isString orb andb].
    unfold parsable. cbn [isEmpty isString orb]. rewrite Hsome. reflexivity.
Qed.

(** C4, amended: for a call of addConsents whose purposes are each addressed,
    by a string, to a context the preferences hold or, naming none, to the
    default context, the call returns, and a purpose of the call that has a
    (non-empty) record in its resolved context ends with the merged record:
    every field but issuer and expiry_date holds the supplied value where the
    input has one and the previous value otherwise; issuer is the configured
    issuer; expiry_date is replaced by the date of the input: empty when the
    input has none, and for a date string the parsed date, empty when it does
    not parse. *)
Theorem addConsents_merges_over_existing (h : Host) (consents : list (string * props))
  (key : string) (fields old : props) (st : state) :
  let contextId := toPropertyKey (resolved_context st fields) in
  distinct (map fst consents) = true ->
  forallb (fun kv => addressed st (snd kv)) consents = true ->
  In (key, fields) consents ->
  proper fields = true -> proper old = true ->
  stored st contextId key = JObj old -> old <> [] ->
  let o := addConsents h consents st in
  result o = Normal tt
  /\ trace o = []
  /\ exists merged,
       stored (final o) contextId key = JObj merged
       /\ (forall f, f <> "issuer" -> f <> "expiry_date" ->
           prop merged f = match lookup f fields with Some v => v | None => prop old f end)
       /\ prop merged "issuer" = issuer h
       /\ (truthy (prop fields "expiry_date") = false -> prop merged "expiry_date" = JStr "")
       /\ (forall s, prop fields "expiry_date" = JStr s -> s <> "" ->
           prop merged "expiry_date"
           = match dayjsFormat h (JStr s) with Some t => JNum t | None => JStr "" end).
Proof.
  intros contextId Hdistinct Hall Hin Hfields Hold Hstored Hne o.
  assert (Hcall : o = for_each (fun kv => addConsent h (fst kv) (snd kv)) consents st).
  { subst o. unfold addConsents. destruct consents; [destruct Hin|reflexivity]. }
  rewrite Hcall.
  destruct (addConsents_rounds h consents st Hall) as (Hres & Htrace & _).
  split; [exact Hres|]. split; [exact Htrace|].
  destruct (addConsents_merge_rounds h key contextId fields old consents
              st Hdistinct Hall Hin eq_refl Hstored) as (st1 & Hmerged).
  exists (declared_record h st1 key fields (JObj old)).
  split; [exact Hmerged|].
  exact (declared_record_merges h st1 key fields old Hfields Hold Hne).
Qed.

Lemma addConsents_merges_over_existing_witness :
  distinct (map fst [ ("ads", [("status", JStr "given")]);
                      ("marketing", [("description", JStr "newsletter")]) ]) = true
  /\ forallb (fun kv => addressed declared (snd kv))
             [ ("ads", [("status", JStr "given")]);
               ("marketing", [("description", JStr "newsletter")]) ] = true
  /\ stored declared "ctx-0" "marketing"
     = JObj (entries (stored declared "ctx-0" "marketing"))
  /\ result (addConsents demo [ ("ads", [("status", JStr "given")]);
                                ("marketing", [("description", JStr "newsletter")]) ]
               declared)
     = Normal tt.
Proof.
  split; [reflexivity|]. split; [reflexivity|]. split; [reflexivity|].
  refine (proj1 (addConsents_merges_over_existing demo
                   [ ("ads", [("status", JStr "given")]);
                     ("marketing", [("description", JStr "newsletter")]) ]
                   "marketing" [("description", JStr "newsletter")]
                   (entries (stored declared "ctx-0" "marketing"))
                   declared eq_refl eq_refl _ eq_refl eq_refl eq_refl _)).
  - right. left. reflexivity.
  - vm_compute. discriminate.
Defined.

(** ** What configure writes and sends *)







